(** * Resident identity numbers: validation, parsing, enumeration, sampling

    A shallow embedding of [id_card_toolkit.py] (class [IDCardToolkit]) and
    of the Python built-ins it calls.  Python [str] values are sequences of
    Unicode code points; exceptions are explicit results; the region table
    is a finite map; the wall clock is an argument. *)

From Stdlib Require Import ZArith NArith List String Ascii Lia Bool.
From stdpp Require Import base option list gmap strings.

(** ** Unicode character data

    The properties CPython's [str] methods consult (Unicode 14.0, the
    version behind CPython 3.11): white space for [strip] and [isspace],
    decimal values for [int] and the regular expression class [\d], the
    digit property for [isdigit], and the unconditional full upper-case
    mapping for [upper]. *)

Module Unicode.
Local Open Scope N_scope.

(** Code points [str.isspace] accepts, as inclusive ranges. *)
Definition white_space : list (N * N) :=
  [(0x9, 0xD); (0x1C, 0x20); (0x85, 0x85); (0xA0, 0xA0); (0x1680, 0x1680);
   (0x2000, 0x200A); (0x2028, 0x2029); (0x202F, 0x202F); (0x205F, 0x205F); (0x3000, 0x3000)].

(** First code point of every run of ten decimal digits (category Nd). *)
Definition decimal_zeros : list N :=
  [0x30; 0x660; 0x6F0; 0x7C0; 0x966; 0x9E6; 0xA66; 0xAE6;
   0xB66; 0xBE6; 0xC66; 0xCE6; 0xD66; 0xDE6; 0xE50; 0xED0;
   0xF20; 0x1040; 0x1090; 0x17E0; 0x1810; 0x1946; 0x19D0; 0x1A80;
   0x1A90; 0x1B50; 0x1BB0; 0x1C40; 0x1C50; 0xA620; 0xA8D0; 0xA900;
   0xA9D0; 0xA9F0; 0xAA50; 0xABF0; 0xFF10; 0x104A0; 0x10D30; 0x11066;
   0x110F0; 0x11136; 0x111D0; 0x112F0; 0x11450; 0x114D0; 0x11650; 0x116C0;
   0x11730; 0x118E0; 0x11950; 0x11C50; 0x11D50; 0x11DA0; 0x16A60; 0x16AC0;
   0x16B50; 0x1D7CE; 0x1D7D8; 0x1D7E2; 0x1D7EC; 0x1D7F6; 0x1E140; 0x1E2F0;
   0x1E950; 0x1FBF0].

(** Code points with a digit value that are not decimal digits
    (superscripts, subscripts, circled and parenthesised digits, ...). *)
Definition other_digits : list (N * N) :=
  [(0xB2, 0xB3); (0xB9, 0xB9); (0x1369, 0x1371); (0x19DA, 0x19DA); (0x2070, 0x2070);
   (0x2074, 0x2079); (0x2080, 0x2089); (0x2460, 0x2468); (0x2474, 0x247C); (0x2488, 0x2490);
   (0x24EA, 0x24EA); (0x24F5, 0x24FD); (0x24FF, 0x24FF); (0x2776, 0x277E); (0x2780, 0x2788);
   (0x278A, 0x2792); (0x10A40, 0x10A43); (0x10E60, 0x10E68); (0x11052, 0x1105A); (0x1F100, 0x1F10A)].

(** One-to-one upper-case mappings [(first, last, step, image of first)]:
    every [step]-th code point from [first] to [last] maps to the image
    at the same offset. *)
Definition simple_uppercase : list (N * N * N * N) :=
  [(0x61, 0x7A, 1, 0x41); (0xB5, 0xB5, 1, 0x39C); (0xE0, 0xF6, 1, 0xC0);
   (0xF8, 0xFE, 1, 0xD8); (0xFF, 0xFF, 1, 0x178); (0x101, 0x12F, 2, 0x100);
   (0x131, 0x131, 1, 0x49); (0x133, 0x137, 2, 0x132); (0x13A, 0x148, 2, 0x139);
   (0x14B, 0x177, 2, 0x14A); (0x17A, 0x17E, 2, 0x179); (0x17F, 0x17F, 1, 0x53);
   (0x180, 0x180, 1, 0x243); (0x183, 0x185, 2, 0x182); (0x188, 0x188, 1, 0x187);
   (0x18C, 0x18C, 1, 0x18B); (0x192, 0x192, 1, 0x191); (0x195, 0x195, 1, 0x1F6);
   (0x199, 0x199, 1, 0x198); (0x19A, 0x19A, 1, 0x23D); (0x19E, 0x19E, 1, 0x220);
   (0x1A1, 0x1A5, 2, 0x1A0); (0x1A8, 0x1A8, 1, 0x1A7); (0x1AD, 0x1AD, 1, 0x1AC);
   (0x1B0, 0x1B0, 1, 0x1AF); (0x1B4, 0x1B6, 2, 0x1B3); (0x1B9, 0x1B9, 1, 0x1B8);
   (0x1BD, 0x1BD, 1, 0x1BC); (0x1BF, 0x1BF, 1, 0x1F7); (0x1C5, 0x1C5, 1, 0x1C4);
   (0x1C6, 0x1C6, 1, 0x1C4); (0x1C8, 0x1C8, 1, 0x1C7); (0x1C9, 0x1C9, 1, 0x1C7);
   (0x1CB, 0x1CB, 1, 0x1CA); (0x1CC, 0x1CC, 1, 0x1CA); (0x1CE, 0x1DC, 2, 0x1CD);
   (0x1DD, 0x1DD, 1, 0x18E); (0x1DF, 0x1EF, 2, 0x1DE); (0x1F2, 0x1F2, 1, 0x1F1);
   (0x1F3, 0x1F3, 1, 0x1F1); (0x1F5, 0x1F5, 1, 0x1F4); (0x1F9, 0x21F, 2, 0x1F8);
   (0x223, 0x233, 2, 0x222); (0x23C, 0x23C, 1, 0x23B); (0x23F, 0x240, 1, 0x2C7E);
   (0x242, 0x242, 1, 0x241); (0x247, 0x24F, 2, 0x246); (0x250, 0x250, 1, 0x2C6F);
   (0x251, 0x251, 1, 0x2C6D); (0x252, 0x252, 1, 0x2C70); (0x253, 0x253, 1, 0x181);
   (0x254, 0x254, 1, 0x186); (0x256, 0x257, 1, 0x189); (0x259, 0x259, 1, 0x18F);
   (0x25B, 0x25B, 1, 0x190); (0x25C, 0x25C, 1, 0xA7AB); (0x260, 0x260, 1, 0x193);
   (0x261, 0x261, 1, 0xA7AC); (0x263, 0x263, 1, 0x194); (0x265, 0x265, 1, 0xA78D);
   (0x266, 0x266, 1, 0xA7AA); (0x268, 0x268, 1, 0x197); (0x269, 0x269, 1, 0x196);
   (0x26A, 0x26A, 1, 0xA7AE); (0x26B, 0x26B, 1, 0x2C62); (0x26C, 0x26C, 1, 0xA7AD);
   (0x26F, 0x26F, 1, 0x19C); (0x271, 0x271, 1, 0x2C6E); (0x272, 0x272, 1, 0x19D);
   (0x275, 0x275, 1, 0x19F); (0x27D, 0x27D, 1, 0x2C64); (0x280, 0x280, 1, 0x1A6);
   (0x282, 0x282, 1, 0xA7C5); (0x283, 0x283, 1, 0x1A9); (0x287, 0x287, 1, 0xA7B1);
   (0x288, 0x288, 1, 0x1AE); (0x289, 0x289, 1, 0x244); (0x28A, 0x28B, 1, 0x1B1);
   (0x28C, 0x28C, 1, 0x245); (0x292, 0x292, 1, 0x1B7); (0x29D, 0x29D, 1, 0xA7B2);
   (0x29E, 0x29E, 1, 0xA7B0); (0x345, 0x345, 1, 0x399); (0x371, 0x373, 2, 0x370);
   (0x377, 0x377, 1, 0x376); (0x37B, 0x37D, 1, 0x3FD); (0x3AC, 0x3AC, 1, 0x386);
   (0x3AD, 0x3AF, 1, 0x388); (0x3B1, 0x3C1, 1, 0x391); (0x3C2, 0x3C2, 1, 0x3A3);
   (0x3C3, 0x3CB, 1, 0x3A3); (0x3CC, 0x3CC, 1, 0x38C); (0x3CD, 0x3CE, 1, 0x38E);
   (0x3D0, 0x3D0, 1, 0x392); (0x3D1, 0x3D1, 1, 0x398); (0x3D5, 0x3D5, 1, 0x3A6);
   (0x3D6, 0x3D6, 1, 0x3A0); (0x3D7, 0x3D7, 1, 0x3CF); (0x3D9, 0x3EF, 2, 0x3D8);
   (0x3F0, 0x3F0, 1, 0x39A); (0x3F1, 0x3F1, 1, 0x3A1); (0x3F2, 0x3F2, 1, 0x3F9);
   (0x3F3, 0x3F3, 1, 0x37F); (0x3F5, 0x3F5, 1, 0x395); (0x3F8, 0x3F8, 1, 0x3F7);
   (0x3FB, 0x3FB, 1, 0x3FA); (0x430, 0x44F, 1, 0x410); (0x450, 0x45F, 1, 0x400);
   (0x461, 0x481, 2, 0x460); (0x48B, 0x4BF, 2, 0x48A); (0x4C2, 0x4CE, 2, 0x4C1);
   (0x4CF, 0x4CF, 1, 0x4C0); (0x4D1, 0x52F, 2, 0x4D0); (0x561, 0x586, 1, 0x531);
   (0x10D0, 0x10FA, 1, 0x1C90); (0x10FD, 0x10FF, 1, 0x1CBD); (0x13F8, 0x13FD, 1, 0x13F0);
   (0x1C80, 0x1C80, 1, 0x412); (0x1C81, 0x1C81, 1, 0x414); (0x1C82, 0x1C82, 1, 0x41E);
   (0x1C83, 0x1C84, 1, 0x421); (0x1C85, 0x1C85, 1, 0x422); (0x1C86, 0x1C86, 1, 0x42A);
   (0x1C87, 0x1C87, 1, 0x462); (0x1C88, 0x1C88, 1, 0xA64A); (0x1D79, 0x1D79, 1, 0xA77D);
   (0x1D7D, 0x1D7D, 1, 0x2C63); (0x1D8E, 0x1D8E, 1, 0xA7C6); (0x1E01, 0x1E95, 2, 0x1E00);
   (0x1E9B, 0x1E9B, 1, 0x1E60); (0x1EA1, 0x1EFF, 2, 0x1EA0); (0x1F00, 0x1F07, 1, 0x1F08);
   (0x1F10, 0x1F15, 1, 0x1F18); (0x1F20, 0x1F27, 1, 0x1F28); (0x1F30, 0x1F37, 1, 0x1F38);
   (0x1F40, 0x1F45, 1, 0x1F48); (0x1F51, 0x1F57, 2, 0x1F59); (0x1F60, 0x1F67, 1, 0x1F68);
   (0x1F70, 0x1F71, 1, 0x1FBA); (0x1F72, 0x1F75, 1, 0x1FC8); (0x1F76, 0x1F77, 1, 0x1FDA);
   (0x1F78, 0x1F79, 1, 0x1FF8); (0x1F7A, 0x1F7B, 1, 0x1FEA); (0x1F7C, 0x1F7D, 1, 0x1FFA);
   (0x1FB0, 0x1FB1, 1, 0x1FB8); (0x1FBE, 0x1FBE, 1, 0x399); (0x1FD0, 0x1FD1, 1, 0x1FD8);
   (0x1FE0, 0x1FE1, 1, 0x1FE8); (0x1FE5, 0x1FE5, 1, 0x1FEC); (0x214E, 0x214E, 1, 0x2132);
   (0x2170, 0x217F, 1, 0x2160); (0x2184, 0x2184, 1, 0x2183); (0x24D0, 0x24E9, 1, 0x24B6);
   (0x2C30, 0x2C5F, 1, 0x2C00); (0x2C61, 0x2C61, 1, 0x2C60); (0x2C65, 0x2C65, 1, 0x23A);
   (0x2C66, 0x2C66, 1, 0x23E); (0x2C68, 0x2C6C, 2, 0x2C67); (0x2C73, 0x2C73, 1, 0x2C72);
   (0x2C76, 0x2C76, 1, 0x2C75); (0x2C81, 0x2CE3, 2, 0x2C80); (0x2CEC, 0x2CEE, 2, 0x2CEB);
   (0x2CF3, 0x2CF3, 1, 0x2CF2); (0x2D00, 0x2D25, 1, 0x10A0); (0x2D27, 0x2D27, 1, 0x10C7);
   (0x2D2D, 0x2D2D, 1, 0x10CD); (0xA641, 0xA66D, 2, 0xA640); (0xA681, 0xA69B, 2, 0xA680);
   (0xA723, 0xA72F, 2, 0xA722); (0xA733, 0xA76F, 2, 0xA732); (0xA77A, 0xA77C, 2, 0xA779);
   (0xA77F, 0xA787, 2, 0xA77E); (0xA78C, 0xA78C, 1, 0xA78B); (0xA791, 0xA793, 2, 0xA790);
   (0xA794, 0xA794, 1, 0xA7C4); (0xA797, 0xA7A9, 2, 0xA796); (0xA7B5, 0xA7C3, 2, 0xA7B4);
   (0xA7C8, 0xA7CA, 2, 0xA7C7); (0xA7D1, 0xA7D1, 1, 0xA7D0); (0xA7D7, 0xA7D9, 2, 0xA7D6);
   (0xA7F6, 0xA7F6, 1, 0xA7F5); (0xAB53, 0xAB53, 1, 0xA7B3); (0xAB70, 0xABBF, 1, 0x13A0);
   (0xFF41, 0xFF5A, 1, 0xFF21); (0x10428, 0x1044F, 1, 0x10400); (0x104D8, 0x104FB, 1, 0x104B0);
   (0x10597, 0x105A1, 1, 0x10570); (0x105A3, 0x105B1, 1, 0x1057C); (0x105B3, 0x105B9, 1, 0x1058C);
   (0x105BB, 0x105BC, 1, 0x10594); (0x10CC0, 0x10CF2, 1, 0x10C80); (0x118C0, 0x118DF, 1, 0x118A0);
   (0x16E60, 0x16E7F, 1, 0x16E40); (0x1E922, 0x1E943, 1, 0x1E900)].

(** Upper-case mappings whose image has several code points. *)
Definition special_uppercase : list (N * list N) :=
  [(0xDF, [0x53; 0x53]); (0x149, [0x2BC; 0x4E]); (0x1F0, [0x4A; 0x30C]);
   (0x390, [0x399; 0x308; 0x301]); (0x3B0, [0x3A5; 0x308; 0x301]); (0x587, [0x535; 0x552]);
   (0x1E96, [0x48; 0x331]); (0x1E97, [0x54; 0x308]); (0x1E98, [0x57; 0x30A]);
   (0x1E99, [0x59; 0x30A]); (0x1E9A, [0x41; 0x2BE]); (0x1F50, [0x3A5; 0x313]);
   (0x1F52, [0x3A5; 0x313; 0x300]); (0x1F54, [0x3A5; 0x313; 0x301]); (0x1F56, [0x3A5; 0x313; 0x342]);
   (0x1F80, [0x1F08; 0x399]); (0x1F81, [0x1F09; 0x399]); (0x1F82, [0x1F0A; 0x399]);
   (0x1F83, [0x1F0B; 0x399]); (0x1F84, [0x1F0C; 0x399]); (0x1F85, [0x1F0D; 0x399]);
   (0x1F86, [0x1F0E; 0x399]); (0x1F87, [0x1F0F; 0x399]); (0x1F88, [0x1F08; 0x399]);
   (0x1F89, [0x1F09; 0x399]); (0x1F8A, [0x1F0A; 0x399]); (0x1F8B, [0x1F0B; 0x399]);
   (0x1F8C, [0x1F0C; 0x399]); (0x1F8D, [0x1F0D; 0x399]); (0x1F8E, [0x1F0E; 0x399]);
   (0x1F8F, [0x1F0F; 0x399]); (0x1F90, [0x1F28; 0x399]); (0x1F91, [0x1F29; 0x399]);
   (0x1F92, [0x1F2A; 0x399]); (0x1F93, [0x1F2B; 0x399]); (0x1F94, [0x1F2C; 0x399]);
   (0x1F95, [0x1F2D; 0x399]); (0x1F96, [0x1F2E; 0x399]); (0x1F97, [0x1F2F; 0x399]);
   (0x1F98, [0x1F28; 0x399]); (0x1F99, [0x1F29; 0x399]); (0x1F9A, [0x1F2A; 0x399]);
   (0x1F9B, [0x1F2B; 0x399]); (0x1F9C, [0x1F2C; 0x399]); (0x1F9D, [0x1F2D; 0x399]);
   (0x1F9E, [0x1F2E; 0x399]); (0x1F9F, [0x1F2F; 0x399]); (0x1FA0, [0x1F68; 0x399]);
   (0x1FA1, [0x1F69; 0x399]); (0x1FA2, [0x1F6A; 0x399]); (0x1FA3, [0x1F6B; 0x399]);
   (0x1FA4, [0x1F6C; 0x399]); (0x1FA5, [0x1F6D; 0x399]); (0x1FA6, [0x1F6E; 0x399]);
   (0x1FA7, [0x1F6F; 0x399]); (0x1FA8, [0x1F68; 0x399]); (0x1FA9, [0x1F69; 0x399]);
   (0x1FAA, [0x1F6A; 0x399]); (0x1FAB, [0x1F6B; 0x399]); (0x1FAC, [0x1F6C; 0x399]);
   (0x1FAD, [0x1F6D; 0x399]); (0x1FAE, [0x1F6E; 0x399]); (0x1FAF, [0x1F6F; 0x399]);
   (0x1FB2, [0x1FBA; 0x399]); (0x1FB3, [0x391; 0x399]); (0x1FB4, [0x386; 0x399]);
   (0x1FB6, [0x391; 0x342]); (0x1FB7, [0x391; 0x342; 0x399]); (0x1FBC, [0x391; 0x399]);
   (0x1FC2, [0x1FCA; 0x399]); (0x1FC3, [0x397; 0x399]); (0x1FC4, [0x389; 0x399]);
   (0x1FC6, [0x397; 0x342]); (0x1FC7, [0x397; 0x342; 0x399]); (0x1FCC, [0x397; 0x399]);
   (0x1FD2, [0x399; 0x308; 0x300]); (0x1FD3, [0x399; 0x308; 0x301]); (0x1FD6, [0x399; 0x342]);
   (0x1FD7, [0x399; 0x308; 0x342]); (0x1FE2, [0x3A5; 0x308; 0x300]); (0x1FE3, [0x3A5; 0x308; 0x301]);
   (0x1FE4, [0x3A1; 0x313]); (0x1FE6, [0x3A5; 0x342]); (0x1FE7, [0x3A5; 0x308; 0x342]);
   (0x1FF2, [0x1FFA; 0x399]); (0x1FF3, [0x3A9; 0x399]); (0x1FF4, [0x38F; 0x399]);
   (0x1FF6, [0x3A9; 0x342]); (0x1FF7, [0x3A9; 0x342; 0x399]); (0x1FFC, [0x3A9; 0x399]);
   (0xFB00, [0x46; 0x46]); (0xFB01, [0x46; 0x49]); (0xFB02, [0x46; 0x4C]);
   (0xFB03, [0x46; 0x46; 0x49]); (0xFB04, [0x46; 0x46; 0x4C]); (0xFB05, [0x53; 0x54]);
   (0xFB06, [0x53; 0x54]); (0xFB13, [0x544; 0x546]); (0xFB14, [0x544; 0x535]);
   (0xFB15, [0x544; 0x53B]); (0xFB16, [0x54E; 0x546]); (0xFB17, [0x544; 0x53D])].

Definition in_range (c : N) (r : N * N) : bool :=
  (r.1 <=? c) && (c <=? r.2).

Definition is_space (c : N) : bool := existsb (in_range c) white_space.

Definition decimal_value (c : N) : option N :=
  match find (fun z => in_range c (z, z + 9)) decimal_zeros with
  | Some z => Some (c - z)
  | None => None
  end.

Definition is_decimal (c : N) : bool :=
  match decimal_value c with Some _ => true | None => false end.

Definition is_digit (c : N) : bool :=
  is_decimal c || existsb (in_range c) other_digits.

Definition maps_simply (c : N) (e : N * N * N * N) : bool :=
  let '(first, last, step, _) := e in
  if in_range c (first, last) then (c - first) mod step =? 0 else false.

Definition to_upper_full (c : N) : list N :=
  match find (maps_simply c) simple_uppercase with
  | Some (first, _, _, image) => [image + (c - first)]
  | None =>
      match find (fun e => e.1 =? c) special_uppercase with
      | Some (_, image) => image
      | None => [c]
      end
  end.

End Unicode.

(** ** Python values and built-ins *)

Module Py.

(** A [str] is its sequence of code points. *)
Abbreviation str := (list N).

(** Exceptions the program can meet.  [OtherError] stands for any
    exception that no handler of the program names. *)
Inductive exn : Set := ValueError | IndexError | FileNotFoundError | OtherError.

#[global] Instance exn_eq_dec : EqDecision exn.
Proof. solve_decision. Defined.

(** A computation either returns or raises. *)
Inductive exc (A : Type) : Type :=
| Return (a : A)
| Raise (e : exn).
Arguments Return {A} a.
Arguments Raise {A} e.

#[global] Instance exc_eq_dec {A} `{EqDecision A} : EqDecision (exc A).
Proof. solve_decision. Defined.

#[global] Instance exc_ret : MRet exc := @Return.
#[global] Instance exc_bind : MBind exc := fun A B f m =>
  match m with Return a => f a | Raise e => Raise e end.

(** [try: body / except handled: handler]. *)
Definition try_except {A} (body : exc A) (handled : exn) (handler : exc A) : exc A :=
  match body with
  | Return a => Return a
  | Raise e => if decide (e = handled) then handler else Raise e
  end.

(** *** String literals

    Literals are written as UTF-8 text and decoded to code points. *)

Local Open Scope N_scope.

Fixpoint utf8_decode (bytes : list N) : str :=
  match bytes with
  | [] => []
  | b :: rest =>
      if b <? 0x80 then b :: utf8_decode rest
      else if b <? 0xE0 then
        match rest with
        | b1 :: rest' => (b mod 0x20) * 0x40 + b1 mod 0x40 :: utf8_decode rest'
        | _ => []
        end
      else if b <? 0xF0 then
        match rest with
        | b1 :: b2 :: rest' =>
            (b mod 0x10) * 0x1000 + (b1 mod 0x40) * 0x40 + b2 mod 0x40
              :: utf8_decode rest'
        | _ => []
        end
      else
        match rest with
        | b1 :: b2 :: b3 :: rest' =>
            (b mod 0x08) * 0x40000 + (b1 mod 0x40) * 0x1000
              + (b2 mod 0x40) * 0x40 + b3 mod 0x40 :: utf8_decode rest'
        | _ => []
        end
  end.

Definition py (literal : string) : str :=
  utf8_decode (map N_of_ascii (list_ascii_of_string literal)).

(** *** [str] methods *)

Fixpoint lstrip (s : str) : str :=
  match s with
  | c :: rest => if Unicode.is_space c then lstrip rest else s
  | [] => []
  end.

Definition rstrip (s : str) : str := rev (lstrip (rev s)).

(** [s.strip()] *)
Definition strip (s : str) : str := rstrip (lstrip s).

(** [s.upper()] *)
Definition upper (s : str) : str := flat_map Unicode.to_upper_full s.

(** [s.isdigit()]: every character is a digit and there is at least one. *)
Definition isdigit (s : str) : bool :=
  match s with [] => false | _ => forallb Unicode.is_digit s end.

(** [s[i:j]] for constants [0 <= i <= j]. *)
Definition slice (i j : nat) (s : str) : str := take (j - i) (drop i s).

(** [s[:-1]] *)
Definition but_last (s : str) : str := take (length s - 1) s.

(** [s[i]] for a constant [0 <= i]. *)
Definition item {A} (i : nat) (s : list A) : exc A :=
  match s !! i with Some c => Return c | None => Raise IndexError end.

(** [s[-1]] *)
Definition last_item {A} (s : list A) : exc A :=
  match last s with Some c => Return c | None => Raise IndexError end.

(** *** [int(s)]

    CPython first rewrites the non-ASCII characters (white space to a
    blank, decimal digits to their ASCII digit, anything else to a
    character no number contains) and then reads a decimal literal:
    blanks, an optional sign, digits with single underscores between
    them, blanks.  ASCII characters are left alone, so the separators
    U+001C to U+001F, white space to [strip], are not blanks here. *)

Definition to_ascii_decimal (c : N) : N :=
  if c <=? 127 then c
  else if Unicode.is_space c then 0x20
  else match Unicode.decimal_value c with
       | Some d => 0x30 + d
       | None => 0x3F
       end.

Definition is_blank (c : N) : bool := Unicode.in_range c (0x09, 0x0D) || (c =? 0x20).

Definition is_ascii_digit (c : N) : bool := Unicode.in_range c (0x30, 0x39).

Fixpoint skip_blanks (s : str) : str :=
  match s with
  | c :: rest => if is_blank c then skip_blanks rest else s
  | [] => []
  end.

(** Digits and underscores; [after_underscore] holds when the character
    just read was an underscore. *)
Fixpoint scan_digits (acc : Z) (after_underscore : bool) (s : str) : option (Z * str) :=
  let stop := if after_underscore then None else Some (acc, s) in
  match s with
  | c :: rest =>
      if is_ascii_digit c then
        scan_digits (acc * 10 + Z.of_N (c - 0x30)) false rest
      else if c =? 0x5F then
        if after_underscore then None else scan_digits acc true rest
      else stop
  | [] => stop
  end.

Definition int (s : str) : exc Z :=
  let t := skip_blanks (map to_ascii_decimal s) in
  let '(sign, t) :=
    match t with
    | 0x2B :: t' => (1%Z, t')
    | 0x2D :: t' => ((-1)%Z, t')
    | _ => (1%Z, t)
    end in
  match t with
  | c :: _ =>
      if is_ascii_digit c then
        match scan_digits 0 false t with
        | Some (v, rest) =>
            match skip_blanks rest with
            | [] => Return (sign * v)%Z
            | _ => Raise ValueError
            end
        | None => Raise ValueError
        end
      else Raise ValueError
  | [] => Raise ValueError
  end.

(** *** Formatting and ranges *)

Fixpoint uint_digits (u : Decimal.uint) : str :=
  match u with
  | Decimal.Nil => []
  | Decimal.D0 u => 0x30 :: uint_digits u
  | Decimal.D1 u => 0x31 :: uint_digits u
  | Decimal.D2 u => 0x32 :: uint_digits u
  | Decimal.D3 u => 0x33 :: uint_digits u
  | Decimal.D4 u => 0x34 :: uint_digits u
  | Decimal.D5 u => 0x35 :: uint_digits u
  | Decimal.D6 u => 0x36 :: uint_digits u
  | Decimal.D7 u => 0x37 :: uint_digits u
  | Decimal.D8 u => 0x38 :: uint_digits u
  | Decimal.D9 u => 0x39 :: uint_digits u
  end.

(** [f"{i:0{width}d}"]: sign, zero padding up to [width], decimal digits. *)
Definition format_0d (width : nat) (i : Z) : str :=
  let digits := uint_digits (N.to_uint (Z.abs_N i)) in
  let sign := if (i <? 0)%Z then [0x2D] else [] in
  sign ++ repeat 0x30 (width - length sign - length digits) ++ digits.

(** [range(start, stop, step)] for a positive [step]. *)
Definition range (start stop step : Z) : list Z :=
  map (fun k => (start + Z.of_nat k * step)%Z)
      (seq 0 (Z.to_nat ((stop - start + step - 1) / step))).

(** [sum(xs)] *)
Definition sum (xs : list Z) : Z := fold_left Z.add xs 0%Z.

(** Comparison of tuples of integers, [a < b]. *)
Fixpoint tuple_lt (a b : list Z) : bool :=
  match a, b with
  | x :: a', y :: b' => (x <? y)%Z || ((x =? y)%Z && tuple_lt a' b')
  | [], _ :: _ => true
  | _, [] => false
  end.

(** *** [datetime] *)

Record date : Set := Date { year : Z; month : Z; day : Z }.

Record datetime : Set :=
  Datetime { on : date; hour : Z; minute : Z; second : Z; microsecond : Z }.

#[global] Instance date_eq_dec : EqDecision date.
Proof. solve_decision. Defined.

#[global] Instance datetime_eq_dec : EqDecision datetime.
Proof. solve_decision. Defined.

Local Open Scope Z_scope.

Definition is_leap (y : Z) : bool :=
  (y mod 4 =? 0) && (negb (y mod 100 =? 0) || (y mod 400 =? 0)).

Definition days_in_month (y m : Z) : Z :=
  if m =? 2 then (if is_leap y then 29 else 28)
  else if (m =? 4) || (m =? 6) || (m =? 9) || (m =? 11) then 30
  else 31.

(** [datetime.date(y, m, d)]: years 1 to 9999. *)
Definition new_date (y m d : Z) : exc date :=
  if (1 <=? y) && (y <=? 9999) && (1 <=? m) && (m <=? 12)
     && (1 <=? d) && (d <=? days_in_month y m)
  then Return (Date y m d)
  else Raise ValueError.

Definition datetime_fields (t : datetime) : list Z :=
  [year (on t); month (on t); day (on t); hour t; minute t; second t; microsecond t].

(** [a > b] on naive datetimes. *)
Definition datetime_gt (a b : datetime) : bool :=
  tuple_lt (datetime_fields b) (datetime_fields a).

(** [d.strftime("%Y-%m-%d")].  CPython hands the format to the C
    library, which writes the year as a plain decimal number, without
    padding (the year 999 gives [999-12-31], the year 1 [1-01-01]), and
    the month and the day on two digits. *)
Definition strftime_Y_m_d (d : date) : str :=
  format_0d 1 (year d) ++ [0x2D%N] ++ format_0d 2 (month d) ++ [0x2D%N] ++ format_0d 2 (day d).

(** *** [datetime.strptime(s, "%Y%m%d")]

    The library compiles the format to the regular expression
    [(\d\d\d\d)(1[0-2]|0[1-9]|[1-9])(3[0-1]|[1-2]\d|0[1-9]|[1-9]| [1-9])],
    takes the first match a backtracking search finds at the start of
    [s], refuses it when characters remain after it, and builds the date
    from the three groups.  A matcher lists, in the order the search
    tries them, the ways it can consume a prefix: (consumed, remaining). *)

Definition matcher := str -> list (str * str).

Definition one (accept : N -> bool) : matcher := fun s =>
  match s with
  | c :: rest => if accept c then [([c], rest)] else []
  | [] => []
  end.

Definition between (lo hi : N) : matcher := one (fun c => Unicode.in_range c (lo, hi)).

(** The class [\d] of a [str] pattern: any decimal digit. *)
Definition re_d : matcher := one Unicode.is_decimal.

Definition then_ (p q : matcher) : matcher := fun s =>
  flat_map (fun '(a, r) => map (fun '(b, r') => (a ++ b, r')) (q r)) (p s).

Definition either (ps : list matcher) : matcher := fun s =>
  flat_map (fun p => p s) ps.

Definition re_Y : matcher := then_ re_d (then_ re_d (then_ re_d re_d)).

Definition re_m : matcher :=
  either [ then_ (between 0x31 0x31) (between 0x30 0x32);
           then_ (between 0x30 0x30) (between 0x31 0x39);
           between 0x31 0x39 ].

Definition re_day : matcher :=
  either [ then_ (between 0x33 0x33) (between 0x30 0x31);
           then_ (between 0x31 0x32) re_d;
           then_ (between 0x30 0x30) (between 0x31 0x39);
           between 0x31 0x39;
           then_ (between 0x20 0x20) (between 0x31 0x39) ].

(** The groups of the first match and what remains after it. *)
Definition re_match_Ymd (s : str) : option (str * str * str * str) :=
  head (flat_map (fun '(y, r1) =>
          flat_map (fun '(m, r2) =>
            map (fun '(d, r3) => (y, m, d, r3)) (re_day r2)) (re_m r1)) (re_Y s)).

Definition strptime_Ymd (s : str) : exc datetime :=
  match re_match_Ymd s with
  | None => Raise ValueError
  | Some (y, m, d, remaining) =>
      match remaining with
      | _ :: _ => Raise ValueError
      | [] =>
          y ← int y; m ← int m; d ← int d;
          day ← new_date y m d;
          Return (Datetime day 0 0 0 0)
      end
  end.

(** *** Loops and dictionaries *)

(** [for x in xs: body], threading the variables the body updates. *)
Fixpoint for_each {A S : Type} (xs : list A) (body : A -> S -> exc S) (state : S) : exc S :=
  match xs with
  | [] => Return state
  | x :: rest => state' ← body x state; for_each rest body state'
  end.

(** [max(xs)] *)
Definition max (xs : list Z) : exc Z :=
  match xs with
  | [] => Raise ValueError
  | x :: rest => Return (fold_left Z.max rest x)
  end.

(** A [dict] whose iteration order matters: keys in insertion order,
    each once. *)
Definition dict (K V : Type) : Type := list (K * V).

Definition dict_get {K V} `{EqDecision K} (k : K) (d : dict K V) : option V :=
  snd <$> find (fun kv => bool_decide (kv.1 = k)) d.

(** [d[k] = v] *)
Fixpoint dict_set {K V} `{EqDecision K} (k : K) (v : V) (d : dict K V) : dict K V :=
  match d with
  | [] => [(k, v)]
  | (k', v') :: rest =>
      if decide (k' = k) then (k', v) :: rest else (k', v') :: dict_set k v rest
  end.

(** [needle in hay] on strings. *)
Fixpoint contains (needle hay : str) : bool :=
  bool_decide (needle `prefix_of` hay)
  || match hay with
     | [] => false
     | _ :: rest => contains needle rest
     end.

End Py.

(** ** The toolkit *)

Module IDCardToolkit.
Import Py.

(** A node of the region document, with or without a [children] entry. *)
#[local] Unset Elimination Schemes.
Inductive RegionNode : Type :=
  Node (code name : str) (children : option (list RegionNode)).
#[local] Set Elimination Schemes.

(** What opening and decoding the region file yields: no such file, some
    other failure (unreadable, not JSON, not a list of region nodes), or
    the decoded document. *)
Inductive source : Type :=
| Missing
| Unreadable
| Document (data : list RegionNode).

Definition json_load (json_path : source) : exc (list RegionNode) :=
  match json_path with
  | Missing => Raise FileNotFoundError
  | Unreadable => Raise OtherError
  | Document data => Return data
  end.

(** The state of an instance: the flattened region table. *)
Record t : Type := New { area_codes : gmap str str }.

Definition WEIGHTS : list Z := [7; 9; 10; 5; 8; 4; 2; 1; 6; 3; 7; 9; 10; 5; 8; 4; 2]%Z.

Definition CHECKSUM_MAP : list str :=
  [py "1"; py "0"; py "X"; py "9"; py "8"; py "7"; py "6"; py "5"; py "4"; py "3"; py "2"].

Fixpoint _flatten_codes_item (item : RegionNode) (parent_name : str)
    (result : gmap str str) : gmap str str :=
  match item with
  | Node code name children =>
      let current_full_name := parent_name ++ name in
      let result := <[code := current_full_name]> result in
      match children with
      | Some data =>
          (fix each (data : list RegionNode) (result : gmap str str) :=
             match data with
             | [] => result
             | item :: rest =>
                 each rest (_flatten_codes_item item current_full_name result)
             end) data result
      | None => result
      end
  end.

Definition _flatten_codes (data : list RegionNode) (parent_name : str)
    (result : gmap str str) : gmap str str :=
  fold_left (fun result item => _flatten_codes_item item parent_name result) data result.

(** The constructor.  A missing file is reported on the console and
    leaves an empty table; any other failure propagates. *)
Definition __init__ (json_path : source) : exc t :=
  area_codes ←
    try_except
      (pca_data ← json_load json_path;
       Return (_flatten_codes pca_data [] ∅))
      FileNotFoundError
      (Return ∅);
  Return (New area_codes).

Fixpoint weighted_terms (pairs : list (N * Z)) : exc (list Z) :=
  match pairs with
  | [] => Return []
  | (digit, weight) :: rest =>
      v ← int [digit];
      vs ← weighted_terms rest;
      Return ((v * weight)%Z :: vs)
  end.

Definition _calculate_checksum (id_prefix : str) : exc str :=
  if negb ((length id_prefix =? 17)%nat && isdigit id_prefix) then Raise ValueError
  else
    terms ← weighted_terms (zip id_prefix WEIGHTS);
    let total := sum terms in
    item (Z.to_nat (total mod 11)) CHECKSUM_MAP.

Definition validate (self : t) (now : datetime) (id_number : str) : exc (bool * str) :=
  let id_number := upper (strip id_number) in
  if negb (length id_number =? 18)%nat then
    Return (false, py "长度错误：必须为18位")
  else
  let prefix := but_last id_number in
  if negb (isdigit prefix) then
    Return (false, py "格式错误：前17位必须是数字")
  else
  c ← last_item id_number;
  let last_char := [c] in
  if negb (isdigit last_char || bool_decide (last_char = py "X")) then
    Return (false, py "格式错误：最后一位必须是数字或'X'")
  else
  let area_code := slice 0 6 id_number in
  match area_codes self !! area_code with
  | None => Return (false, py "地址码错误：无效的行政区划代码 " ++ area_code)
  | Some _ =>
  let birth_date_str := slice 6 14 id_number in
  returned ←
    try_except
      (birth_date ← strptime_Ymd birth_date_str;
       if datetime_gt birth_date now then
         Return (Some (false, py "日期错误：出生日期不能是未来日期 " ++ birth_date_str))
       else Return None)
      ValueError
      (Return (Some (false, py "日期错误：无效的出生日期格式 " ++ birth_date_str)));
  match returned with
  | Some result => Return result
  | None =>
  returned ←
    try_except
      (expected_checksum ← _calculate_checksum prefix;
       if negb (bool_decide (last_char = expected_checksum)) then
         Return (Some (false, py "校验码错误：计算值应为 '" ++ expected_checksum
                                ++ py "'，提供值为 '" ++ last_char ++ py "'"))
       else Return None)
      ValueError
      (Return (Some (false, py "内部计算错误")));
  match returned with
  | Some result => Return result
  | None => Return (true, py "身份证号码有效")
  end
  end
  end.

(** The dictionary [parse] returns. *)
Record address_info : Type :=
  AddressInfo { province : str; city : str; district : str }.

Record identity : Type :=
  Identity {
    address_code : str;
    address : address_info;
    birth_date : str;
    age : Z;
    gender : str;
    sequence_code : str;
    checksum : str }.

Inductive parsed : Type :=
| Invalid (error : str)        (* valid: False, error *)
| Valid (fields : identity).   (* valid: True, and the fields *)

Definition get (d : gmap str str) (k : str) (fallback : str) : str :=
  default fallback (d !! k).

Definition parse (self : t) (now : datetime) (today : date) (id_number : str) : exc parsed :=
  '(is_valid, message) ← validate self now id_number;
  if negb is_valid then Return (Invalid message) else
  let area_code := slice 0 6 id_number in
  let birth_date_str := slice 6 14 id_number in
  let province_code := slice 0 2 area_code in
  let city_code := slice 0 4 area_code in
  birth_date ← strptime_Ymd birth_date_str;
  let born := on birth_date in
  let age :=
    (year today - year born
     - (if tuple_lt [month today; day today] [month born; day born] then 1 else 0))%Z in
  seq_code ← int (slice 14 17 id_number);
  c ← item 16 id_number;
  v ← int [c];
  let gender := if negb (v mod 2 =? 0)%Z then py "男 (Male)" else py "女 (Female)" in
  last ← last_item id_number;
  Return (Valid
    {| address_code := area_code;
       address :=
         {| province := get (area_codes self) province_code
                          (py "未知省份(" ++ province_code ++ py ")");
            city := get (area_codes self) city_code
                      (py "未知城市(" ++ city_code ++ py ")");
            district := get (area_codes self) area_code
                          (py "未知区县(" ++ area_code ++ py ")") |};
       birth_date := strftime_Y_m_d born;
       age := age;
       gender := gender;
       sequence_code := slice 14 17 id_number;
       checksum := [last] |}).

Definition guess (self : t) (area_code birth_date gender : str) : exc (list str) :=
  match area_codes self !! area_code with
  | None => Return [py "错误: 无效或不存在的行政区划代码 " ++ area_code]
  | Some _ =>
  returned ←
    try_except
      (_ ← strptime_Ymd birth_date; Return None)
      ValueError
      (Return (Some [py "错误: 无效的出生日期格式 " ++ birth_date ++ py " (应为 YYYYMMDD)"]));
  match returned with
  | Some result => Return result
  | None =>
  let gender := upper gender in
  if negb (bool_decide (gender ∈ [py "M"; py "F"])) then
    Return [py "错误: 性别必须是 'M' 或 'F'"]
  else
  let prefix_14 := area_code ++ birth_date in
  let start := if bool_decide (gender = py "M") then 1%Z else 2%Z in
  for_each (range start 1000 2)
    (fun i possible_ids =>
       let seq_code := format_0d 3 i in
       let prefix_17 := prefix_14 ++ seq_code in
       check ← _calculate_checksum prefix_17;
       Return (possible_ids ++ [prefix_17 ++ check]))
    []
  end
  end.

(** One group of the sample: the sequence numbers seen, by sex. *)
Record bucket : Type := Bucket { male_seqs : list Z; female_seqs : list Z }.

(** One entry of the report (the source's keys are in comments). *)
Record estimate : Type :=
  Estimate {
    sample_count : Z;          (* 有效样本数量 *)
    estimated_males : Z;       (* 估算男性登记数 *)
    estimated_females : Z;     (* 估算女性登记数 *)
    estimated_total : Z;       (* 估算总登记数 *)
    note : str }.              (* 备注 *)

Record summary_counts : Type :=
  Summary { total_records : Z; valid_records : Z; invalid_records : Z }.

Record analysis : Type :=
  Analysis {
    summary : summary_counts;
    analysis_report : dict str estimate;
    invalid_details : list (str * str) }.   (* 号码, 错误原因 *)

(** [stats[key]] on the [defaultdict]. *)
Definition stats_get (key : str * str) (stats : dict (str * str) bucket) : bucket :=
  default (Bucket [] []) (dict_get key stats).

Definition len {A} (xs : list A) : Z := Z.of_nat (length xs).

Definition analyze_population_sample (self : t) (now : datetime) (id_list : list str)
    : exc analysis :=
  '(valid_ids, invalid_details) ←
    for_each id_list
      (fun id_number '((valid_ids, invalid_details) : list str * list (str * str)) =>
         '(is_valid, message) ← validate self now id_number;
         if (is_valid : bool) then Return (valid_ids ++ [id_number], invalid_details)
         else Return (valid_ids, invalid_details ++ [(id_number, message)]))
      ([], []);
  stats ←
    for_each valid_ids
      (fun id_number (stats : dict (str * str) bucket) =>
         let key := (slice 0 6 id_number, slice 6 14 id_number) in
         seq ← int (slice 14 17 id_number);
         let data := stats_get key stats in
         if negb (seq mod 2 =? 0)%Z then
           Return (dict_set key (Bucket (male_seqs data ++ [seq]) (female_seqs data)) stats)
         else
           Return (dict_set key (Bucket (male_seqs data) (female_seqs data ++ [seq])) stats))
      [];
  analysis_report ←
    for_each stats
      (fun '(key, data) (analysis_report : dict str estimate) =>
         let '(area_code, date_str) := key in
         let area_name := get (area_codes self) area_code (py "未知地区") in
         max_male_seq ←
           match male_seqs data with [] => Return 0%Z | seqs => max seqs end;
         max_female_seq ←
           match female_seqs data with [] => Return 0%Z | seqs => max seqs end;
         let estimated_males :=
           if (max_male_seq >? 0)%Z then ((max_male_seq + 1) / 2)%Z else 0%Z in
         let estimated_females :=
           if (max_female_seq >? 0)%Z then (max_female_seq / 2)%Z else 0%Z in
         Return (dict_set (area_name ++ py " (" ++ date_str ++ py ")")
                   {| sample_count := (len (male_seqs data) + len (female_seqs data))%Z;
                      estimated_males := estimated_males;
                      estimated_females := estimated_females;
                      estimated_total := (estimated_males + estimated_females)%Z;
                      note := py "基于样本中最大顺序码的统计估算，非精确值。" |}
                   analysis_report))
      [];
  Return
    {| summary :=
         {| total_records := len id_list;
            valid_records := len valid_ids;
            invalid_records := len invalid_details |};
       analysis_report := analysis_report;
       invalid_details := invalid_details |}.

(** The start of [main_cli]: the instance the menu loop runs with, or
    [None] when the function returns before the loop (the constructor
    raised, or the region table is empty). *)
Definition main_cli_toolkit (json_path : source) : option t :=
  match __init__ json_path with
  | Return toolkit =>
      if bool_decide (area_codes toolkit = ∅) then None else Some toolkit
  | Raise _ => None
  end.

(** In [main_cli], choice 2: the test [results and "错误" in results[0]]
    that tells a refusal of [guess] from a list of numbers. *)
Definition main_cli_guess_refused (results : list str) : bool :=
  match results with
  | [] => false
  | first :: _ => contains (py "错误") first
  end.

(** In [main_cli], choice 3: the list read from the lines of the file,
    [[line.strip() for line in f if line.strip()]]. *)
Definition main_cli_id_list (lines : list str) : list str :=
  map strip (List.filter (fun line => negb (bool_decide (strip line = []))) lines).

(** In [main_cli], choice 3: nothing is analysed when the list is empty;
    otherwise the list goes to [analyze_population_sample]. *)
Definition main_cli_analysis (self : t) (now : datetime) (lines : list str)
    : option (exc analysis) :=
  let id_list := main_cli_id_list lines in
  match id_list with
  | [] => None
  | _ => Some (analyze_population_sample self now id_list)
  end.

End IDCardToolkit.

(** ** Tests decided by computation

    A fact about every code point is decided by running a boolean test
    over the code points the tables mention; the others are neither
    white space nor digits and have no upper-case mapping.  The
    readings of short digit strings by [int] and [strptime] are tested
    the same way. *)

Module Scan.
Import Unicode.
Local Open Scope N_scope.

(** The code points of an inclusive range. *)
Definition expand (r : N * N) : list N :=
  map (fun k => r.1 + N.of_nat k) (seq 0 (N.to_nat (r.2 + 1 - r.1))).

Definition mentioned : list N :=
  flat_map expand white_space
  ++ flat_map (fun z => expand (z, z + 9)) decimal_zeros
  ++ flat_map expand other_digits
  ++ flat_map (fun e => expand (e.1.1.1, e.1.1.2)) simple_uppercase
  ++ map fst special_uppercase.

Definition fixed_by_upper (c : N) : bool :=
  match to_upper_full c with
  | [d] => d =? c
  | _ => false
  end.

(** What the proofs need of a code point: white space and digits have no
    upper-case mapping of their own, a digit is not white space, the
    image of anything else is a non-empty run without white space,
    every character of an image is its own image, and only a digit, [X]
    and [x] have an image made of digits and [X]. *)
Definition well_behaved (c : N) : bool :=
  (if is_space c then fixed_by_upper c
   else match to_upper_full c with
        | [] => false
        | image => forallb (fun d => negb (is_space d)) image
        end)
  && (if is_digit c then fixed_by_upper c && negb (is_space c) else true)
  && forallb fixed_by_upper (to_upper_full c)
  && (if forallb (fun d => is_digit d || (d =? 0x58)) (to_upper_full c)
      then is_digit c || (c =? 0x58) || (c =? 0x78)
      else true).

(** [int] reads a single character exactly when it is a decimal digit. *)
Definition int_reads (c : N) : Prop :=
  Py.int [c] = match decimal_value c with
               | Some d => Py.Return (Z.of_N d)
               | None => Py.Raise Py.ValueError
               end.

(** What [int] does once blanks and sign are passed. *)
Definition read_digits (sign : Z) (t : Py.str) : Py.exc Z :=
  match t with
  | c :: _ =>
      if Py.is_ascii_digit c then
        match Py.scan_digits 0 false t with
        | Some (v, rest) =>
            match Py.skip_blanks rest with
            | [] => Py.Return (sign * v)%Z
            | _ :: _ => Py.Raise Py.ValueError
            end
        | None => Py.Raise Py.ValueError
        end
      else Py.Raise Py.ValueError
  | [] => Py.Raise Py.ValueError
  end.

(** The month and day groups of the first match on four characters, when
    it leaves nothing. *)
Definition month_day (r : Py.str) : option (Py.str * Py.str) :=
  match head (flat_map (fun '(m, r2) => map (fun '(d, r3) => (m, d, r3)) (Py.re_day r2))
                (Py.re_m r)) with
  | Some (m, d, []) => Some (m, d)
  | _ => None
  end.

(** What the proofs need of four ASCII digits [m1 m2 d1 d2]: the groups
    are [m1 m2] and [d1 d2] when these write a month from 1 to 12 and a
    day from 1 to 31, and there is no complete match otherwise. *)
Definition month_day_read (r : Py.str) : bool :=
  match r with
  | [m1; m2; d1; d2] =>
      let m := (10 * (Z.of_N m1 - 48) + (Z.of_N m2 - 48))%Z in
      let d := (10 * (Z.of_N d1 - 48) + (Z.of_N d2 - 48))%Z in
      if ((1 <=? m) && (m <=? 12) && (1 <=? d) && (d <=? 31))%Z
      then bool_decide (month_day r = Some ([m1; m2], [d1; d2]))
      else bool_decide (month_day r = None)
  | _ => false
  end.

Definition ascii_digit_codes : list N := [48; 49; 50; 51; 52; 53; 54; 55; 56; 57]%N.

Definition four_digits : list Py.str :=
  flat_map (fun m1 =>
    flat_map (fun m2 =>
      flat_map (fun d1 =>
        map (fun d2 => [m1; m2; d1; d2]) ascii_digit_codes)
        ascii_digit_codes)
      ascii_digit_codes)
    ascii_digit_codes.

(** What the proofs need of a sequence number: [f"{i:03d}"] is three
    ASCII digits that [int] reads back as [i], the last of them with the
    parity of [i]. *)
Definition three_digits (i : Z) : bool :=
  match Py.format_0d 3 i with
  | [a; b; c] =>
      Py.is_ascii_digit a && Py.is_ascii_digit b && Py.is_ascii_digit c
      && bool_decide (Py.int [a; b; c] = Py.Return i)
      && match Py.int [c] with
         | Py.Return v => (v mod 2 =? i mod 2)%Z
         | Py.Raise _ => false
         end
  | _ => false
  end.

(** What the proofs need of four ASCII digits as a year, and of their
    halves as a month or a day: writing the number of the four without
    padding gives them back unless the first is a zero, and writing the
    number of either half on two digits gives the half back. *)
Definition digits_written (r : Py.str) : bool :=
  match r with
  | [a; b; c; d] =>
      let v := fun x : N => (Z.of_N x - 48)%Z in
      ((a =? 48)%N
       || bool_decide (Py.format_0d 1 (((v a * 10 + v b) * 10 + v c) * 10 + v d) = r))
      && bool_decide (Py.format_0d 2 (v a * 10 + v b) = [a; b])
      && bool_decide (Py.format_0d 2 (v c * 10 + v d) = [c; d])
  | _ => false
  end.

End Scan.

(** ** The stated properties

    Definitions that follow the words of the specification, to be
    compared with the embedding above. *)

Module Spec.
Import Unicode Py IDCardToolkit.

(** *** Shapes of strings *)

Definition spaces (s : str) : Prop := Forall (fun c => is_space c = true) s.

(** No white space at the front. *)
Definition starts_clean (s : str) : Prop :=
  match s with c :: _ => is_space c = false | [] => True end.

(** No white space at either end. *)
Definition trimmed (s : str) : Prop := starts_clean s /\ starts_clean (rev s).

Definition ascii_digits (s : str) : Prop := Forall (fun c => is_ascii_digit c = true) s.

Definition decimal_digits (s : str) : Prop := Forall (fun c => is_decimal c = true) s.

(** *** The check character *)

Definition WEIGHT : list Z := [7; 9; 10; 5; 8; 4; 2; 1; 6; 3; 7; 9; 10; 5; 8; 4; 2]%Z.

Definition CHECK_TABLE : list str :=
  map (fun c => [c]) [0x31; 0x30; 0x58; 0x39; 0x38; 0x37; 0x36; 0x35; 0x34; 0x33; 0x32]%N.

(** The value of an ASCII digit. *)
Definition ascii_value (c : N) : Z := Z.of_N c - 48.

(** The value of a decimal digit of any script. *)
Definition digit_value (c : N) : Z :=
  match decimal_value c with Some d => Z.of_N d | None => 0%Z end.

(** [sum(value(p[i]) * WEIGHT[i] for i in 0..16)] *)
Definition weighted_sum (value : N -> Z) (p : str) : Z :=
  fold_right Z.add 0%Z
    (map (fun i => (value (nth i p 0%N) * nth i WEIGHT 0)%Z) (seq 0 17)).

(** The table entry at the remainder. *)
Definition check_char (value : N -> Z) (p : str) : str :=
  nth (Z.to_nat (weighted_sum value p mod 11)) CHECK_TABLE [].

(** *** Calendar dates *)

(** The number a string of ASCII digits writes. *)
Definition number (s : str) : Z :=
  fold_left (fun acc c => (acc * 10 + ascii_value c)%Z) s 0%Z.

(** [YYYYMMDD] read as a day of the calendar, from year 1 on. *)
Definition calendar_date (s : str) : option date :=
  let y := number (slice 0 4 s) in
  let m := number (slice 4 6 s) in
  let d := number (slice 6 8 s) in
  if ((1 <=? y) && (1 <=? m) && (m <=? 12) && (1 <=? d) && (d <=? days_in_month y m))%Z
  then Some (Date y m d)
  else None.

(** *** Validation as an ordered list of checks

    A check gives the reason it reports when it fails. *)

Definition check : Type := str -> option str.

Definition length_check : check := fun n =>
  if (length n =? 18)%nat then None else Some (py "长度错误：必须为18位").

Definition prefix_check : check := fun n =>
  if forallb is_digit (take 17 n) then None
  else Some (py "格式错误：前17位必须是数字").

Definition last_check : check := fun n =>
  match n !! 17%nat with
  | Some c =>
      if is_digit c || (c =? 0x58)%N then None
      else Some (py "格式错误：最后一位必须是数字或'X'")
  | None => Some (py "格式错误：最后一位必须是数字或'X'")
  end.

Definition region_check (table : gmap str str) : check := fun n =>
  match table !! take 6 n with
  | Some _ => None
  | None => Some (py "地址码错误：无效的行政区划代码 " ++ take 6 n)
  end.

Definition date_check (now : datetime) : check := fun n =>
  let digits := slice 6 14 n in
  match strptime_Ymd digits with
  | Return born =>
      if datetime_gt born now
      then Some (py "日期错误：出生日期不能是未来日期 " ++ digits)
      else None
  | Raise _ => Some (py "日期错误：无效的出生日期格式 " ++ digits)
  end.

(** Every character of the prefix is one [int] reads. *)
Definition decimal_check : check := fun n =>
  if forallb is_decimal (take 17 n) then None else Some (py "内部计算错误").

Definition checksum_check : check := fun n =>
  let expected := check_char digit_value (take 17 n) in
  if bool_decide (drop 17 n = expected) then None
  else Some (py "校验码错误：计算值应为 '" ++ expected
               ++ py "'，提供值为 '" ++ drop 17 n ++ py "'").

(** The first check that fails decides; when none fails the number is
    accepted. *)
Definition first_failure (checks : list check) (n : str) : option str :=
  head (omap (fun c : check => c n) checks).

Definition verdict (checks : list check) (n : str) : bool * str :=
  match first_failure checks n with
  | Some reason => (false, reason)
  | None => (true, py "身份证号码有效")
  end.

(** The six checks the specification lists. *)
Definition stated_checks (table : gmap str str) (now : datetime) : list check :=
  [length_check; prefix_check; last_check; region_check table; date_check now;
   checksum_check].

(** The checks the code performs: the six, and before the comparison of
    check characters the conversion of the prefix to numbers. *)
Definition performed_checks (table : gmap str str) (now : datetime) : list check :=
  [length_check; prefix_check; last_check; region_check table; date_check now;
   decimal_check; checksum_check].

(** The kinds of reason. *)
Inductive kind : Set :=
  LengthError | FormatError | AddressError | DateError | ChecksumError
| InternalError | Accepted.

Fixpoint starts_with (label reason : str) : bool :=
  match label, reason with
  | [], _ => true
  | a :: label, b :: reason => (a =? b)%N && starts_with label reason
  | _ :: _, [] => false
  end.

(** A reason is recognised by the words it opens with. *)
Definition kind_of (reason : str) : option kind :=
  snd <$> find (fun entry : str * kind => starts_with entry.1 reason)
    [ (py "长度错误", LengthError); (py "格式错误", FormatError);
      (py "地址码错误", AddressError); (py "日期错误", DateError);
      (py "校验码错误", ChecksumError); (py "内部计算错误", InternalError);
      (py "身份证号码有效", Accepted) ].

(** The kind each check reports. *)
Definition kinds_of_checks : list kind :=
  [LengthError; FormatError; FormatError; AddressError; DateError;
   InternalError; ChecksumError].

(** A trailing [x] read as [X]. *)
Definition fold_last_x (s : str) : str :=
  match last s with
  | Some 0x78%N => but_last s ++ [0x58%N]
  | _ => s
  end.

(** The ordering as the specification states it: the six checks, on the
    input as given but for the case of a trailing [x]. *)
Definition stated_order (self : t) (now : datetime) (s : str) : Prop :=
  validate self now s
  = Return (verdict (stated_checks (area_codes self) now) (fold_last_x s)).

(** The branch of [validate] that reports an internal error is never
    taken. *)
Definition never_internal_error (self : t) (now : datetime) (s : str) : Prop :=
  validate self now s <> Return (false, py "内部计算错误").

(** *** Enumeration *)

(** The number with sequence code [i]: region, date, the code on three
    digits, the check character of these seventeen. *)
Definition candidate (region date : str) (i : Z) : str :=
  let prefix := region ++ date ++ format_0d 3 i in
  prefix ++ check_char digit_value prefix.

(** 1, 3, ..., 999 *)
Definition odd_codes : list Z := map (fun k => (2 * Z.of_nat k + 1)%Z) (seq 0 500).

(** 2, 4, ..., 998 *)
Definition even_codes : list Z := map (fun k => (2 * Z.of_nat k + 2)%Z) (seq 0 499).

(** The sequence code of a number, read as the toolkit reads it. *)
Definition sequence_number (id : str) : exc Z := int (slice 14 17 id).

(** Strictly ascending sequence codes. *)
Definition ascending (ids : list str) : Prop :=
  forall j k a b, (j < k)%nat -> ids !! j = Some a -> ids !! k = Some b ->
    exists x y, sequence_number a = Return x /\ sequence_number b = Return y /\ (x < y)%Z.

(** What [guess] is stated to return for a region and a date. *)
Definition enumerates (self : t) (region date : str) : Prop :=
  exists males females,
    guess self region date (py "M") = Return males
    /\ guess self region date (py "F") = Return females
    /\ males = map (candidate region date) odd_codes
    /\ females = map (candidate region date) even_codes
    /\ length males = 500%nat /\ length females = 499%nat
    /\ ascending males /\ ascending females
    /\ NoDup males /\ NoDup females.

(** The statement for every region code of the table. *)
Definition stated_enumeration (self : t) (region date : str) : Prop :=
  is_Some (area_codes self !! region) ->
  length date = 8%nat -> decimal_digits date ->
  (exists born, strptime_Ymd date = Return born) ->
  enumerates self region date.

(** What is stated of every number [guess] returns. *)
Definition guessed_number_valid (self : t) (now : datetime) (today : date)
    (date gender id : str) : Prop :=
  validate self now id = Return (true, py "身份证号码有效")
  /\ exists fields born,
       parse self now today id = Return (Valid fields)
       /\ IDCardToolkit.gender fields
          = (if bool_decide (gender = py "M") then py "男 (Male)" else py "女 (Female)")
       /\ strptime_Ymd date = Return born
       /\ birth_date fields = strftime_Y_m_d (on born).

Definition stated_guessed_valid (self : t) (now : datetime) (today : date)
    (region date gender : str) : Prop :=
  is_Some (area_codes self !! region) ->
  (exists born, strptime_Ymd date = Return born) ->
  gender = py "M" \/ gender = py "F" ->
  forall ids id, guess self region date gender = Return ids -> id ∈ ids ->
    guessed_number_valid self now today date gender id.

(** *** The sample analysis *)

Definition is_accepted (self : t) (now : datetime) (id : str) : bool :=
  match validate self now id with
  | Return (true, _) => true
  | _ => false
  end.

(** The reasons of the numbers refused, in order. *)
Definition refused (self : t) (now : datetime) (ids : list str) : list (str * str) :=
  flat_map (fun id =>
              match validate self now id with
              | Return (false, reason) => [(id, reason)]
              | _ => []
              end) ids.

(** The bucket of a number: its characters 0 to 5 and 6 to 13. *)
Definition key_of (id : str) : str * str := (slice 0 6 id, slice 6 14 id).

Definition is_odd (v : Z) : bool := negb (v mod 2 =? 0)%Z.

(** The sequence values of the numbers of a bucket, in order. *)
Definition sequences (ids : list str) (key : str * str) : list Z :=
  flat_map (fun id =>
              if bool_decide (key_of id = key) then
                match sequence_number id with
                | Return v => [v]
                | Raise _ => []
                end
              else []) ids.

(** The sequence values observed in a bucket among the accepted numbers. *)
Definition observed (self : t) (now : datetime) (ids : list str) (key : str * str)
    : list Z :=
  sequences (List.filter (is_accepted self now) ids) key.

(** [(max + 1) / 2] over the odd values seen, 0 when there is none. *)
Definition males_estimate (odd_seqs : list Z) : Z :=
  match odd_seqs with
  | [] => 0
  | v :: rest => (fold_left Z.max rest v + 1) / 2
  end.

(** [max / 2] over the even values seen, 0 when there is none. *)
Definition females_estimate (even_seqs : list Z) : Z :=
  match even_seqs with
  | [] => 0
  | v :: rest => fold_left Z.max rest v / 2
  end.

(** The key of the report for a bucket: region name and date. *)
Definition label_of (self : t) (key : str * str) : str :=
  get (area_codes self) key.1 (py "未知地区") ++ py " (" ++ key.2 ++ py ")".

Definition estimate_of (self : t) (now : datetime) (ids : list str) (key : str * str)
    : estimate :=
  let males := List.filter is_odd (observed self now ids key) in
  let females := List.filter (fun v => negb (is_odd v)) (observed self now ids key) in
  {| sample_count := len males + len females;
     estimated_males := males_estimate males;
     estimated_females := females_estimate females;
     estimated_total := males_estimate males + females_estimate females;
     note := py "基于样本中最大顺序码的统计估算，非精确值。" |}.

(** The statement: the report has, for the bucket of every accepted
    number, the estimates of that bucket. *)
Definition stated_report (self : t) (now : datetime) (ids : list str) : Prop :=
  exists a,
    analyze_population_sample self now ids = Return a
    /\ forall id, In id ids -> is_accepted self now id = true ->
         dict_get (label_of self (key_of id)) (analysis_report a)
         = Some (estimate_of self now ids (key_of id)).

(** The state of the grouping loop after the numbers [done]: one entry
    per bucket met, holding the odd and the even sequence values met. *)
Definition grouped (done : list str) (stats : dict (str * str) bucket) : Prop :=
  NoDup (map fst stats)
  /\ (forall key, In key (map fst stats) <-> In key (map key_of done))
  /\ (forall key, stats_get key stats
                  = Bucket (List.filter is_odd (sequences done key))
                      (List.filter (fun v => negb (is_odd v)) (sequences done key))).

(** The report entry the code computes from a bucket. *)
Definition entry_of (data : bucket) : estimate :=
  let max_male_seq :=
    match male_seqs data with [] => 0%Z | v :: rest => fold_left Z.max rest v end in
  let max_female_seq :=
    match female_seqs data with [] => 0%Z | v :: rest => fold_left Z.max rest v end in
  let estimated_males :=
    if (max_male_seq >? 0)%Z then ((max_male_seq + 1) / 2)%Z else 0%Z in
  let estimated_females :=
    if (max_female_seq >? 0)%Z then (max_female_seq / 2)%Z else 0%Z in
  {| sample_count := (len (male_seqs data) + len (female_seqs data))%Z;
     estimated_males := estimated_males;
     estimated_females := estimated_females;
     estimated_total := (estimated_males + estimated_females)%Z;
     note := py "基于样本中最大顺序码的统计估算，非精确值。" |}.

(** Without readable region data no instance is constructed. *)
Definition construction_fails_without_data (json_path : source) : Prop :=
  match json_path with
  | Document _ => True
  | _ => exists e, __init__ json_path = Raise e
  end.

(** *** The region document *)

(** The nodes below and including [item] in the order the document
    lists them, each with its code and with the names of its ancestors
    in front of its own. *)
Fixpoint node_entries (item : RegionNode) (parent_name : str) : list (str * str) :=
  match item with
  | Node code name children =>
      (code, parent_name ++ name)
      :: match children with
         | Some data =>
             (fix each (data : list RegionNode) : list (str * str) :=
                match data with
                | [] => []
                | item :: rest => node_entries item (parent_name ++ name) ++ each rest
                end) data
         | None => []
         end
  end.

Definition entries (data : list RegionNode) (parent_name : str) : list (str * str) :=
  flat_map (fun item => node_entries item parent_name) data.

(** A node of the document, at any depth. *)
Inductive within (item : RegionNode) : list RegionNode -> Prop :=
| within_here data : In item data -> within item data
| within_below code name kids data :
    In (Node code name (Some kids)) data -> within item kids -> within item data.

(** No two nodes of the document bear the same code. *)
Definition distinct_codes (data : list RegionNode) : Prop :=
  NoDup (map fst (entries data [])).

(** *** Numbers as they are written *)

(** Written with the ASCII digits and [X] only. *)
Definition plain (s : str) : Prop :=
  Forall (fun c => (is_ascii_digit c || (c =? 0x58)%N) = true) s.

(** The value the check character stands for: [X] is ten. *)
Definition check_value (c : N) : Z :=
  if (c =? 0x58)%N then 10%Z else ascii_value c.

(** The number a string of decimal digits of any script writes. *)
Definition decimal_number (s : str) : Z :=
  fold_left (fun acc c => (acc * 10 + digit_value c)%Z) s 0%Z.

(** The number with sequence code [i] after fourteen characters: the
    code on three digits and the check character of the seventeen. *)
Definition numbered (prefix_14 : str) (i : Z) : str :=
  let prefix := prefix_14 ++ format_0d 3 i in
  prefix ++ check_char digit_value prefix.

(** [(y, m, d)] of a date, for comparisons. *)
Definition ymd (d : date) : list Z := [year d; month d; day d].

End Spec.

(** ** A sample region document and clock *)

Module Sample.
Import Py IDCardToolkit.

(** Three levels, as the region file nests them. *)
Definition regions : list RegionNode :=
  [ Node (py "11") (py "北京市") (Some
      [ Node (py "1101") (py "市辖区") (Some
          [ Node (py "110101") (py "东城区") None;
            Node (py "110105") (py "朝阳区") None ]) ]) ].

Definition toolkit : t := New (_flatten_codes regions [] ∅).

(** A flat document: two districts of two cities bear the same name. *)
Definition districts : list RegionNode :=
  [ Node (py "110105") (py "朝阳区") None;
    Node (py "220104") (py "朝阳区") None ].

Definition flat_toolkit : t := New (_flatten_codes districts [] ∅).

(** A document whose only code has seven characters. *)
Definition long_codes : list RegionNode :=
  [ Node (py "1101051") (py "朝阳区") None ].

Definition long_toolkit : t := New (_flatten_codes long_codes [] ∅).

Definition now : datetime := Datetime (Date 2026 11 3) 9 30 0 0.

Definition today : date := Date 2026 11 3.

End Sample.

(** * Properties *)

(** ** Character tables *)

Section CharacterTables.
Import Unicode Scan.
Local Open Scope N_scope.

Lemma in_expand c r : in_range c r = true -> In c (expand r).
Proof.
  destruct r as [lo hi]. unfold in_range, expand. simpl. intros H.
  apply andb_true_iff in H as [Hlo Hhi].
  apply N.leb_le in Hlo. apply N.leb_le in Hhi.
  apply in_map_iff. exists (N.to_nat (c - lo)). split; [lia|].
  apply in_seq. lia.
Qed.

(** A successful lookup is a lookup of a mentioned code point. *)
Lemma find_mentions {A} (hit : N -> A -> bool) (span : A -> N * N) (table : list A) c :
  (forall e, hit c e = true -> in_range c (span e) = true) ->
  ~ In c (flat_map (fun e => expand (span e)) table) ->
  find (hit c) table = None.
Proof.
  intros Hhit. induction table as [|e table IH]; [reflexivity|].
  simpl. intros Hc. destruct (hit c e) eqn:E.
  - exfalso. apply Hc, in_or_app. left. now apply in_expand, Hhit.
  - apply IH. intros H. apply Hc, in_or_app. now right.
Qed.

Lemma existsb_mentions (table : list (N * N)) c :
  ~ In c (flat_map expand table) -> existsb (in_range c) table = false.
Proof.
  induction table as [|r table IH]; [reflexivity|].
  simpl. intros Hc. apply orb_false_iff. split.
  - destruct (in_range c r) eqn:E; [|reflexivity].
    exfalso. apply Hc, in_or_app. left. now apply in_expand.
  - apply IH. intros H. apply Hc, in_or_app. now right.
Qed.

Lemma not_mentioned c :
  ~ In c mentioned ->
  is_space c = false /\ is_digit c = false /\ to_upper_full c = [c].
Proof.
  unfold mentioned. rewrite !in_app_iff. intros H.
  assert (Hspace : is_space c = false) by (apply existsb_mentions; tauto).
  assert (Hdec : decimal_value c = None).
  { unfold decimal_value.
    rewrite (find_mentions (fun c z => in_range c (z, z + 9)) (fun z => (z, z + 9)));
      [reflexivity | auto | tauto]. }
  assert (Hdig : existsb (in_range c) other_digits = false)
    by (apply existsb_mentions; tauto).
  repeat split; [assumption | |].
  - unfold is_digit, is_decimal. now rewrite Hdec, Hdig.
  - unfold to_upper_full.
    rewrite (find_mentions maps_simply (fun e => (e.1.1.1, e.1.1.2))); [ | | tauto].
    + destruct (find _ special_uppercase) as [[k image]|] eqn:E; [|reflexivity].
      exfalso. apply find_some in E as [Hin Hk]. simpl in Hk.
      apply N.eqb_eq in Hk. subst k.
      assert (In c (map fst special_uppercase)) by (apply in_map_iff; now exists (c, image)).
      tauto.
    + intros [[[first last] step] image]. unfold maps_simply. simpl.
      now destruct (in_range c (first, last)).
Qed.

Lemma well_behaved_mentioned : forallb well_behaved mentioned = true.
Proof. vm_compute. reflexivity. Qed.

Lemma well_behaved_all c : well_behaved c = true.
Proof.
  destruct (in_dec N.eq_dec c mentioned) as [Hc|Hc].
  - revert c Hc. apply forallb_forall, well_behaved_mentioned.
  - apply not_mentioned in Hc as (Hs & Hd & Hu).
    unfold well_behaved, fixed_by_upper. rewrite Hs, Hd, Hu. cbn [forallb].
    rewrite Hu, Hs, Hd, N.eqb_refl. now destruct (c =? 0x58).
Qed.

End CharacterTables.

Section CharacterFacts.
Import Unicode Scan.
Local Open Scope N_scope.

Lemma space_fixed c : is_space c = true -> to_upper_full c = [c].
Proof.
  intros Hs. pose proof (well_behaved_all c) as H. unfold well_behaved in H.
  rewrite Hs in H. do 3 apply andb_true_iff in H as [H _].
  unfold fixed_by_upper in H.
  destruct (to_upper_full c) as [|d [|]]; try discriminate.
  apply N.eqb_eq in H. now subst.
Qed.

Lemma image_of_nonspace c :
  is_space c = false ->
  to_upper_full c <> [] /\ Forall (fun d => is_space d = false) (to_upper_full c).
Proof.
  intros Hs. pose proof (well_behaved_all c) as H. unfold well_behaved in H.
  rewrite Hs in H. do 3 apply andb_true_iff in H as [H _].
  destruct (to_upper_full c) as [|d image]; [discriminate|].
  split; [discriminate|]. apply Forall_forall. intros x Hx.
  rewrite forallb_forall in H. apply list_elem_of_In, H in Hx.
  now apply negb_true_iff.
Qed.

Lemma image_fixed c d : In d (to_upper_full c) -> to_upper_full d = [d].
Proof.
  intros Hd. pose proof (well_behaved_all c) as H. unfold well_behaved in H.
  apply andb_true_iff in H as [H _]. apply andb_true_iff in H as [_ H].
  rewrite forallb_forall in H.
  apply H in Hd. unfold fixed_by_upper in Hd.
  destruct (to_upper_full d) as [|x [|]]; try discriminate.
  apply N.eqb_eq in Hd. now subst.
Qed.

Lemma digit_fixed c :
  is_digit c = true -> to_upper_full c = [c] /\ is_space c = false.
Proof.
  intros Hd. pose proof (well_behaved_all c) as H. unfold well_behaved in H.
  rewrite Hd in H. do 2 apply andb_true_iff in H as [H _].
  apply andb_true_iff in H as [_ H]. apply andb_true_iff in H as [H Hs].
  split; [|now apply negb_true_iff]. unfold fixed_by_upper in H.
  destruct (to_upper_full c) as [|x [|]]; try discriminate.
  apply N.eqb_eq in H. now subst.
Qed.

Lemma image_of_digits c :
  forallb (fun d => is_digit d || (d =? 0x58)) (to_upper_full c) = true ->
  (is_digit c || (c =? 0x58) || (c =? 0x78)) = true.
Proof.
  intros Hc. pose proof (well_behaved_all c) as H. unfold well_behaved in H.
  apply andb_true_iff in H as [_ H]. now rewrite Hc in H.
Qed.

Lemma decimal_is_digit c : is_decimal c = true -> is_digit c = true.
Proof. unfold is_digit. now intros ->. Qed.

Lemma ascii_digit_decimal c :
  Py.is_ascii_digit c = true -> decimal_value c = Some (c - 0x30).
Proof.
  unfold Py.is_ascii_digit, in_range. cbn [fst snd]. intros H.
  apply andb_true_iff in H as [Hlo Hhi].
  assert (Hin : in_range c (0x30, 0x30 + 9) = true).
  { unfold in_range. cbn [fst snd]. change (0x30 + 9) with 0x39.
    now rewrite Hlo, Hhi. }
  unfold decimal_value, decimal_zeros. cbn [find]. now rewrite Hin.
Qed.

Lemma ascii_digit_is_decimal c : Py.is_ascii_digit c = true -> is_decimal c = true.
Proof. intros H. unfold is_decimal. now rewrite (ascii_digit_decimal c H). Qed.

End CharacterFacts.

(** ** [strip] and [upper] *)

Section Normalisation.
Import Unicode Py Spec.

Lemma lstrip_spaces l s : spaces l -> lstrip (l ++ s) = lstrip s.
Proof.
  induction 1 as [|c l Hc _ IH]; [reflexivity|]. simpl. now rewrite Hc.
Qed.

Lemma lstrip_starts_clean s : starts_clean (lstrip s).
Proof.
  induction s as [|c s IH]; [exact I|]. simpl.
  destruct (is_space c) eqn:E; [assumption | exact E].
Qed.

Lemma lstrip_clean s : starts_clean s -> lstrip s = s.
Proof. destruct s as [|c s]; [reflexivity|]. simpl. now intros ->. Qed.

Lemma lstrip_app_clean s c r :
  is_space c = false -> lstrip (s ++ c :: r) = lstrip s ++ c :: r.
Proof.
  intros Hc. induction s as [|d s IH]; simpl.
  - now rewrite Hc.
  - destruct (is_space d); [exact IH | reflexivity].
Qed.

Lemma lstrip_all_spaces s : lstrip s = [] -> spaces s.
Proof.
  induction s as [|c s IH]; [constructor|]. simpl.
  destruct (is_space c) eqn:E; [|discriminate].
  intros H. constructor; [exact E | now apply IH].
Qed.

Lemma spaces_lstrip s : spaces s -> lstrip s = [].
Proof. intros H. rewrite <- (app_nil_r s). now rewrite lstrip_spaces. Qed.

Lemma rstrip_spaces s r : spaces r -> rstrip (s ++ r) = rstrip s.
Proof.
  intros H. unfold rstrip. rewrite rev_app_distr, lstrip_spaces; [reflexivity|].
  unfold spaces in *. rewrite Forall_forall in *. intros c Hc.
  apply H. apply list_elem_of_In. apply list_elem_of_In in Hc. now apply in_rev.
Qed.

Lemma rstrip_clean s : starts_clean (rev s) -> rstrip s = s.
Proof. intros H. unfold rstrip. rewrite lstrip_clean by assumption. apply rev_involutive. Qed.

Lemma rstrip_ends_clean s : starts_clean (rev (rstrip s)).
Proof. unfold rstrip. rewrite rev_involutive. apply lstrip_starts_clean. Qed.

Lemma rstrip_cons_clean c s : is_space c = false -> rstrip (c :: s) = c :: rstrip s.
Proof.
  intros Hc. unfold rstrip. simpl.
  rewrite lstrip_app_clean by assumption.
  now rewrite rev_app_distr.
Qed.

Lemma strip_trimmed s : trimmed (strip s).
Proof.
  unfold strip. split; [|apply rstrip_ends_clean].
  pose proof (lstrip_starts_clean s) as H.
  destruct (lstrip s) as [|c r]; [exact I|].
  simpl in H. rewrite rstrip_cons_clean by assumption. exact H.
Qed.

Lemma trimmed_strip s : trimmed s -> strip s = s.
Proof.
  intros [H1 H2]. unfold strip. rewrite lstrip_clean by assumption.
  now apply rstrip_clean.
Qed.

Lemma strip_padded l s r : spaces l -> spaces r -> strip (l ++ s ++ r) = strip s.
Proof.
  intros Hl Hr. unfold strip. rewrite lstrip_spaces by assumption.
  destruct (lstrip s) as [|c t] eqn:E.
  - apply lstrip_all_spaces in E.
    rewrite spaces_lstrip; [reflexivity|]. now apply Forall_app.
  - assert (Hc : is_space c = false).
    { pose proof (lstrip_starts_clean s) as H. now rewrite E in H. }
    assert (Hs : exists a, s = a ++ c :: t /\ spaces a).
    { clear Hc. revert E. induction s as [|d s IH]; [discriminate|]. simpl.
      destruct (is_space d) eqn:Ed.
      - intros H. destruct (IH H) as (a & -> & Ha).
        exists (d :: a). split; [reflexivity|]. now constructor.
      - intros [= -> ->]. exists []. split; [reflexivity | constructor]. }
    destruct Hs as (a & -> & Ha).
    rewrite <- app_assoc, lstrip_spaces by assumption. simpl.
    rewrite Hc. change (c :: t ++ r) with ((c :: t) ++ r).
    now apply rstrip_spaces.
Qed.

Lemma strip_snoc_clean s c : is_space c = false -> strip (s ++ [c]) = lstrip s ++ [c].
Proof.
  intros Hc. unfold strip. rewrite lstrip_app_clean by assumption.
  apply rstrip_clean. rewrite rev_app_distr. exact Hc.
Qed.

Lemma upper_app s t : upper (s ++ t) = upper s ++ upper t.
Proof. apply flat_map_app. Qed.

Lemma upper_fixed s : Forall (fun c => to_upper_full c = [c]) s -> upper s = s.
Proof.
  induction 1 as [|c s Hc _ IH]; [reflexivity|].
  unfold upper in *. simpl. now rewrite Hc, IH.
Qed.

Lemma upper_upper s : upper (upper s) = upper s.
Proof.
  induction s as [|c s IH]; [reflexivity|].
  change (upper (c :: s)) with (to_upper_full c ++ upper s).
  rewrite upper_app, IH. f_equal. apply upper_fixed.
  apply Forall_forall. intros d Hd. apply (image_fixed c). now apply list_elem_of_In.
Qed.

Lemma upper_starts_clean s : starts_clean s -> starts_clean (upper s).
Proof.
  destruct s as [|c s]; [trivial|]. simpl. intros Hc.
  destruct (image_of_nonspace c Hc) as [Hne Hall].
  unfold upper. simpl. destruct (to_upper_full c) as [|d image]; [congruence|].
  simpl. now inversion Hall.
Qed.

Lemma rev_upper s : rev (upper s) = flat_map (fun c => rev (to_upper_full c)) (rev s).
Proof.
  induction s as [|c s IH]; [reflexivity|].
  change (upper (c :: s)) with (to_upper_full c ++ upper s).
  rewrite rev_app_distr, IH. simpl. rewrite flat_map_app. simpl.
  now rewrite app_nil_r.
Qed.

Lemma upper_trimmed s : trimmed s -> trimmed (upper s).
Proof.
  intros [H1 H2]. split; [now apply upper_starts_clean|].
  rewrite rev_upper. destruct (rev s) as [|c r]; [exact I|]. simpl in *.
  destruct (image_of_nonspace c H2) as [Hne Hall].
  destruct (rev (to_upper_full c)) as [|d image] eqn:E.
  - exfalso. apply Hne. apply (f_equal (@rev N)) in E. now rewrite rev_involutive in E.
  - simpl. rewrite Forall_forall in Hall. apply Hall.
    apply list_elem_of_In, in_rev. rewrite E. now left.
Qed.

(** Normalising twice is normalising once. *)
Lemma normalise_idempotent s : upper (strip (upper (strip s))) = upper (strip s).
Proof.
  rewrite (trimmed_strip (upper (strip s))).
  - apply upper_upper.
  - apply upper_trimmed, strip_trimmed.
Qed.

(** A string of characters that are neither white space nor mapped by
    [upper] is left alone. *)
Lemma plain_fixed s :
  Forall (fun c => to_upper_full c = [c] /\ is_space c = false) s ->
  upper (strip s) = s.
Proof.
  intros H.
  rewrite trimmed_strip.
  - apply upper_fixed. eapply Forall_impl; [exact H|]. now intros c [Hc _].
  - rewrite Forall_forall in H. split.
    + destruct s as [|c s]; [exact I|]. simpl. apply H. now left.
    + destruct (rev s) as [|c r] eqn:E; [exact I|]. simpl.
      apply H, list_elem_of_In, in_rev. rewrite E. now left.
Qed.

End Normalisation.

(** ** [int] on one character, and the check character *)

Section CheckCharacter.
Import Unicode Py IDCardToolkit Spec Scan.
Local Open Scope N_scope.

Lemma decimal_value_small c d : decimal_value c = Some d -> d <= 9.
Proof.
  unfold decimal_value. destruct (find _ decimal_zeros) as [z|] eqn:E; [|discriminate].
  intros [= <-]. apply find_some in E as [_ E]. unfold in_range in E.
  cbn [fst snd] in E. apply andb_true_iff in E as [Hlo Hhi].
  apply N.leb_le in Hlo. apply N.leb_le in Hhi. lia.
Qed.

Lemma decimal_not_space c : is_decimal c = true -> is_space c = false.
Proof. intros H. now apply digit_fixed, decimal_is_digit. Qed.

Lemma int_ascii : forallb (fun c => bool_decide (int_reads c)) (map N.of_nat (seq 0 128)) = true.
Proof. vm_compute. reflexivity. Qed.

(** [int] reads a single character exactly when it is a decimal digit. *)
Lemma int_char c : int_reads c.
Proof.
  destruct (N.le_gt_cases c 127) as [Hc|Hc].
  - pose proof int_ascii as H. rewrite forallb_forall in H.
    assert (Hin : In c (map N.of_nat (seq 0 128))).
    { apply in_map_iff. exists (N.to_nat c). split; [lia|]. apply in_seq. lia. }
    apply H in Hin. now apply bool_decide_eq_true in Hin.
  - unfold int_reads, int. cbn [map]. unfold to_ascii_decimal.
    replace (c <=? 127) with false by (symmetry; apply N.leb_gt; lia).
    destruct (is_space c) eqn:Es.
    + destruct (decimal_value c) as [d|] eqn:Ed; [|reflexivity].
      assert (is_decimal c = true) as Hd by (unfold is_decimal; now rewrite Ed).
      apply decimal_not_space in Hd. congruence.
    + destruct (decimal_value c) as [d|] eqn:Ed; [|reflexivity].
      apply decimal_value_small in Ed.
      assert (Hd : In d [0; 1; 2; 3; 4; 5; 6; 7; 8; 9]).
      { destruct d as [|p]; [now left|].
        do 9 (destruct p as [p|p|]; try lia; simpl; try tauto). }
      simpl in Hd. repeat destruct Hd as [<-|Hd]; try reflexivity. destruct Hd.
Qed.

Lemma int_decimal c : is_decimal c = true -> int [c] = Return (digit_value c).
Proof.
  intros H. rewrite int_char. unfold is_decimal, digit_value in *.
  now destruct (decimal_value c).
Qed.

Lemma int_not_decimal c : is_decimal c = false -> int [c] = Raise ValueError.
Proof.
  intros H. rewrite int_char. unfold is_decimal in *.
  now destruct (decimal_value c).
Qed.

Lemma ascii_value_digit c : is_ascii_digit c = true -> digit_value c = ascii_value c.
Proof.
  intros H. unfold digit_value, ascii_value. rewrite (ascii_digit_decimal c H).
  unfold is_ascii_digit, in_range in H. cbn [fst snd] in H.
  apply andb_true_iff in H as [Hlo _]. apply N.leb_le in Hlo. lia.
Qed.

(** The terms of the sum: all of them, or [ValueError] at the first
    character [int] refuses. *)
Lemma weighted_terms_zip p ws :
  weighted_terms (zip p ws)
  = if forallb is_decimal (take (length ws) p)
    then Return (zip_with (fun c w => (digit_value c * w)%Z) p ws)
    else Raise ValueError.
Proof.
  revert ws. induction p as [|c p IH]; intros [|w ws]; try reflexivity.
  cbn [zip_with weighted_terms length take forallb].
  destruct (is_decimal c) eqn:Ec.
  - rewrite (int_decimal c Ec). cbn. rewrite IH.
    now destruct (forallb is_decimal (take (length ws) p)).
  - now rewrite (int_not_decimal c Ec).
Qed.

Lemma sum_from xs a : fold_left Z.add xs a = (a + fold_right Z.add 0 xs)%Z.
Proof. revert a. induction xs as [|x xs IH]; intros a; simpl; [lia|]. rewrite IH. lia. Qed.

Lemma weighted_sum_zip value p :
  length p = 17%nat ->
  sum (zip_with (fun c w => (value c * w)%Z) p WEIGHTS) = weighted_sum value p.
Proof.
  intros H. do 18 (destruct p as [|? p]; try discriminate).
  unfold sum. rewrite sum_from. reflexivity.
Qed.

Lemma check_table_item i :
  (i < 11)%nat -> item i CHECKSUM_MAP = Return (nth i CHECK_TABLE []).
Proof.
  intros H. do 11 (destruct i as [|i]; [reflexivity|]). lia.
Qed.

(** The check character is computed from seventeen decimal digits, and
    from nothing else. *)
Lemma calculate_checksum p :
  _calculate_checksum p
  = if (length p =? 17)%nat && forallb is_decimal p
    then Return (check_char digit_value p)
    else Raise ValueError.
Proof.
  unfold _calculate_checksum.
  destruct (length p =? 17)%nat eqn:El; [|reflexivity].
  apply Nat.eqb_eq in El. cbn [andb].
  rewrite weighted_terms_zip.
  replace (take (length WEIGHTS) p) with p
    by (symmetry; apply take_ge; rewrite El; reflexivity).
  destruct (forallb is_decimal p) eqn:Ed.
  - assert (isdigit p = true) as ->.
    { destruct p as [|c p]; [discriminate|]. unfold isdigit.
      rewrite forallb_forall in *. intros x Hx. now apply decimal_is_digit, Ed. }
    cbn. rewrite weighted_sum_zip by assumption.
    unfold check_char. apply check_table_item.
    pose proof (Z.mod_pos_bound (weighted_sum digit_value p) 11). lia.
  - now destruct (isdigit p).
Qed.

End CheckCharacter.

(** ** [validate] *)

Section Validate.
Import Unicode Py IDCardToolkit Spec.

Lemma bind_return {A B} (a : A) (k : A -> exc B) : Return a ≫= k = k a.
Proof. reflexivity. Qed.

Lemma bind_raise {A B} e (k : A -> exc B) : Raise e ≫= k = Raise e.
Proof. reflexivity. Qed.

Lemma try_except_return {A} (a : A) e handler : try_except (Return a) e handler = Return a.
Proof. reflexivity. Qed.

Lemma try_except_caught {A} e (handler : exc A) : try_except (Raise e) e handler = handler.
Proof. unfold try_except. now rewrite decide_True. Qed.

Lemma first_failure_cons (c : check) cs n :
  first_failure (c :: cs) n
  = match c n with Some reason => Some reason | None => first_failure cs n end.
Proof. unfold first_failure. simpl. now destruct (c n). Qed.

Lemma verdict_fails (c : check) cs n reason :
  c n = Some reason -> verdict (c :: cs) n = (false, reason).
Proof. intros H. unfold verdict. now rewrite first_failure_cons, H. Qed.

Lemma verdict_passes (c : check) cs n :
  c n = None -> verdict (c :: cs) n = verdict cs n.
Proof. intros H. unfold verdict. now rewrite first_failure_cons, H. Qed.

Lemma is_X c : bool_decide ([c] = py "X") = (c =? 0x58)%N.
Proof.
  destruct (c =? 0x58)%N eqn:E.
  - apply N.eqb_eq in E. now subst.
  - apply N.eqb_neq in E. apply bool_decide_eq_false. intros [= ->]. now apply E.
Qed.

Lemma int_raises s e : int s = Raise e -> e = ValueError.
Proof.
  unfold int.
  destruct (skip_blanks (map to_ascii_decimal s)) as [|c t]; [now intros [= <-]|].
  assert (H : forall sign (t : str),
             match t with
             | [] => Raise ValueError
             | c :: _ =>
                 if is_ascii_digit c then
                   match scan_digits 0 false t with
                   | Some (v, rest) =>
                       match skip_blanks rest with
                       | [] => Return (sign * v)%Z
                       | _ :: _ => Raise ValueError
                       end
                   | None => Raise ValueError
                   end
                 else Raise ValueError
             end = Raise e -> e = ValueError).
  { intros sign [|d u]; [now intros [= <-]|].
    destruct (is_ascii_digit d); [|now intros [= <-]].
    destruct (scan_digits 0 false (d :: u)) as [[v rest]|]; [|now intros [= <-]].
    destruct (skip_blanks rest); [discriminate | now intros [= <-]]. }
  destruct c as [|p]; [apply (H 1%Z (_ :: _))|].
  do 6 (destruct p as [p|p|]; try (first [apply H | apply (H 1%Z (_ :: _))])).
Qed.

Lemma strptime_raises s e : strptime_Ymd s = Raise e -> e = ValueError.
Proof.
  unfold strptime_Ymd.
  destruct (re_match_Ymd s) as [[[[y m] d] rest]|]; [|now intros [= <-]].
  destruct rest; [|now intros [= <-]].
  destruct (int y) as [vy|ey] eqn:Ey; [|intros [= <-]; now apply int_raises in Ey].
  destruct (int m) as [vm|em] eqn:Em; [|intros [= <-]; now apply int_raises in Em].
  destruct (int d) as [vd|ed] eqn:Ed; [|intros [= <-]; now apply int_raises in Ed].
  cbn. unfold new_date. destruct (_ && _); [discriminate | now intros [= <-]].
Qed.

(** [validate] reports the first of its checks that fails, on the input
    stripped and upper-cased. *)
Lemma validate_first_failure self now s :
  validate self now s
  = Return (verdict (performed_checks (area_codes self) now) (upper (strip s))).
Proof.
  unfold validate, performed_checks. generalize (upper (strip s)) as n. intros n.
  destruct (length n =? 18)%nat eqn:El; cbn [negb].
  2:{ rewrite (verdict_fails length_check _ _ (py "长度错误：必须为18位")); [reflexivity|].
      unfold length_check. now rewrite El. }
  rewrite verdict_passes by (unfold length_check; now rewrite El).
  apply Nat.eqb_eq in El.
  do 19 (destruct n as [|? n]; try discriminate). clear El.
  change (but_last _) with [n0; n1; n2; n3; n4; n5; n6; n7; n8; n9; n10; n11; n12; n13; n14; n15; n16].
  change (last_item _) with (Return n17).
  change (slice 0 6 _) with [n0; n1; n2; n3; n4; n5].
  change (slice 6 14 _) with [n6; n7; n8; n9; n10; n11; n12; n13].
  set (n := [n0; n1; n2; n3; n4; n5; n6; n7; n8; n9; n10; n11; n12; n13; n14; n15; n16; n17]).
  set (p := [n0; n1; n2; n3; n4; n5; n6; n7; n8; n9; n10; n11; n12; n13; n14; n15; n16]).
  set (a := [n0; n1; n2; n3; n4; n5]).
  set (born := [n6; n7; n8; n9; n10; n11; n12; n13]).
  (* the prefix *)
  change (isdigit p) with (forallb is_digit p).
  destruct (forallb is_digit p) eqn:Ep; cbn [negb].
  2:{ apply f_equal. symmetry. apply verdict_fails.
      unfold prefix_check. change (take 17 n) with p. now rewrite Ep. }
  rewrite verdict_passes
    by (unfold prefix_check; change (take 17 n) with p; now rewrite Ep).
  (* the last character *)
  change (Return n17 ≫= ?k) with (k n17). cbv beta.
  change (isdigit [n17]) with (is_digit n17 && true). rewrite andb_true_r, is_X.
  destruct (is_digit n17 || (n17 =? 0x58)%N) eqn:Ex; cbn [negb].
  2:{ apply f_equal. symmetry. apply verdict_fails.
      unfold last_check. change (n !! 17%nat) with (Some n17). cbv beta iota. now rewrite Ex. }
  rewrite verdict_passes
    by (unfold last_check; change (n !! 17%nat) with (Some n17); cbv beta iota; now rewrite Ex).
  (* the region *)
  destruct (area_codes self !! a) as [name|] eqn:Ea.
  2:{ apply f_equal. symmetry. apply verdict_fails.
      unfold region_check. change (take 6 n) with a. now rewrite Ea. }
  rewrite verdict_passes
    by (unfold region_check; change (take 6 n) with a; now rewrite Ea).
  (* the date *)
  destruct (strptime_Ymd born) as [day|e] eqn:Eb.
  2:{ apply strptime_raises in Eb as ?. subst e.
      rewrite bind_raise, try_except_caught, bind_return.
      apply f_equal. symmetry. apply verdict_fails.
      unfold date_check. change (slice 6 14 n) with born. now rewrite Eb. }
  rewrite bind_return.
  destruct (datetime_gt day now) eqn:Eg.
  { rewrite try_except_return, bind_return.
    apply f_equal. symmetry. apply verdict_fails.
    unfold date_check. change (slice 6 14 n) with born. now rewrite Eb, Eg. }
  rewrite verdict_passes
    by (unfold date_check; change (slice 6 14 n) with born; now rewrite Eb, Eg).
  rewrite try_except_return, bind_return.
  (* the check character *)
  rewrite calculate_checksum. change (length p =? 17)%nat with true. cbn [andb].
  destruct (forallb is_decimal p) eqn:Ed.
  2:{ rewrite bind_raise, try_except_caught, bind_return.
      apply f_equal. symmetry. apply verdict_fails.
      unfold decimal_check. change (take 17 n) with p. now rewrite Ed. }
  rewrite verdict_passes
    by (unfold decimal_check; change (take 17 n) with p; now rewrite Ed).
  rewrite bind_return.
  unfold verdict. rewrite first_failure_cons. unfold checksum_check.
  change (take 17 n) with p. change (drop 17 n) with [n17]. cbv zeta.
  destruct (bool_decide ([n17] = check_char digit_value p)); cbn [negb].
  - now rewrite try_except_return, bind_return.
  - now rewrite try_except_return, bind_return.
Qed.

End Validate.

(** ** Reading numbers and dates *)

Section Reading.
Import Unicode Py IDCardToolkit Spec Scan.

Lemma int_unfold s :
  int s = match skip_blanks (map to_ascii_decimal s) with
          | [] => Raise ValueError
          | c :: t =>
              if (c =? 0x2B)%N then read_digits 1 t
              else if (c =? 0x2D)%N then read_digits (-1) t
              else read_digits 1 (c :: t)
          end.
Proof.
  unfold int. destruct (skip_blanks (map to_ascii_decimal s)) as [|c t]; [reflexivity|].
  destruct c as [|p]; [reflexivity|].
  do 6 (destruct p as [p|p|]; try reflexivity).
Qed.

Lemma scan_digits_nonneg s acc after v rest :
  (0 <= acc)%Z -> scan_digits acc after s = Some (v, rest) -> (0 <= v)%Z.
Proof.
  revert acc after. induction s as [|c s IH]; intros acc after Hacc H.
  - cbn in H. destruct after; [discriminate|]. injection H as <- _. exact Hacc.
  - cbn [scan_digits] in H. destruct (is_ascii_digit c).
    + apply IH in H; [exact H | lia].
    + destruct (c =? 0x5F)%N.
      * destruct after; [discriminate|]. now apply IH in H.
      * destruct after; [discriminate|]. injection H as <- _. exact Hacc.
Qed.

Lemma read_digits_nonneg t v : read_digits 1 t = Return v -> (0 <= v)%Z.
Proof.
  unfold read_digits. destruct t as [|c t]; [discriminate|].
  destruct (is_ascii_digit c); [|discriminate].
  destruct (scan_digits 0 false (c :: t)) as [[x rest]|] eqn:E; [|discriminate].
  destruct (skip_blanks rest); [|discriminate].
  intros [= <-]. apply scan_digits_nonneg in E; lia.
Qed.

Lemma In_skip_blanks c s : In c (skip_blanks s) -> In c s.
Proof.
  induction s as [|d s IH]; [trivial|]. cbn [skip_blanks].
  destruct (is_blank d); [right; now apply IH | trivial].
Qed.

Lemma to_ascii_decimal_minus c : to_ascii_decimal c = 0x2D%N -> c = 0x2D%N.
Proof.
  unfold to_ascii_decimal. destruct (c <=? 127)%N; [trivial|].
  destruct (is_space c); [discriminate|].
  destruct (decimal_value c) as [d|] eqn:E; [|discriminate].
  apply decimal_value_small in E. lia.
Qed.

(** Without a minus sign [int] reads no negative number. *)
Lemma int_nonneg s v : ~ In 0x2D%N s -> int s = Return v -> (0 <= v)%Z.
Proof.
  intros Hs. rewrite int_unfold.
  destruct (skip_blanks (map to_ascii_decimal s)) as [|c t] eqn:E; [discriminate|].
  destruct (c =? 0x2B)%N; [apply read_digits_nonneg|].
  destruct (c =? 0x2D)%N eqn:Ec; [|apply read_digits_nonneg].
  exfalso. apply N.eqb_eq in Ec. subst c. apply Hs.
  assert (Hin : In 0x2D%N (map to_ascii_decimal s)).
  { apply In_skip_blanks. rewrite E. now left. }
  apply in_map_iff in Hin as (c & Hc & Hin).
  apply to_ascii_decimal_minus in Hc. now subst.
Qed.

Lemma to_ascii_below : forallb (fun c => implb (is_decimal c) (is_ascii_digit c))
                         (map N.of_nat (seq 0 128)) = true.
Proof. vm_compute. reflexivity. Qed.

Lemma to_ascii_decimal_digit c :
  is_decimal c = true -> is_ascii_digit (to_ascii_decimal c) = true.
Proof.
  intros Hd. unfold to_ascii_decimal. destruct (c <=? 127)%N eqn:Ec.
  - apply N.leb_le in Ec. pose proof to_ascii_below as H. rewrite forallb_forall in H.
    assert (Hin : In c (map N.of_nat (seq 0 128))).
    { apply in_map_iff. exists (N.to_nat c). split; [lia|]. apply in_seq. lia. }
    apply H in Hin. now rewrite Hd in Hin.
  - rewrite (decimal_not_space c Hd). unfold is_decimal in Hd.
    destruct (decimal_value c) as [d|] eqn:E; [|discriminate].
    apply decimal_value_small in E. unfold is_ascii_digit, in_range. cbn [fst snd].
    apply andb_true_iff. split; apply N.leb_le; lia.
Qed.

Lemma scan_all_digits s acc :
  ascii_digits s -> exists v, scan_digits acc false s = Some (v, []).
Proof.
  intros H. revert acc. induction H as [|c s Hc _ IH]; intros acc.
  - now exists acc.
  - cbn [scan_digits]. rewrite Hc. apply IH.
Qed.

Lemma ascii_digit_range c : is_ascii_digit c = true -> (0x30 <= c <= 0x39)%N.
Proof.
  unfold is_ascii_digit, in_range. cbn [fst snd]. intros H.
  apply andb_true_iff in H as [H1 H2]. apply N.leb_le in H1. apply N.leb_le in H2. lia.
Qed.

(** [int] reads every non-empty string of decimal digits. *)
Lemma int_decimal_digits s :
  s <> [] -> decimal_digits s -> exists v, int s = Return v.
Proof.
  intros Hs Hd. rewrite int_unfold.
  assert (Ha : ascii_digits (map to_ascii_decimal s)).
  { unfold ascii_digits. apply Forall_forall. intros c Hc.
    apply list_elem_of_In, in_map_iff in Hc as (x & <- & Hx).
    apply to_ascii_decimal_digit. unfold decimal_digits in Hd.
    rewrite Forall_forall in Hd. now apply Hd, list_elem_of_In. }
  destruct s as [|x s]; [congruence|]. cbn [map] in *.
  apply Forall_cons_1 in Ha as Hx. destruct Hx as [Hx _].
  pose proof (ascii_digit_range _ Hx) as Hr.
  cbn [skip_blanks].
  replace (is_blank (to_ascii_decimal x)) with false.
  2:{ symmetry. unfold is_blank, in_range. cbn [fst snd]. apply orb_false_iff.
      split; [apply andb_false_iff; right; apply N.leb_gt; lia | apply N.eqb_neq; lia]. }
  replace (to_ascii_decimal x =? 0x2B)%N with false by (symmetry; apply N.eqb_neq; lia).
  replace (to_ascii_decimal x =? 0x2D)%N with false by (symmetry; apply N.eqb_neq; lia).
  unfold read_digits. rewrite Hx.
  destruct (scan_all_digits _ 0%Z Ha) as [v ->]. cbn. eauto.
Qed.

Lemma decimal_digits_app s t : decimal_digits s -> decimal_digits t -> decimal_digits (s ++ t).
Proof. intros Hs Ht. apply Forall_app. now split. Qed.

Lemma ascii_decimal_digits s : ascii_digits s -> decimal_digits s.
Proof.
  intros H. eapply Forall_impl; [exact H|]. intros c Hc. now apply ascii_digit_is_decimal.
Qed.

Lemma month_day_checked : forallb month_day_read four_digits = true.
Proof. vm_compute. reflexivity. Qed.

Lemma ascii_digit_code c : is_ascii_digit c = true -> In c ascii_digit_codes.
Proof.
  intros H. apply ascii_digit_range in H. unfold ascii_digit_codes.
  assert (exists k, (k < 10)%nat /\ c = N.of_nat (48 + k)) as (k & Hk & ->)
    by (exists (N.to_nat c - 48)%nat; lia).
  do 10 (destruct k as [|k]; [cbn; tauto|]). lia.
Qed.

Lemma four_digits_all m1 m2 d1 d2 :
  ascii_digits [m1; m2; d1; d2] -> In [m1; m2; d1; d2] four_digits.
Proof.
  intros H. unfold ascii_digits in H.
  repeat match goal with
         | H : Forall _ (_ :: _) |- _ => apply Forall_cons_1 in H as [? H]
         end.
  unfold four_digits.
  apply in_flat_map. exists m1. split; [now apply ascii_digit_code|].
  apply in_flat_map. exists m2. split; [now apply ascii_digit_code|].
  apply in_flat_map. exists d1. split; [now apply ascii_digit_code|].
  apply in_map_iff. exists d2. split; [reflexivity | now apply ascii_digit_code].
Qed.

Lemma scan_number s acc :
  ascii_digits s ->
  scan_digits acc false s = Some (fold_left (fun a c => (a * 10 + ascii_value c)%Z) s acc, []).
Proof.
  intros H. revert acc. induction H as [|c s Hc _ IH]; intros acc; [reflexivity|].
  cbn [scan_digits fold_left]. rewrite Hc, IH. unfold ascii_value.
  apply ascii_digit_range in Hc. do 3 f_equal. lia.
Qed.

(** [int] reads ASCII digits as the number they write. *)
Lemma int_ascii_digits s : s <> [] -> ascii_digits s -> int s = Return (number s).
Proof.
  intros Hs Ha. rewrite int_unfold.
  assert (Hmap : map to_ascii_decimal s = s).
  { clear Hs. induction Ha as [|c s Hc _ IH]; [reflexivity|]. cbn [map]. rewrite IH.
    unfold to_ascii_decimal. apply ascii_digit_range in Hc.
    replace (c <=? 127)%N with true by (symmetry; apply N.leb_le; lia). reflexivity. }
  rewrite Hmap. destruct s as [|x s]; [congruence|].
  apply Forall_cons_1 in Ha as Hx. destruct Hx as [Hx _].
  pose proof (ascii_digit_range _ Hx) as Hr. cbn [skip_blanks].
  replace (is_blank x) with false.
  2:{ symmetry. unfold is_blank, in_range. cbn [fst snd]. apply orb_false_iff.
      split; [apply andb_false_iff; right; apply N.leb_gt; lia | apply N.eqb_neq; lia]. }
  replace (x =? 0x2B)%N with false by (symmetry; apply N.eqb_neq; lia).
  replace (x =? 0x2D)%N with false by (symmetry; apply N.eqb_neq; lia).
  unfold read_digits. rewrite Hx, (scan_number _ 0%Z Ha). cbn [skip_blanks].
  unfold number. now rewrite Z.mul_1_l.
Qed.

Lemma days_in_month_bound y m : (28 <= days_in_month y m <= 31)%Z.
Proof.
  unfold days_in_month. destruct (m =? 2)%Z; [destruct (is_leap y); lia|].
  destruct ((m =? 4)%Z || (m =? 6)%Z || (m =? 9)%Z || (m =? 11)%Z); lia.
Qed.

Lemma re_Y_decimal y1 y2 y3 y4 rest :
  decimal_digits [y1; y2; y3; y4] ->
  re_Y (y1 :: y2 :: y3 :: y4 :: rest) = [([y1; y2; y3; y4], rest)].
Proof.
  intros H. unfold decimal_digits in H.
  apply Forall_cons_1 in H as [E1 H]. apply Forall_cons_1 in H as [E2 H].
  apply Forall_cons_1 in H as [E3 H]. apply Forall_cons_1 in H as [E4 _].
  unfold re_Y, then_, re_d, one.
  rewrite E1. cbn [flat_map map app]. rewrite E2. cbn [flat_map map app].
  rewrite E3. cbn [flat_map map app]. rewrite E4. reflexivity.
Qed.

Lemma tagged_matches (y : str) (l : list (str * str)) :
  flat_map (fun '(m, r2) => map (fun '(d, r3) => (y, m, d, r3)) (re_day r2)) l
  = map (fun '(m, d, r3) => (y, m, d, r3))
      (flat_map (fun '(m, r2) => map (fun '(d, r3) => (m, d, r3)) (re_day r2)) l).
Proof.
  induction l as [|[m r2] l IH]; [reflexivity|].
  cbn [flat_map]. rewrite map_app, IH. f_equal.
  rewrite map_map. apply map_ext. now intros [d r3].
Qed.

Lemma head_map {A B} (f : A -> B) l : head (map f l) = f <$> head l.
Proof. now destruct l. Qed.

(** With four decimal digits for the year, the match is decided by the
    four characters that follow. *)
Lemma strptime_month_day y1 y2 y3 y4 r :
  decimal_digits [y1; y2; y3; y4] -> length r = 4%nat ->
  strptime_Ymd (y1 :: y2 :: y3 :: y4 :: r)
  = match month_day r with
    | Some (m, d) =>
        y ← int [y1; y2; y3; y4]; m ← int m; d ← int d;
        day ← new_date y m d;
        Return (Datetime day 0 0 0 0)
    | None => Raise ValueError
    end.
Proof.
  intros Hy Hr. unfold strptime_Ymd, re_match_Ymd, month_day.
  rewrite (re_Y_decimal _ _ _ _ r Hy). cbn [flat_map]. rewrite app_nil_r.
  rewrite tagged_matches, head_map.
  destruct (head _) as [[[m d] rem]|]; [|reflexivity].
  cbn [fmap option_fmap option_map]. now destruct rem.
Qed.

(** On eight ASCII digits [strptime] with [%Y%m%d] is the calendar
    reading of [YYYYMMDD]. *)
Lemma strptime_reads_calendar s :
  length s = 8%nat -> ascii_digits s ->
  strptime_Ymd s = match calendar_date s with
                   | Some day => Return (Datetime day 0 0 0 0)
                   | None => Raise ValueError
                   end.
Proof.
  intros Hlen Ha. do 9 (destruct s as [|? s]; try discriminate). clear Hlen.
  rename n into y1, n0 into y2, n1 into y3, n2 into y4,
         n3 into m1, n4 into m2, n5 into d1, n6 into d2.
  assert (Hparts : ascii_digits [y1; y2; y3; y4] /\ ascii_digits [m1; m2; d1; d2]
                   /\ ascii_digits [m1; m2] /\ ascii_digits [d1; d2]).
  { unfold ascii_digits in *.
    repeat match goal with
           | H : Forall _ (_ :: _) |- _ => apply Forall_cons_1 in H as [? H]
           end.
    repeat split; repeat constructor; assumption. }
  destruct Hparts as (Hy & Hmd & Hm & Hd).
  rewrite strptime_month_day by (auto using ascii_decimal_digits).
  pose proof month_day_checked as Hall. rewrite forallb_forall in Hall.
  specialize (Hall _ (four_digits_all _ _ _ _ Hmd)). cbn [month_day_read] in Hall.
  unfold calendar_date. cbn [slice take drop Nat.sub]. cbv zeta.
  assert (Em : number [m1; m2] = (10 * (Z.of_N m1 - 48) + (Z.of_N m2 - 48))%Z)
    by (unfold number, ascii_value; cbn [fold_left]; lia).
  assert (Ed : number [d1; d2] = (10 * (Z.of_N d1 - 48) + (Z.of_N d2 - 48))%Z)
    by (unfold number, ascii_value; cbn [fold_left]; lia).
  assert (Hyear : (0 <= number [y1; y2; y3; y4] <= 9999)%Z).
  { unfold ascii_digits in Hy.
    repeat match goal with
           | H : Forall _ (_ :: _) |- _ => apply Forall_cons_1 in H as [? H]
           end.
    repeat match goal with
           | H : is_ascii_digit _ = true |- _ => apply ascii_digit_range in H
           end.
    unfold number, ascii_value. cbn [fold_left]. lia. }
  rewrite <- Em, <- Ed in Hall.
  pose proof (days_in_month_bound (number [y1; y2; y3; y4]) (number [m1; m2])) as Hdim.
  destruct ((1 <=? number [m1; m2]) && (number [m1; m2] <=? 12)
            && (1 <=? number [d1; d2]) && (number [d1; d2] <=? 31))%Z eqn:Eok.
  - apply bool_decide_eq_true in Hall. rewrite Hall.
    rewrite !int_ascii_digits by (assumption || discriminate).
    rewrite !bind_return. unfold new_date.
    apply andb_true_iff in Eok as [Eok E4]. apply andb_true_iff in Eok as [Eok E3].
    apply andb_true_iff in Eok as [E1 E2].
    rewrite E1, E2, E3.
    replace (number [y1; y2; y3; y4] <=? 9999)%Z with true by (symmetry; apply Z.leb_le; lia).
    destruct (1 <=? number [y1; y2; y3; y4])%Z,
      (number [d1; d2] <=? days_in_month (number [y1; y2; y3; y4]) (number [m1; m2]))%Z;
      reflexivity.
  - apply bool_decide_eq_true in Hall. rewrite Hall.
    replace ((1 <=? number [y1; y2; y3; y4]) && (1 <=? number [m1; m2])
             && (number [m1; m2] <=? 12) && (1 <=? number [d1; d2])
             && (number [d1; d2]
                 <=? days_in_month (number [y1; y2; y3; y4]) (number [m1; m2])))%Z
      with false; [reflexivity|].
    symmetry. apply not_true_is_false. intros Hv.
    apply not_true_iff_false in Eok. apply Eok.
    repeat (apply andb_true_iff in Hv as [Hv ?]).
    repeat (apply andb_true_iff; split); try assumption.
    apply Z.leb_le. apply Z.leb_le in H. lia.
Qed.

End Reading.

Section ValidateFacts.
Import Unicode Py IDCardToolkit Spec.

(** Each check reports a reason of its own kind. *)
Lemma check_kinds table now n :
  Forall2 (fun (c : check) k => forall reason, c n = Some reason -> kind_of reason = Some k)
    (performed_checks table now) kinds_of_checks.
Proof.
  unfold performed_checks, kinds_of_checks.
  repeat match goal with
         | |- Forall2 _ (_ :: _) (_ :: _) => apply List.Forall2_cons
         | |- Forall2 _ [] [] => apply List.Forall2_nil
         end; intros reason.
  - unfold length_check. destruct (_ =? _)%nat; [discriminate|]. now intros [= <-].
  - unfold prefix_check. destruct (forallb _ _); [discriminate|]. now intros [= <-].
  - unfold last_check. destruct (n !! 17%nat) as [c|]; [|now intros [= <-]].
    destruct (_ || _); [discriminate|]. now intros [= <-].
  - unfold region_check. destruct (table !! _); [discriminate|]. now intros [= <-].
  - unfold date_check. cbv zeta. destruct (strptime_Ymd _) as [born|e].
    + destruct (datetime_gt _ _); [|discriminate]. now intros [= <-].
    + now intros [= <-].
  - unfold decimal_check. destruct (forallb _ _); [discriminate|]. now intros [= <-].
  - unfold checksum_check. cbv zeta. destruct (bool_decide _); [discriminate|].
    now intros [= <-].
Qed.

Lemma validate_returns self now s : exists result, validate self now s = Return result.
Proof. rewrite validate_first_failure. eauto. Qed.

Lemma validate_normalised self now s :
  validate self now (upper (strip s)) = validate self now s.
Proof. now rewrite !validate_first_failure, normalise_idempotent. Qed.

Lemma validate_padded self now l s r :
  spaces l -> spaces r -> validate self now (l ++ s ++ r) = validate self now s.
Proof. intros Hl Hr. now rewrite !validate_first_failure, strip_padded. Qed.

Lemma validate_lower_x self now p :
  validate self now (p ++ [0x78%N]) = validate self now (p ++ [0x58%N]).
Proof.
  rewrite !validate_first_failure, !strip_snoc_clean by reflexivity.
  now rewrite !upper_app.
Qed.

End ValidateFacts.

Section ValidateClaims.
Import Unicode Py IDCardToolkit Spec.

Lemma check_char_shape value p :
  exists ch, check_char value p = [ch]
    /\ (is_digit ch || (ch =? 0x58)%N) = true
    /\ to_upper_full ch = [ch] /\ is_space ch = false.
Proof.
  unfold check_char.
  pose proof (Z.mod_pos_bound (weighted_sum value p) 11 ltac:(lia)) as H.
  assert (Hi : (Z.to_nat (weighted_sum value p mod 11) < 11)%nat) by lia.
  revert Hi. generalize (Z.to_nat (weighted_sum value p mod 11)) as i. intros i Hi.
  do 11 (destruct i as [|i];
         [eexists; split; [reflexivity|]; vm_compute; repeat split|]).
  lia.
Qed.

Lemma forallb_false_Exists {A} (f : A -> bool) l :
  forallb f l = false -> Exists (fun x => f x = false) l.
Proof.
  induction l as [|x l IH]; [discriminate|]. simpl.
  destruct (f x) eqn:E; intros H.
  - apply Exists_cons_tl. now apply IH.
  - now apply Exists_cons_hd.
Qed.

Lemma decimal_forallb p : decimal_digits p -> forallb is_decimal p = true.
Proof.
  intros H. apply forallb_forall. intros c Hc.
  unfold decimal_digits in H. rewrite Forall_forall in H.
  now apply H, list_elem_of_In.
Qed.

Lemma forallb_decimal p : forallb is_decimal p = true -> decimal_digits p.
Proof.
  intros H. apply Forall_forall. intros c Hc.
  rewrite forallb_forall in H. now apply H, list_elem_of_In.
Qed.

(** Seventeen decimal digits with their check character pass every
    check when the region is known and the date is a past one. *)
Lemma validate_with_check self now p born :
  length p = 17%nat ->
  decimal_digits p ->
  is_Some (area_codes self !! take 6 p) ->
  strptime_Ymd (slice 6 14 p) = Return born ->
  datetime_gt born now = false ->
  validate self now (p ++ check_char digit_value p) = Return (true, py "身份证号码有效").
Proof.
  intros Hlen Hdec [name Hregion] Hborn Hpast.
  pose proof (decimal_forallb p Hdec) as Hd.
  rewrite validate_first_failure.
  pose proof (eq_refl (check_char digit_value p)) as Ec.
  destruct (check_char_shape digit_value p) as (ch & Ech & Hch & Hup & Hsp).
  rewrite Ech in Ec at 1. rewrite Ech.
  rewrite plain_fixed.
  2:{ apply Forall_app. split.
      - eapply Forall_impl; [exact Hdec|]. intros c Hc. cbv beta in Hc.
        now apply digit_fixed, decimal_is_digit.
      - constructor; [split; assumption | constructor]. }
  assert (Hdig : forallb is_digit p = true).
  { rewrite forallb_forall in *. intros c Hc. now apply decimal_is_digit, Hd. }
  do 18 (destruct p as [|? p]; try discriminate). clear Hlen.
  cbn [take slice drop Nat.sub] in Hregion, Hborn.
  cbn [app]. unfold performed_checks.
  rewrite verdict_passes by reflexivity.
  rewrite verdict_passes by (unfold prefix_check; cbn [take]; now rewrite Hdig).
  rewrite verdict_passes by (unfold last_check; cbn [lookup list_lookup]; now rewrite Hch).
  rewrite verdict_passes by (unfold region_check; cbn [take]; now rewrite Hregion).
  rewrite verdict_passes
    by (unfold date_check; cbn [take slice drop Nat.sub]; now rewrite Hborn, Hpast).
  rewrite verdict_passes by (unfold decimal_check; cbn [take]; now rewrite Hd).
  rewrite verdict_passes; [reflexivity|].
  unfold checksum_check. cbn [take drop]. rewrite <- Ec. now rewrite bool_decide_eq_true_2.
Qed.

Lemma forallb_ascii_digits p : forallb is_ascii_digit p = true -> ascii_digits p.
Proof.
  intros H. apply Forall_forall. intros c Hc.
  rewrite forallb_forall in H. now apply H, list_elem_of_In.
Qed.

Lemma ascii_digits_slice i j s : ascii_digits s -> ascii_digits (slice i j s).
Proof.
  unfold ascii_digits, slice. rewrite !Forall_forall. intros H c Hc.
  now apply H, subseteq_drop with (n := i), subseteq_take with (n := (j - i)%nat).
Qed.

(** C3. Appending the computed check character to seventeen ASCII digits
    whose first six are a key of the region table and whose characters
    6 to 13 are a day of the calendar that is not after the current time
    gives a number [validate] accepts. *)
Theorem validate_accepts_appended_check self now p day :
  length p = 17%nat ->
  ascii_digits p ->
  is_Some (area_codes self !! take 6 p) ->
  calendar_date (slice 6 14 p) = Some day ->
  datetime_gt (Datetime day 0 0 0 0) now = false ->
  exists c, _calculate_checksum p = Return c
    /\ validate self now (p ++ c) = Return (true, py "身份证号码有效").
Proof.
  intros Hlen Hp Hregion Hday Hpast.
  pose proof (ascii_decimal_digits p Hp) as Hdec.
  assert (Hborn : strptime_Ymd (slice 6 14 p) = Return (Datetime day 0 0 0 0)).
  { rewrite strptime_reads_calendar, Hday; [reflexivity | | now apply ascii_digits_slice].
    unfold slice. rewrite length_take, length_drop, Hlen. reflexivity. }
  exists (check_char digit_value p). split.
  - rewrite calculate_checksum, (decimal_forallb p Hdec).
    apply Nat.eqb_eq in Hlen. now rewrite Hlen.
  - now apply (validate_with_check self now p (Datetime day 0 0 0 0)).
Qed.

Lemma sample_table_110105 :
  area_codes Sample.toolkit !! py "110105" = Some (py "北京市市辖区朝阳区").
Proof. vm_compute. reflexivity. Qed.

Lemma validate_accepts_appended_check_witness :
  exists c, _calculate_checksum (py "11010519491231002") = Return c
    /\ validate Sample.toolkit Sample.now (py "11010519491231002" ++ c)
       = Return (true, py "身份证号码有效").
Proof.
  apply (validate_accepts_appended_check Sample.toolkit Sample.now
           (py "11010519491231002") (Date 1949 12 31)).
  - reflexivity.
  - apply forallb_ascii_digits. vm_compute. reflexivity.
  - vm_compute. eauto.
  - vm_compute. reflexivity.
  - vm_compute. reflexivity.
Defined.

(** C9. [validate] sees its argument only through [strip] and [upper]:
    validating the normalised string is validating the string, so white
    space around a number and a lower-case [x] at its end change
    nothing. *)
Theorem validate_normalises self now s l r :
  spaces l -> spaces r ->
  validate self now (upper (strip s)) = validate self now s
  /\ validate self now (l ++ s ++ r) = validate self now s
  /\ validate self now (s ++ [0x78%N]) = validate self now (s ++ [0x58%N]).
Proof.
  intros Hl Hr. split; [apply validate_normalised|].
  split; [now apply validate_padded | apply validate_lower_x].
Qed.

Lemma forallb_spaces s : forallb is_space s = true -> spaces s.
Proof.
  intros H. apply Forall_forall. intros c Hc.
  rewrite forallb_forall in H. now apply H, list_elem_of_In.
Qed.

Lemma validate_normalises_witness :
  validate Sample.toolkit Sample.now (upper (strip (py " 11010519491231002x ")))
  = validate Sample.toolkit Sample.now (py " 11010519491231002x ")
  /\ validate Sample.toolkit Sample.now (py "  " ++ py "11010519491231002" ++ [0x3000%N])
     = validate Sample.toolkit Sample.now (py "11010519491231002")
  /\ validate Sample.toolkit Sample.now (py "11010519491231002" ++ [0x78%N])
     = validate Sample.toolkit Sample.now (py "11010519491231002" ++ [0x58%N]).
Proof.
  pose proof (validate_normalises Sample.toolkit Sample.now
                (py " 11010519491231002x ") [] []) as H1.
  pose proof (validate_normalises Sample.toolkit Sample.now
                (py "11010519491231002") (py "  ") [0x3000%N]) as H2.
  split; [apply H1; constructor|].
  apply H2; apply forallb_spaces; vm_compute; reflexivity.
Defined.

(** C2, as the code has it. [validate] strips and upper-cases its
    argument and then reports the first failing check of: length 18;
    a prefix of seventeen digits; a last character that is a digit or
    [X]; a region code in the table; a date that parses and is not after
    the current time; a prefix [int] can read; the check character.
    Each check reports a reason of its own kind, and a number that
    passes all of them is accepted. *)
Theorem validate_checks_in_order self now s :
  validate self now s
  = Return (verdict (performed_checks (area_codes self) now) (upper (strip s)))
  /\ Forall2 (fun (c : check) k =>
                forall reason, c (upper (strip s)) = Some reason -> kind_of reason = Some k)
       (performed_checks (area_codes self) now)
       [LengthError; FormatError; FormatError; AddressError; DateError;
        InternalError; ChecksumError]
  /\ kind_of (py "身份证号码有效") = Some Accepted
  /\ validate self now (s ++ [0x78%N]) = validate self now (s ++ [0x58%N]).
Proof.
  split; [apply validate_first_failure|].
  split; [apply check_kinds|].
  split; [reflexivity | apply validate_lower_x].
Qed.

(** The ordering as the specification states it fails on a valid number
    with a blank in front: its length is 19, and it is accepted. *)
Lemma stated_order_fails_on_padding :
  ~ stated_order Sample.toolkit Sample.now (py " 11010519491231002X").
Proof. unfold stated_order. vm_compute. discriminate. Qed.

(** C10, as the code has it. The internal-error branch of [validate] is
    taken only when the guard of [_calculate_checksum] holds for the
    prefix and the prefix has a character that [isdigit] accepts and
    [int] refuses; for a prefix of decimal digits it is not taken. *)
Theorem internal_error_only_for_nondecimal self now s :
  validate self now s = Return (false, py "内部计算错误") ->
  let p := take 17 (upper (strip s)) in
  length p = 17%nat /\ isdigit p = true
  /\ Exists (fun c => is_digit c = true /\ is_decimal c = false) p
  /\ ~ decimal_digits p.
Proof.
  rewrite validate_first_failure. generalize (upper (strip s)) as n. intros n H.
  injection H as H. unfold verdict, performed_checks in H.
  rewrite !first_failure_cons in H.
  unfold length_check in H.
  destruct (length n =? 18)%nat eqn:El; [|vm_compute in H; discriminate].
  unfold prefix_check in H.
  destruct (forallb is_digit (take 17 n)) eqn:Ep; [|vm_compute in H; discriminate].
  unfold last_check in H.
  destruct (n !! 17%nat) as [c|]; [|vm_compute in H; discriminate].
  destruct (is_digit c || (c =? 88)%N); [|vm_compute in H; discriminate].
  unfold region_check in H.
  destruct (area_codes self !! take 6 n); [|vm_compute in H; discriminate].
  unfold date_check in H. cbv zeta in H.
  destruct (strptime_Ymd (slice 6 14 n)) as [born|e]; [|vm_compute in H; discriminate].
  destruct (datetime_gt born now); [vm_compute in H; discriminate|].
  unfold decimal_check in H.
  destruct (forallb is_decimal (take 17 n)) eqn:Ed.
  { unfold checksum_check in H. cbv zeta in H.
    destruct (bool_decide _); [discriminate|].
    revert H. generalize (check_char digit_value (take 17 n)), (drop 17 n).
    intros expected given H. vm_compute in H. discriminate. }
  clear H. cbv zeta. apply Nat.eqb_eq in El.
  assert (Hlen : length (take 17 n) = 17%nat) by (rewrite length_take; lia).
  split; [exact Hlen|]. split.
  { unfold isdigit. destruct (take 17 n); [discriminate | exact Ep]. }
  split.
  - apply forallb_false_Exists in Ed. rewrite Exists_exists in *.
    destruct Ed as (x & Hx & Hnd). exists x. split; [exact Hx|]. split; [|exact Hnd].
    rewrite forallb_forall in Ep. now apply Ep, list_elem_of_In.
  - intros Hdec. apply decimal_forallb in Hdec. congruence.
Qed.

(** A superscript two among the sequence digits reaches the branch. *)
Lemma internal_error_reached :
  ~ never_internal_error Sample.toolkit Sample.now (py "1101051949123100²X").
Proof. unfold never_internal_error. intros H. apply H. vm_compute. reflexivity. Qed.

Lemma internal_error_only_for_nondecimal_witness :
  let p := take 17 (upper (strip (py "1101051949123100²X"))) in
  length p = 17%nat /\ isdigit p = true
  /\ Exists (fun c => is_digit c = true /\ is_decimal c = false) p
  /\ ~ decimal_digits p.
Proof.
  apply (internal_error_only_for_nondecimal Sample.toolkit Sample.now).
  vm_compute. reflexivity.
Defined.

End ValidateClaims.

(** ** The check character, construction, and the raw slices *)

Section OtherClaims.
Import Unicode Py IDCardToolkit Spec.

Lemma weighted_sum_ext f g p :
  Forall (fun c => f c = g c) p -> length p = 17%nat ->
  weighted_sum f p = weighted_sum g p.
Proof.
  intros H Hlen. do 18 (destruct p as [|? p]; try discriminate).
  unfold weighted_sum. cbn [seq map nth].
  repeat match goal with
         | H : Forall _ (_ :: _) |- _ => apply Forall_cons_1 in H as [-> H]
         end.
  reflexivity.
Qed.

(** C1. For seventeen ASCII digits the check character is the entry of
    [1 0 X 9 8 7 6 5 4 3 2] at the remainder modulo 11 of the sum of the
    digits weighted by [7 9 10 5 8 4 2 1 6 3 7 9 10 5 8 4 2]; for
    11010519491231002 it is X. *)
Theorem checksum_weighted_sum p :
  length p = 17%nat ->
  ascii_digits p ->
  _calculate_checksum p = Return (check_char ascii_value p)
  /\ _calculate_checksum (py "11010519491231002") = Return (py "X").
Proof.
  intros Hlen Hp. split; [|vm_compute; reflexivity].
  rewrite calculate_checksum.
  apply Nat.eqb_eq in Hlen as Hl. rewrite Hl. apply Nat.eqb_eq in Hl.
  assert (Hd : forallb is_decimal p = true).
  { apply forallb_forall. intros c Hc. apply ascii_digit_is_decimal.
    unfold ascii_digits in Hp. rewrite Forall_forall in Hp.
    now apply Hp, list_elem_of_In. }
  rewrite Hd. cbn [andb]. unfold check_char.
  rewrite (weighted_sum_ext digit_value ascii_value); [reflexivity | | assumption].
  eapply Forall_impl; [exact Hp|]. intros c Hc. now apply ascii_value_digit.
Qed.

Lemma checksum_weighted_sum_witness :
  _calculate_checksum (py "44030819990101123")
  = Return (check_char ascii_value (py "44030819990101123"))
  /\ _calculate_checksum (py "11010519491231002") = Return (py "X").
Proof.
  apply (checksum_weighted_sum (py "44030819990101123")).
  - reflexivity.
  - apply forallb_ascii_digits. vm_compute. reflexivity.
Defined.

(** C7. [validate] accepts a valid number with a blank in front, since
    it strips its own copy; [parse] then slices the argument as given,
    reads [51949123] as the date, and the [ValueError] of [strptime]
    escapes. *)
Theorem parse_raises_on_padded_number :
  validate Sample.toolkit Sample.now (py " 11010519491231002X")
  = Return (true, py "身份证号码有效")
  /\ parse Sample.toolkit Sample.now Sample.today (py " 11010519491231002X")
     = Raise ValueError.
Proof. split; vm_compute; reflexivity. Qed.

(** What C7 says of [validate] holds: it always returns, and [123] is
    refused for its length. *)
Lemma validate_never_raises self now s :
  (exists ok reason, validate self now s = Return (ok, reason))
  /\ validate self now (py "123") = Return (false, py "长度错误：必须为18位").
Proof.
  split.
  - destruct (validate_returns self now s) as [[ok reason] H]. eauto.
  - rewrite validate_first_failure. reflexivity.
Qed.

(** The analysis slices the argument as given, too. After seventeen
    blanks before a valid number, which [validate] accepts, characters
    14 to 16 are blanks; the [ValueError] of [int] escapes and no report
    is produced. *)
Lemma analyze_raises_on_padded_number :
  validate Sample.toolkit Sample.now (py "                 11010519491231002X")
  = Return (true, py "身份证号码有效")
  /\ analyze_population_sample Sample.toolkit Sample.now
       [py "11010519491231002X"; py "                 11010519491231002X"]
     = Raise ValueError.
Proof. split; vm_compute; reflexivity. Qed.

Lemma first_failure_exists (cs : list check) n :
  Exists (fun c : check => c n <> None) cs -> exists reason, first_failure cs n = Some reason.
Proof.
  induction 1 as [c cs Hc|c cs _ IH]; rewrite first_failure_cons.
  - destruct (c n) as [r|]; [eauto | congruence].
  - destruct (c n) as [r|]; [eauto | exact IH].
Qed.

Lemma validate_empty_table now s :
  exists reason, validate (New ∅) now s = Return (false, reason).
Proof.
  rewrite validate_first_failure. unfold verdict. cbn [area_codes].
  destruct (first_failure_exists (performed_checks ∅ now) (upper (strip s))) as [r ->];
    [|eauto].
  unfold performed_checks. do 3 apply Exists_cons_tl. apply Exists_cons_hd.
  unfold region_check. now rewrite lookup_empty.
Qed.

(** A missing region file does not stop construction. *)
Lemma missing_file_constructs : ~ construction_fails_without_data Missing.
Proof. intros [e H]. discriminate H. Qed.

(** C8, as the code has it. A region file that is unreadable or ill
    formed makes the constructor raise. A missing file does not: the
    constructor returns an instance with an empty table, on which
    [validate] refuses every input, [parse] reports every input invalid
    and [guess] returns its region error; [main_cli] returns before its
    menu in both cases. *)
Theorem construction_outcomes :
  __init__ Unreadable = Raise OtherError
  /\ __init__ Missing = Return (New ∅)
  /\ (forall data, __init__ (Document data) = Return (New (_flatten_codes data [] ∅)))
  /\ (forall now s, exists reason, validate (New ∅) now s = Return (false, reason))
  /\ (forall now today s, exists reason, parse (New ∅) now today s = Return (Invalid reason))
  /\ (forall region date gender,
        guess (New ∅) region date gender
        = Return [py "错误: 无效或不存在的行政区划代码 " ++ region])
  /\ main_cli_toolkit Missing = None
  /\ main_cli_toolkit Unreadable = None.
Proof.
  do 3 (split; [reflexivity|]).
  split; [intros now s; apply validate_empty_table|].
  split.
  { intros now today s. unfold parse.
    destruct (validate_empty_table now s) as [reason ->]. eauto. }
  split; [|split; reflexivity].
  intros region date gender. unfold guess. cbn [area_codes]. now rewrite lookup_empty.
Qed.

End OtherClaims.

(** ** [guess] *)

Section Guess.
Import Unicode Py IDCardToolkit Spec Scan.

Lemma three_digits_checked : forallb three_digits (map Z.of_nat (seq 0 1000)) = true.
Proof. vm_compute. reflexivity. Qed.

Lemma three_digits_all i : (0 <= i < 1000)%Z -> three_digits i = true.
Proof.
  intros Hi. pose proof three_digits_checked as H. rewrite forallb_forall in H.
  apply H, in_map_iff. exists (Z.to_nat i). split; [lia|]. apply in_seq. lia.
Qed.

(** The shape of a sequence code. *)
Lemma format_code i :
  (0 <= i < 1000)%Z ->
  exists a b c, format_0d 3 i = [a; b; c]
    /\ ascii_digits [a; b; c]
    /\ int [a; b; c] = Return i
    /\ exists v, int [c] = Return v /\ (v mod 2 = i mod 2)%Z.
Proof.
  intros Hi. apply three_digits_all in Hi. unfold three_digits in Hi.
  destruct (format_0d 3 i) as [|a [|b [|c [|]]]]; try discriminate.
  exists a, b, c.
  apply andb_true_iff in Hi as [Hi Hv]. apply andb_true_iff in Hi as [Hi Hint].
  apply andb_true_iff in Hi as [Hi Hc]. apply andb_true_iff in Hi as [Ha Hb].
  split; [reflexivity|]. split; [now repeat constructor|].
  split; [now apply bool_decide_eq_true in Hint|].
  destruct (int [c]) as [v|]; [|discriminate].
  exists v. split; [reflexivity | now apply Z.eqb_eq].
Qed.

Lemma odd_codes_range i : In i odd_codes -> (0 <= i < 1000)%Z /\ (i mod 2 = 1)%Z.
Proof.
  unfold odd_codes. rewrite in_map_iff. intros (k & <- & Hk). apply in_seq in Hk.
  split; [lia|]. rewrite Z.add_comm, Z.mul_comm, Z.mod_add by lia. reflexivity.
Qed.

Lemma even_codes_range i : In i even_codes -> (0 <= i < 1000)%Z /\ (i mod 2 = 0)%Z.
Proof.
  unfold even_codes. rewrite in_map_iff. intros (k & <- & Hk). apply in_seq in Hk.
  split; [lia|].
  replace (2 * Z.of_nat k + 2)%Z with (0 + (Z.of_nat k + 1) * 2)%Z by lia.
  now rewrite Z.mod_add by lia.
Qed.

Lemma range_odd : range 1 1000 2 = odd_codes.
Proof. vm_compute. reflexivity. Qed.

Lemma range_even : range 2 1000 2 = even_codes.
Proof. vm_compute. reflexivity. Qed.

(** The seventeen characters of a candidate are decimal digits. *)
Lemma candidate_prefix region date i :
  length region = 6%nat -> length date = 8%nat ->
  decimal_digits region -> decimal_digits date -> (0 <= i < 1000)%Z ->
  length (region ++ date ++ format_0d 3 i) = 17%nat
  /\ decimal_digits (region ++ date ++ format_0d 3 i).
Proof.
  intros Hr Hd Dr Dd Hi. destruct (format_code i Hi) as (a & b & c & -> & Hc & _).
  split.
  - rewrite !length_app, Hr, Hd. reflexivity.
  - auto using decimal_digits_app, ascii_decimal_digits.
Qed.

(** The loop of [guess] builds one candidate per sequence code. *)
Lemma guess_loop region date codes acc :
  length region = 6%nat -> length date = 8%nat ->
  decimal_digits region -> decimal_digits date ->
  (forall i, In i codes -> (0 <= i < 1000)%Z) ->
  for_each codes
    (fun i possible_ids =>
       check ← _calculate_checksum ((region ++ date) ++ format_0d 3 i);
       Return (possible_ids ++ [((region ++ date) ++ format_0d 3 i) ++ check]))
    acc
  = Return (acc ++ map (candidate region date) codes).
Proof.
  intros Hr Hd Dr Dd. revert acc.
  induction codes as [|i codes IH]; intros acc Hcodes.
  - cbn. now rewrite app_nil_r.
  - cbn [for_each map].
    destruct (candidate_prefix region date i Hr Hd Dr Dd) as [Hlen Hdec];
      [apply Hcodes; now left|].
    rewrite <- app_assoc, calculate_checksum.
    apply Nat.eqb_eq in Hlen. rewrite Hlen, (decimal_forallb _ Hdec).
    cbn [andb]. rewrite bind_return, bind_return.
    rewrite IH by (intros j Hj; apply Hcodes; now right).
    now rewrite <- app_assoc.
Qed.

Lemma upper_M : upper (py "M") = py "M".
Proof. vm_compute. reflexivity. Qed.

Lemma upper_F : upper (py "F") = py "F".
Proof. vm_compute. reflexivity. Qed.

Lemma guess_male self region date born :
  is_Some (area_codes self !! region) ->
  length region = 6%nat -> length date = 8%nat ->
  decimal_digits region -> decimal_digits date ->
  strptime_Ymd date = Return born ->
  guess self region date (py "M") = Return (map (candidate region date) odd_codes).
Proof.
  intros [name Hregion] Hr Hd Dr Dd Hborn. unfold guess.
  rewrite Hregion, Hborn, bind_return, try_except_return, bind_return, upper_M.
  change (bool_decide (py "M" ∈ [py "M"; py "F"])) with true.
  change (bool_decide (py "M" = py "M")) with true. cbv beta iota zeta.
  change (negb true) with false. cbv iota. rewrite range_odd.
  rewrite (guess_loop region date odd_codes [])
    by (try assumption; intros i Hi; now apply odd_codes_range).
  reflexivity.
Qed.

Lemma guess_female self region date born :
  is_Some (area_codes self !! region) ->
  length region = 6%nat -> length date = 8%nat ->
  decimal_digits region -> decimal_digits date ->
  strptime_Ymd date = Return born ->
  guess self region date (py "F") = Return (map (candidate region date) even_codes).
Proof.
  intros [name Hregion] Hr Hd Dr Dd Hborn. unfold guess.
  rewrite Hregion, Hborn, bind_return, try_except_return, bind_return, upper_F.
  change (bool_decide (py "F" ∈ [py "M"; py "F"])) with true.
  change (bool_decide (py "F" = py "M")) with false. cbv beta iota zeta.
  change (negb true) with false. cbv iota. rewrite range_even.
  rewrite (guess_loop region date even_codes [])
    by (try assumption; intros i Hi; now apply even_codes_range).
  reflexivity.
Qed.

Lemma candidate_sequence region date i :
  length region = 6%nat -> length date = 8%nat -> (0 <= i < 1000)%Z ->
  sequence_number (candidate region date i) = Return i.
Proof.
  intros Hr Hd Hi. destruct (format_code i Hi) as (a & b & c & E & _ & Hint & _).
  do 7 (destruct region as [|? region]; try discriminate).
  do 9 (destruct date as [|? date]; try discriminate).
  unfold sequence_number, candidate. rewrite E. exact Hint.
Qed.

Lemma lookup_map {A B} (f : A -> B) (l : list A) j b :
  map f l !! j = Some b -> exists a, l !! j = Some a /\ b = f a.
Proof.
  revert j. induction l as [|x l IH]; intros [|j] H; try discriminate.
  - injection H as <-. now exists x.
  - now apply IH.
Qed.

Lemma lookup_map_seq {B} (g : nat -> B) n j b :
  map g (seq 0 n) !! j = Some b -> (j < n)%nat /\ b = g j.
Proof.
  intros H. apply lookup_map in H as (a & Ha & ->).
  apply lookup_seq in Ha as [-> Hj]. now split.
Qed.

Lemma ascending_candidates region date codes :
  length region = 6%nat -> length date = 8%nat ->
  (forall i, In i codes -> (0 <= i < 1000)%Z) ->
  (forall j k x y, (j < k)%nat -> codes !! j = Some x -> codes !! k = Some y -> (x < y)%Z) ->
  ascending (map (candidate region date) codes).
Proof.
  intros Hr Hd Hcodes Hasc j k a b Hjk Ha Hb.
  apply lookup_map in Ha as (x & Hx & ->). apply lookup_map in Hb as (y & Hy & ->).
  exists x, y.
  split; [apply candidate_sequence; auto; apply Hcodes, list_elem_of_In; eapply list_elem_of_lookup_2; eauto|].
  split; [apply candidate_sequence; auto; apply Hcodes, list_elem_of_In; eapply list_elem_of_lookup_2; eauto|].
  eauto.
Qed.

Lemma NoDup_map_on {A B} (f : A -> B) (l : list A) :
  NoDup l -> (forall x y, In x l -> In y l -> f x = f y -> x = y) -> NoDup (map f l).
Proof.
  induction 1 as [|x l Hx Hl IH]; intros Hinj; [constructor|].
  cbn [map]. apply NoDup_cons_2.
  - intros Hin. apply list_elem_of_In, in_map_iff in Hin as (y & Hy & Hin).
    apply Hinj in Hy; [|now right|now left]. subst y.
    now apply Hx, list_elem_of_In.
  - apply IH. intros a b Ha Hb. apply Hinj; now right.
Qed.

Lemma NoDup_candidates region date codes :
  length region = 6%nat -> length date = 8%nat ->
  (forall i, In i codes -> (0 <= i < 1000)%Z) ->
  NoDup codes ->
  NoDup (map (candidate region date) codes).
Proof.
  intros Hr Hd Hcodes Hnd. apply NoDup_map_on; [assumption|].
  intros x y Hx Hy E.
  pose proof (candidate_sequence region date x Hr Hd (Hcodes x Hx)) as Ex.
  pose proof (candidate_sequence region date y Hr Hd (Hcodes y Hy)) as Ey.
  rewrite E in Ex. congruence.
Qed.

Lemma odd_codes_ascend j k x y :
  (j < k)%nat -> odd_codes !! j = Some x -> odd_codes !! k = Some y -> (x < y)%Z.
Proof.
  intros Hjk Hx Hy. apply lookup_map_seq in Hx as [_ ->].
  apply lookup_map_seq in Hy as [_ ->]. lia.
Qed.

Lemma even_codes_ascend j k x y :
  (j < k)%nat -> even_codes !! j = Some x -> even_codes !! k = Some y -> (x < y)%Z.
Proof.
  intros Hjk Hx Hy. apply lookup_map_seq in Hx as [_ ->].
  apply lookup_map_seq in Hy as [_ ->]. lia.
Qed.

Lemma NoDup_odd_codes : NoDup odd_codes.
Proof.
  apply NoDup_map_on; [apply NoDup_seq|]. intros; lia.
Qed.

Lemma NoDup_even_codes : NoDup even_codes.
Proof.
  apply NoDup_map_on; [apply NoDup_seq|]. intros; lia.
Qed.

(** X25. For a region code of six decimal digits present in the table
    and a date of eight decimal digits that parses, [guess] returns the
    500 numbers with the odd sequence codes 001 to 999 for M and the 499
    numbers with the even codes 002 to 998 for F, in ascending order of
    sequence code and without duplicates. *)
Theorem guess_enumerates self region date born :
  is_Some (area_codes self !! region) ->
  length region = 6%nat -> decimal_digits region ->
  length date = 8%nat -> decimal_digits date ->
  strptime_Ymd date = Return born ->
  enumerates self region date.
Proof.
  intros Hregion Hr Dr Hd Dd Hborn.
  exists (map (candidate region date) odd_codes), (map (candidate region date) even_codes).
  split; [now apply (guess_male self region date born)|].
  split; [now apply (guess_female self region date born)|].
  do 2 (split; [reflexivity|]).
  split; [now rewrite length_map|]. split; [now rewrite length_map|].
  assert (Hodd : forall i, In i odd_codes -> (0 <= i < 1000)%Z)
    by (intros i Hi; now apply odd_codes_range).
  assert (Heven : forall i, In i even_codes -> (0 <= i < 1000)%Z)
    by (intros i Hi; now apply even_codes_range).
  split; [apply ascending_candidates;
            [exact Hr | exact Hd | exact Hodd | apply odd_codes_ascend]|].
  split; [apply ascending_candidates;
            [exact Hr | exact Hd | exact Heven | apply even_codes_ascend]|].
  split; apply NoDup_candidates;
    first [exact Hr | exact Hd | exact Hodd | exact Heven
          | apply NoDup_odd_codes | apply NoDup_even_codes].
Qed.

Lemma sample_table_11 : area_codes Sample.toolkit !! py "11" = Some (py "北京市").
Proof. vm_compute. reflexivity. Qed.

(** A two-digit province code is a key of the table as well; [guess]
    passes it to [_calculate_checksum] in a prefix of thirteen
    characters, which raises. *)
Lemma stated_enumeration_fails_for_province :
  ~ stated_enumeration Sample.toolkit (py "11") (py "19900101").
Proof.
  intros H. destruct H as (males & females & Hm & _).
  - rewrite sample_table_11. eauto.
  - reflexivity.
  - apply forallb_decimal. vm_compute. reflexivity.
  - eexists. vm_compute. reflexivity.
  - vm_compute in Hm. discriminate.
Qed.

(** C4. The code of a province is a key of the region table as well,
    the date is a day of the calendar and the sex is M or F, yet [guess]
    returns no list: the prefix it builds has thirteen characters, and
    the [ValueError] of [_calculate_checksum] escapes. *)
Theorem guess_raises_for_province_code :
  area_codes Sample.toolkit !! py "11" = Some (py "北京市")
  /\ strptime_Ymd (py "19900101") = Return (Datetime (Date 1990 1 1) 0 0 0 0)
  /\ guess Sample.toolkit (py "11") (py "19900101") (py "M") = Raise ValueError
  /\ guess Sample.toolkit (py "11") (py "19900101") (py "F") = Raise ValueError.
Proof. repeat split; vm_compute; reflexivity. Qed.

Lemma guess_enumerates_witness : enumerates Sample.toolkit (py "110105") (py "19900307").
Proof.
  apply (guess_enumerates Sample.toolkit (py "110105") (py "19900307")
           (Datetime (Date 1990 3 7) 0 0 0 0)).
  - rewrite sample_table_110105. eauto.
  - reflexivity.
  - apply forallb_decimal. vm_compute. reflexivity.
  - reflexivity.
  - apply forallb_decimal. vm_compute. reflexivity.
  - vm_compute. reflexivity.
Defined.

End Guess.

(** ** The numbers [guess] returns *)

Section Guessed.
Import Unicode Py IDCardToolkit Spec Scan.

Lemma odd_codes_head : exists rest, odd_codes = 1%Z :: rest.
Proof. eexists. reflexivity. Qed.

Lemma even_codes_head : exists rest, even_codes = 2%Z :: rest.
Proof. eexists. reflexivity. Qed.

Lemma decimal_digits_app_inv s t :
  decimal_digits (s ++ t) -> decimal_digits s /\ decimal_digits t.
Proof. intros H. now apply Forall_app in H. Qed.

(** When [guess] returns for a six-character region, the region and the
    date are decimal digits and the date has eight of them. *)
Lemma guess_returns_shape self region date gender born ids :
  is_Some (area_codes self !! region) ->
  length region = 6%nat ->
  strptime_Ymd date = Return born ->
  gender = py "M" \/ gender = py "F" ->
  guess self region date gender = Return ids ->
  length date = 8%nat /\ decimal_digits region /\ decimal_digits date.
Proof.
  intros [name Hregion] Hr Hborn Hg H. unfold guess in H.
  rewrite Hregion, Hborn, bind_return, try_except_return, bind_return in H.
  assert (exists i rest,
            (0 <= i < 1000)%Z /\
            for_each (i :: rest)
              (fun i possible_ids =>
                 check ← _calculate_checksum ((region ++ date) ++ format_0d 3 i);
                 Return (possible_ids ++ [((region ++ date) ++ format_0d 3 i) ++ check]))
              [] = Return ids) as (i & rest & Hi & Hloop).
  { destruct Hg as [-> | ->].
    - rewrite upper_M in H.
      change (bool_decide (py "M" ∈ [py "M"; py "F"])) with true in H.
      change (bool_decide (py "M" = py "M")) with true in H.
      cbv beta iota zeta in H. change (negb true) with false in H. cbv iota in H.
      rewrite range_odd in H. destruct odd_codes_head as [rest E]. rewrite E in H.
      exists 1%Z, rest. split; [lia | exact H].
    - rewrite upper_F in H.
      change (bool_decide (py "F" ∈ [py "M"; py "F"])) with true in H.
      change (bool_decide (py "F" = py "M")) with false in H.
      cbv beta iota zeta in H. change (negb true) with false in H. cbv iota in H.
      rewrite range_even in H. destruct even_codes_head as [rest E]. rewrite E in H.
      exists 2%Z, rest. split; [lia | exact H]. }
  cbn [for_each] in Hloop. rewrite calculate_checksum in Hloop.
  destruct (format_code i Hi) as (a & b & c & E & _).
  rewrite E in Hloop.
  destruct (length ((region ++ date) ++ [a; b; c]) =? 17)%nat eqn:El;
    [|discriminate Hloop].
  destruct (forallb is_decimal ((region ++ date) ++ [a; b; c])) eqn:Ed;
    [|discriminate Hloop].
  apply Nat.eqb_eq in El. rewrite !length_app, Hr in El. cbn [length] in El.
  apply forallb_decimal in Ed.
  apply decimal_digits_app_inv in Ed as [Ed _].
  apply decimal_digits_app_inv in Ed as [Dr Dd].
  split; [lia|]. now split.
Qed.

Lemma Return_inj {A} (a b : A) : Return a = Return b -> a = b.
Proof. now intros [= ->]. Qed.

Lemma elem_of_map {A B} (f : A -> B) (l : list A) y :
  y ∈ map f l -> exists x, y = f x /\ In x l.
Proof.
  induction l as [|a l IH]; cbn [map]; intros H.
  - now apply not_elem_of_nil in H.
  - apply elem_of_cons in H as [->|H].
    + exists a. split; [reflexivity | now left].
    + destruct (IH H) as (x & -> & Hx). exists x. split; [reflexivity | now right].
Qed.

Lemma candidate_valid self now region date i born :
  is_Some (area_codes self !! region) ->
  length region = 6%nat -> length date = 8%nat ->
  decimal_digits region -> decimal_digits date ->
  strptime_Ymd date = Return born ->
  datetime_gt born now = false ->
  (0 <= i < 1000)%Z ->
  validate self now (candidate region date i) = Return (true, py "身份证号码有效").
Proof.
  intros Hregion Hr Hd Dr Dd Hborn Hpast Hi.
  destruct (candidate_prefix region date i Hr Hd Dr Dd Hi) as [Hlen Hdec].
  unfold candidate. cbv zeta.
  apply (validate_with_check self now _ born); try assumption.
  - rewrite take_app_length' by (symmetry; assumption). exact Hregion.
  - unfold slice. cbn [Nat.sub]. rewrite drop_app_length' by (symmetry; assumption).
    rewrite take_app_length' by (symmetry; assumption). exact Hborn.
Qed.

Lemma candidate_parsed self now today region date i born :
  is_Some (area_codes self !! region) ->
  length region = 6%nat -> length date = 8%nat ->
  decimal_digits region -> decimal_digits date ->
  strptime_Ymd date = Return born ->
  datetime_gt born now = false ->
  (0 <= i < 1000)%Z ->
  exists fields,
    parse self now today (candidate region date i) = Return (Valid fields)
    /\ IDCardToolkit.gender fields
       = (if (i mod 2 =? 1)%Z then py "男 (Male)" else py "女 (Female)")
    /\ birth_date fields = strftime_Y_m_d (on born).
Proof.
  intros Hregion Hr Hd Dr Dd Hborn Hpast Hi.
  pose proof (candidate_valid self now region date i born
                Hregion Hr Hd Dr Dd Hborn Hpast Hi) as Hvalid.
  unfold parse. rewrite Hvalid, bind_return. cbn [negb].
  destruct (format_code i Hi) as (a & b & c & E & _ & Hint & v & Hv & Hparity).
  unfold candidate. cbv zeta. rewrite E.
  destruct (check_char_shape digit_value (region ++ date ++ [a; b; c]))
    as (ch & -> & _).
  do 7 (destruct region as [|? region]; try discriminate).
  do 9 (destruct date as [|? date]; try discriminate).
  cbn [app slice take drop Nat.sub].
  rewrite Hborn, bind_return, Hint, bind_return.
  change (item 16 _) with (Return c). rewrite bind_return, Hv, bind_return.
  change (last_item _) with (Return ch). rewrite bind_return.
  eexists. split; [reflexivity|]. cbn [IDCardToolkit.gender birth_date].
  split; [|reflexivity].
  rewrite Hparity.
  pose proof (Z.mod_pos_bound i 2 ltac:(lia)) as Hb.
  destruct (i mod 2 =? 0)%Z eqn:E0, (i mod 2 =? 1)%Z eqn:E1; try reflexivity; lia.
Qed.

(** C5, as the code has it. Every number [guess] returns for a region
    code of six characters in the table, a date that is not after the
    current time and a sex M or F is accepted by [validate], and [parse]
    reports the sex asked for and the date asked for. *)
Theorem guessed_numbers_valid self now today region date gender born ids id :
  is_Some (area_codes self !! region) ->
  length region = 6%nat ->
  strptime_Ymd date = Return born ->
  datetime_gt born now = false ->
  gender = py "M" \/ gender = py "F" ->
  guess self region date gender = Return ids ->
  id ∈ ids ->
  guessed_number_valid self now today date gender id.
Proof.
  intros Hregion Hr Hborn Hpast Hg Hguess Hid.
  destruct (guess_returns_shape self region date gender born ids
              Hregion Hr Hborn Hg Hguess) as (Hd & Dr & Dd).
  assert (exists i, (0 <= i < 1000)%Z /\ id = candidate region date i
                    /\ (i mod 2 =? 1)%Z = bool_decide (gender = py "M"))
    as (i & Hi & -> & Hsex).
  { destruct Hg as [-> | ->].
    - assert (Hids : Return ids = Return (map (candidate region date) odd_codes))
        by (rewrite <- Hguess; now apply (guess_male self region date born)).
      apply Return_inj in Hids. rewrite Hids in Hid.
      apply elem_of_map in Hid as (i & -> & Hin).
      apply odd_codes_range in Hin as [Hi Hodd]. exists i.
      split; [exact Hi|]. split; [reflexivity|]. now rewrite Hodd.
    - assert (Hids : Return ids = Return (map (candidate region date) even_codes))
        by (rewrite <- Hguess; now apply (guess_female self region date born)).
      apply Return_inj in Hids. rewrite Hids in Hid.
      apply elem_of_map in Hid as (i & -> & Hin).
      apply even_codes_range in Hin as [Hi Heven]. exists i.
      split; [exact Hi|]. split; [reflexivity|]. now rewrite Heven. }
  split.
  - now apply (candidate_valid self now region date i born).
  - destruct (candidate_parsed self now today region date i born) as (fields & Hp & Hs & Hb);
      try assumption.
    exists fields, born. rewrite <- Hsex. auto.
Qed.

(** [guess] does not compare the date with the clock, [validate] does:
    the first number guessed for the last day of 2099 is refused. *)
Lemma guessed_future_date_refused :
  ~ stated_guessed_valid Sample.toolkit Sample.now Sample.today
      (py "110105") (py "20991231") (py "M").
Proof.
  intros H.
  assert (Hguess : guess Sample.toolkit (py "110105") (py "20991231") (py "M")
                   = Return (map (candidate (py "110105") (py "20991231")) odd_codes)).
  { apply (guess_male _ _ _ (Datetime (Date 2099 12 31) 0 0 0 0)).
    - rewrite sample_table_110105. eauto.
    - reflexivity.
    - reflexivity.
    - apply forallb_decimal. vm_compute. reflexivity.
    - apply forallb_decimal. vm_compute. reflexivity.
    - vm_compute. reflexivity. }
  destruct (H ltac:(rewrite sample_table_110105; eauto)
              ltac:(eexists; vm_compute; reflexivity)
              ltac:(now left) _ (candidate (py "110105") (py "20991231") 1) Hguess)
    as [Hvalid _].
  - destruct odd_codes_head as [rest ->]. cbn [map]. apply list_elem_of_here.
  - vm_compute in Hvalid. discriminate.
Qed.

(** A region code of seven characters and a date [strptime] reads from
    seven make fourteen digits as well: [guess] returns numbers whose
    first six characters are no key of the table, and [validate] refuses
    them for their region. *)
Lemma guessed_long_region_refused :
  ~ stated_guessed_valid Sample.long_toolkit Sample.now Sample.today
      (py "1101051") (py "1990111") (py "M").
Proof.
  intros H.
  assert (Hguess : guess Sample.long_toolkit (py "1101051") (py "1990111") (py "M")
                   = Return (map (numbered (py "1101051" ++ py "1990111")) odd_codes))
    by (vm_compute; reflexivity).
  destruct (H ltac:(eexists; vm_compute; reflexivity)
              ltac:(eexists; vm_compute; reflexivity)
              ltac:(now left) _ (numbered (py "1101051" ++ py "1990111") 1) Hguess)
    as [Hvalid _].
  - destruct odd_codes_head as [rest ->]. cbn [map]. apply list_elem_of_here.
  - vm_compute in Hvalid. discriminate.
Qed.

Lemma guessed_numbers_valid_witness :
  guessed_number_valid Sample.toolkit Sample.now Sample.today
    (py "19900307") (py "F") (py "110105199003070025").
Proof.
  apply (guessed_numbers_valid Sample.toolkit Sample.now Sample.today
           (py "110105") (py "19900307") (py "F") (Datetime (Date 1990 3 7) 0 0 0 0)
           (map (candidate (py "110105") (py "19900307")) even_codes)).
  - rewrite sample_table_110105. eauto.
  - reflexivity.
  - vm_compute. reflexivity.
  - vm_compute. reflexivity.
  - now right.
  - vm_compute. reflexivity.
  - destruct even_codes_head as [rest ->]. cbn [map].
    replace (py "110105199003070025") with (candidate (py "110105") (py "19900307") 2)
      by (vm_compute; reflexivity).
    apply list_elem_of_here.
Defined.

End Guessed.

(** ** Dictionaries in insertion order *)

Section Dict.
Import Py.
Context {K V : Type} `{EqDecision K}.
Implicit Types (d : dict K V) (k : K) (v : V).

Lemma dict_get_set k v d : dict_get k (dict_set k v d) = Some v.
Proof.
  induction d as [|[k' v'] d IH]; unfold dict_get in *; cbn [dict_set find].
  - cbn. now rewrite bool_decide_eq_true_2.
  - destruct (decide (k' = k)) as [->|Hne]; cbn [find fst].
    + now rewrite bool_decide_eq_true_2.
    + rewrite bool_decide_eq_false_2 by assumption. exact IH.
Qed.

Lemma dict_get_set_other k k' v d : k' <> k -> dict_get k' (dict_set k v d) = dict_get k' d.
Proof.
  intros Hne. induction d as [|[k1 v1] d IH]; unfold dict_get in *; cbn [dict_set find].
  - cbn. rewrite bool_decide_eq_false_2; [reflexivity | congruence].
  - destruct (decide (k1 = k)) as [->|Hk]; cbn [find fst].
    + rewrite !bool_decide_eq_false_2 by congruence. reflexivity.
    + destruct (bool_decide (k1 = k')); [reflexivity | exact IH].
Qed.

Lemma dict_set_keys k v d key :
  In key (map fst (dict_set k v d)) <-> key = k \/ In key (map fst d).
Proof.
  induction d as [|[k1 v1] d IH]; cbn [dict_set map fst In].
  - intuition.
  - destruct (decide (k1 = k)) as [->|Hk]; cbn [map fst In]; [intuition|].
    rewrite IH. intuition.
Qed.

Lemma dict_set_NoDup k v d : NoDup (map fst d) -> NoDup (map fst (dict_set k v d)).
Proof.
  induction d as [|[k1 v1] d IH]; cbn [dict_set map fst]; intros Hd.
  - apply NoDup_cons_2; [apply not_elem_of_nil | constructor].
  - apply NoDup_cons in Hd as [Hk1 Hd].
    destruct (decide (k1 = k)) as [->|Hk]; cbn [map fst].
    + now apply NoDup_cons_2.
    + apply NoDup_cons_2; [|now apply IH].
      intros Hin. apply list_elem_of_In, dict_set_keys in Hin as [->|Hin]; [congruence|].
      now apply Hk1, list_elem_of_In.
Qed.

Lemma dict_get_In k v d : dict_get k d = Some v -> In (k, v) d.
Proof.
  unfold dict_get. destruct (find _ d) as [[k' v']|] eqn:E; [|discriminate].
  intros [= <-]. apply find_some in E as [Hin Hk].
  apply bool_decide_eq_true in Hk. cbn in Hk. now subst.
Qed.

Lemma dict_In_get k v d : NoDup (map fst d) -> In (k, v) d -> dict_get k d = Some v.
Proof.
  induction d as [|[k1 v1] d IH]; [intros _ []|]. cbn [map fst].
  intros Hd Hin. apply NoDup_cons in Hd as [Hk1 Hd]. unfold dict_get in *. cbn [find fst].
  destruct Hin as [[= -> ->]|Hin].
  - now rewrite bool_decide_eq_true_2.
  - rewrite bool_decide_eq_false_2; [now apply IH|].
    intros ->. apply Hk1, list_elem_of_In, in_map_iff. now exists (k, v).
Qed.

Lemma dict_key_get k d : In k (map fst d) -> exists v, In (k, v) d.
Proof. rewrite in_map_iff. intros ([k' v] & <- & Hin). now exists v. Qed.

End Dict.

(** ** The three loops of the analysis *)

Section AnalysisLoops.
Import Unicode Py IDCardToolkit Spec.

(** The first loop sorts the numbers into accepted and refused. *)
Lemma loop_validate self now ids valid_ids invalid_details :
  for_each ids
    (fun id_number '((valid_ids, invalid_details) : list str * list (str * str)) =>
       '(is_valid, message) ← validate self now id_number;
       if (is_valid : bool) then Return (valid_ids ++ [id_number], invalid_details)
       else Return (valid_ids, invalid_details ++ [(id_number, message)]))
    (valid_ids, invalid_details)
  = Return (valid_ids ++ List.filter (is_accepted self now) ids,
            invalid_details ++ refused self now ids).
Proof.
  revert valid_ids invalid_details.
  induction ids as [|id ids IH]; intros valid_ids invalid_details.
  - cbn. now rewrite !app_nil_r.
  - cbn [for_each List.filter refused flat_map]. unfold is_accepted at 1.
    destruct (validate_returns self now id) as [[ok reason] ->].
    rewrite bind_return. destruct ok; rewrite bind_return, IH.
    + now rewrite <- app_assoc.
    + now rewrite <- app_assoc.
Qed.

Lemma sequences_snoc done id key :
  sequences (done ++ [id]) key
  = sequences done key
    ++ (if bool_decide (key_of id = key) then
          match sequence_number id with Return v => [v] | Raise _ => [] end
        else []).
Proof. unfold sequences. rewrite flat_map_app. cbn. now rewrite app_nil_r. Qed.

Lemma grouped_nil : grouped [] [].
Proof.
  split; [constructor|]. split; [reflexivity|]. reflexivity.
Qed.

(** One step of the second loop keeps the buckets in line with the
    numbers met. *)
Lemma grouped_step done stats id v :
  grouped done stats ->
  sequence_number id = Return v ->
  grouped (done ++ [id])
    (let data := stats_get (key_of id) stats in
     if negb (v mod 2 =? 0)%Z
     then dict_set (key_of id) (Bucket (male_seqs data ++ [v]) (female_seqs data)) stats
     else dict_set (key_of id) (Bucket (male_seqs data) (female_seqs data ++ [v])) stats).
Proof.
  intros (Hnd & Hkeys & Hget) Hv. cbv zeta.
  set (data := stats_get (key_of id) stats).
  assert (Hshape : forall b,
    (forall key, key <> key_of id -> True) ->
    NoDup (map fst (dict_set (key_of id) b stats))
    /\ (forall key, In key (map fst (dict_set (key_of id) b stats))
                    <-> In key (map key_of (done ++ [id])))).
  { intros b _. split; [now apply dict_set_NoDup|].
    intros key. rewrite dict_set_keys, map_app, in_app_iff, Hkeys. cbn. intuition. }
  assert (Hother : forall b key, key <> key_of id ->
    stats_get key (dict_set (key_of id) b stats)
    = Bucket (List.filter is_odd (sequences (done ++ [id]) key))
        (List.filter (fun v => negb (is_odd v)) (sequences (done ++ [id]) key))).
  { intros b key Hne. unfold stats_get. rewrite dict_get_set_other by assumption.
    rewrite sequences_snoc, bool_decide_eq_false_2 by congruence.
    rewrite app_nil_r. apply Hget. }
  assert (Hdata : data = Bucket (List.filter is_odd (sequences done (key_of id)))
                    (List.filter (fun v => negb (is_odd v)) (sequences done (key_of id))))
    by apply Hget.
  fold (is_odd v).
  destruct (is_odd v) eqn:Eo.
  - destruct (Hshape (Bucket (male_seqs data ++ [v]) (female_seqs data))) as [H1 H2];
      [trivial|].
    split; [exact H1|]. split; [exact H2|]. intros key.
    destruct (decide (key = key_of id)) as [->|Hne]; [|now apply Hother].
    unfold stats_get. rewrite dict_get_set. cbn [default].
    rewrite sequences_snoc, bool_decide_eq_true_2, Hv by reflexivity.
    rewrite !List.filter_app. cbn [List.filter]. rewrite Eo. cbn [negb].
    rewrite Hdata. cbn [male_seqs female_seqs]. now rewrite app_nil_r.
  - destruct (Hshape (Bucket (male_seqs data) (female_seqs data ++ [v]))) as [H1 H2];
      [trivial|].
    split; [exact H1|]. split; [exact H2|]. intros key.
    destruct (decide (key = key_of id)) as [->|Hne]; [|now apply Hother].
    unfold stats_get. rewrite dict_get_set. cbn [default].
    rewrite sequences_snoc, bool_decide_eq_true_2, Hv by reflexivity.
    rewrite !List.filter_app. cbn [List.filter]. rewrite Eo. cbn [negb].
    rewrite Hdata. cbn [male_seqs female_seqs]. now rewrite app_nil_r.
Qed.

(** The second loop, when it returns, has grouped every number. *)
Lemma loop_group valid done stats stats' :
  grouped done stats ->
  for_each valid
    (fun id_number (stats : dict (str * str) bucket) =>
       let key := (slice 0 6 id_number, slice 6 14 id_number) in
       seq ← int (slice 14 17 id_number);
       let data := stats_get key stats in
       if negb (seq mod 2 =? 0)%Z then
         Return (dict_set key (Bucket (male_seqs data ++ [seq]) (female_seqs data)) stats)
       else
         Return (dict_set key (Bucket (male_seqs data) (female_seqs data ++ [seq])) stats))
    stats = Return stats' ->
  grouped (done ++ valid) stats'.
Proof.
  revert done stats. induction valid as [|id valid IH]; intros done stats Hg Hloop.
  - cbn in Hloop. injection Hloop as <-. now rewrite app_nil_r.
  - cbn [for_each] in Hloop. cbv zeta in Hloop.
    destruct (int (slice 14 17 id)) as [v|e] eqn:Ev; [|discriminate Hloop].
    rewrite bind_return in Hloop.
    pose proof (grouped_step done stats id v Hg Ev) as Hstep. cbv zeta in Hstep.
    change (slice 0 6 id, slice 6 14 id) with (key_of id) in Hloop.
    destruct (negb (v mod 2 =? 0)%Z); rewrite bind_return in Hloop;
      apply (IH (done ++ [id])) in Hloop; try exact Hstep;
      now rewrite <- app_assoc in Hloop.
Qed.

(** It returns when every sequence number can be read. *)
Lemma loop_group_returns valid stats :
  (forall id, In id valid -> exists v, sequence_number id = Return v) ->
  exists stats',
    for_each valid
      (fun id_number (stats : dict (str * str) bucket) =>
         let key := (slice 0 6 id_number, slice 6 14 id_number) in
         seq ← int (slice 14 17 id_number);
         let data := stats_get key stats in
         if negb (seq mod 2 =? 0)%Z then
           Return (dict_set key (Bucket (male_seqs data ++ [seq]) (female_seqs data)) stats)
         else
           Return (dict_set key (Bucket (male_seqs data) (female_seqs data ++ [seq])) stats))
      stats = Return stats'.
Proof.
  revert stats. induction valid as [|id valid IH]; intros stats Hall.
  - now exists stats.
  - cbn [for_each]. cbv zeta.
    destruct (Hall id ltac:(now left)) as [v Hv]. unfold sequence_number in Hv.
    rewrite Hv, bind_return.
    destruct (negb (v mod 2 =? 0)%Z); rewrite bind_return; apply IH;
      intros id' Hid'; apply Hall; now right.
Qed.

(** The third loop writes one entry per bucket, under its label. *)
Lemma loop_report self stats report :
  for_each stats
    (fun '(key, data) (analysis_report : dict str estimate) =>
       let '(area_code, date_str) := key in
       let area_name := get (area_codes self) area_code (py "未知地区") in
       max_male_seq ←
         match male_seqs data with [] => Return 0%Z | seqs => max seqs end;
       max_female_seq ←
         match female_seqs data with [] => Return 0%Z | seqs => max seqs end;
       let estimated_males :=
         if (max_male_seq >? 0)%Z then ((max_male_seq + 1) / 2)%Z else 0%Z in
       let estimated_females :=
         if (max_female_seq >? 0)%Z then (max_female_seq / 2)%Z else 0%Z in
       Return (dict_set (area_name ++ py " (" ++ date_str ++ py ")")
                 {| sample_count := (len (male_seqs data) + len (female_seqs data))%Z;
                    estimated_males := estimated_males;
                    estimated_females := estimated_females;
                    estimated_total := (estimated_males + estimated_females)%Z;
                    note := py "基于样本中最大顺序码的统计估算，非精确值。" |}
                 analysis_report))
    report
  = Return (fold_left (fun report (entry : (str * str) * bucket) =>
                         dict_set (label_of self entry.1) (entry_of entry.2) report)
              stats report).
Proof.
  revert report. induction stats as [|[[area_code date_str] data] stats IH]; intros report.
  - reflexivity.
  - cbn [for_each fold_left]. rewrite <- IH. clear IH.
    destruct data as [males females]. cbn [male_seqs female_seqs].
    unfold label_of, entry_of. cbn [fst snd male_seqs female_seqs].
    destruct males as [|m males], females as [|f females]; reflexivity.
Qed.

Lemma report_lookup self stats report label :
  dict_get label
    (fold_left (fun report (entry : (str * str) * bucket) =>
                  dict_set (label_of self entry.1) (entry_of entry.2) report)
       stats report)
  = fold_left (fun found (entry : (str * str) * bucket) =>
                 if decide (label_of self entry.1 = label)
                 then Some (entry_of entry.2) else found)
      stats (dict_get label report).
Proof.
  revert report. induction stats as [|[key data] stats IH]; intros report; [reflexivity|].
  cbn [fold_left fst snd]. rewrite IH. f_equal.
  destruct (decide (label_of self key = label)) as [<-|Hne].
  - apply dict_get_set.
  - apply dict_get_set_other. congruence.
Qed.

Lemma last_match_from self stats label found e :
  fold_left (fun found (entry : (str * str) * bucket) =>
               if decide (label_of self entry.1 = label)
               then Some (entry_of entry.2) else found)
    stats found = Some e ->
  found = Some e
  \/ exists key data, In (key, data) stats /\ label_of self key = label /\ e = entry_of data.
Proof.
  revert found. induction stats as [|[key data] stats IH]; intros found H; [now left|].
  cbn [fold_left fst snd] in H. apply IH in H as [H|(k & d & Hin & Hl & He)].
  - destruct (decide (label_of self key = label)) as [Hl|Hl]; [|now left].
    injection H as <-. right. exists key, data. split; [now left|]. now split.
  - right. exists k, d. split; [now right|]. now split.
Qed.

Lemma last_match_keeps self stats label found :
  found <> None ->
  fold_left (fun found (entry : (str * str) * bucket) =>
               if decide (label_of self entry.1 = label)
               then Some (entry_of entry.2) else found)
    stats found <> None.
Proof.
  revert found. induction stats as [|[k d] stats IH]; intros found Hf; [exact Hf|].
  cbn [fold_left]. apply IH. now destruct (decide _).
Qed.

Lemma last_match_found self stats label found key data :
  In (key, data) stats -> label_of self key = label ->
  fold_left (fun found (entry : (str * str) * bucket) =>
               if decide (label_of self entry.1 = label)
               then Some (entry_of entry.2) else found)
    stats found <> None.
Proof.
  revert found. induction stats as [|[k d] stats IH]; intros found Hin Hl; [destruct Hin|].
  cbn [fold_left fst snd]. destruct Hin as [[= -> ->]|Hin].
  - apply last_match_keeps. now rewrite decide_True by assumption.
  - now apply IH.
Qed.

End AnalysisLoops.

(** ** The characters of an accepted number *)

Section AcceptedNumbers.
Import Unicode Py IDCardToolkit Spec Scan.

Lemma In_lstrip c s : In c s -> is_space c = false -> In c (lstrip s).
Proof.
  induction s as [|d s IH]; [trivial|]. cbn [lstrip]. intros [->|Hin] Hc.
  - rewrite Hc. now left.
  - destruct (is_space d); [now apply IH | now right].
Qed.

Lemma In_strip c s : In c s -> is_space c = false -> In c (strip s).
Proof.
  intros Hin Hc. unfold strip, rstrip. apply in_rev. rewrite rev_involutive.
  apply In_lstrip; [|exact Hc]. apply in_rev. rewrite rev_involutive.
  now apply In_lstrip.
Qed.

Lemma In_upper c d s : In c s -> In d (to_upper_full c) -> In d (upper s).
Proof. intros Hc Hd. apply in_flat_map. now exists c. Qed.

(** What the checks leave of an accepted number, stripped and in upper
    case: seventeen decimal digits and a digit or [X]. *)
Lemma accepted_normal self now id :
  is_accepted self now id = true ->
  exists p c, upper (strip id) = p ++ [c]
    /\ length p = 17%nat
    /\ forallb is_decimal p = true
    /\ (is_digit c || (c =? 0x58)%N) = true.
Proof.
  unfold is_accepted. rewrite validate_first_failure.
  generalize (upper (strip id)) as n. intros n.
  unfold verdict, performed_checks. rewrite !first_failure_cons.
  unfold length_check. destruct (length n =? 18)%nat eqn:El; [|discriminate].
  unfold prefix_check. destruct (forallb is_digit (take 17 n)); [|discriminate].
  unfold last_check. destruct (n !! 17%nat) as [c|] eqn:Ec; [|discriminate].
  destruct (is_digit c || (c =? 88)%N) eqn:Ex; [|discriminate].
  unfold region_check. destruct (area_codes self !! take 6 n); [|discriminate].
  unfold date_check. cbv zeta. destruct (strptime_Ymd _) as [born|]; [|discriminate].
  destruct (datetime_gt born now); [discriminate|].
  unfold decimal_check. destruct (forallb is_decimal (take 17 n)) eqn:Ed; [|discriminate].
  intros _. apply Nat.eqb_eq in El.
  exists (take 17 n), c. split; [|split; [|split]]; try assumption.
  - rewrite <- (take_drop 17 n) at 1. f_equal.
    do 19 (destruct n as [|? n]; try discriminate).
    cbn in Ec. injection Ec as ->. reflexivity.
  - rewrite length_take. lia.
Qed.

(** An accepted number has no minus sign. *)
Lemma accepted_no_minus self now id :
  is_accepted self now id = true -> ~ In 0x2D%N id.
Proof.
  intros Ha Hin. destruct (accepted_normal self now id Ha) as (p & c & E & _ & Hp & Hc).
  assert (Hn : In 0x2D%N (upper (strip id))).
  { apply (In_upper 0x2D%N); [|now left]. now apply In_strip. }
  rewrite E in Hn. apply in_app_iff in Hn as [Hn|[->|[]]].
  - rewrite forallb_forall in Hp. now apply Hp in Hn.
  - discriminate Hc.
Qed.

Lemma accepted_sequence_nonneg self now id v :
  is_accepted self now id = true -> sequence_number id = Return v -> (0 <= v)%Z.
Proof.
  intros Ha. apply int_nonneg. intros Hin. apply (accepted_no_minus self now id Ha).
  unfold slice in Hin. apply list_elem_of_In in Hin.
  apply list_elem_of_In. now apply subseteq_take, subseteq_drop in Hin.
Qed.

Lemma lstrip_decomp s : exists l, s = l ++ lstrip s /\ spaces l.
Proof.
  induction s as [|c s (l & E & Hl)]; [exists []; split; [reflexivity | constructor]|].
  cbn [lstrip]. destruct (is_space c) eqn:Ec.
  - exists (c :: l). split; [cbn; now f_equal | now constructor].
  - exists []. split; [reflexivity | constructor].
Qed.

Lemma rstrip_decomp s : exists r, s = rstrip s ++ r /\ spaces r.
Proof.
  destruct (lstrip_decomp (rev s)) as (l & E & Hl). exists (rev l). split.
  - unfold rstrip. rewrite <- rev_app_distr, <- E. now rewrite rev_involutive.
  - unfold spaces in *. rewrite Forall_forall in *. intros c Hc.
    apply Hl, list_elem_of_In, in_rev, list_elem_of_In. exact Hc.
Qed.

(** Where the upper-case form begins with decimal digits the string
    itself begins with the same. *)
Lemma upper_decimal_prefix core k :
  forallb (fun d => is_digit d || (d =? 0x58)%N) (upper core) = true ->
  forallb is_decimal (take k (upper core)) = true ->
  length (take k (upper core)) = k ->
  take k core = take k (upper core).
Proof.
  revert k. induction core as [|c core IH]; intros k Hall Hdec Hlen; [reflexivity|].
  change (upper (c :: core)) with (to_upper_full c ++ upper core) in *.
  rewrite forallb_app in Hall. apply andb_true_iff in Hall as [Hc Hall].
  destruct k as [|k]; [reflexivity|].
  assert (Himage : to_upper_full c = [c] /\ is_decimal c = true
                   \/ to_upper_full c = [0x58%N]).
  { pose proof (image_of_digits c Hc) as H.
    apply orb_true_iff in H as [H|H]; [apply orb_true_iff in H as [H|H]|].
    - left. split; [now apply digit_fixed|].
      destruct (digit_fixed c H) as [E _]. rewrite E in Hdec. cbn in Hdec.
      now apply andb_true_iff in Hdec as [Hdec _].
    - apply N.eqb_eq in H. subst c. now right.
    - apply N.eqb_eq in H. subst c. now right. }
  destruct Himage as [[E Hd]|E]; rewrite E in *.
  - cbn [app take] in *. f_equal. cbn [forallb] in Hdec.
    apply andb_true_iff in Hdec as [_ Hdec]. cbn [length] in Hlen.
    apply IH; [assumption | assumption | lia].
  - cbn in Hdec. discriminate Hdec.
Qed.

(** The sequence number of an accepted number without white space in
    front can be read. *)
Lemma accepted_sequence_read self now id :
  is_accepted self now id = true -> starts_clean id ->
  exists v, sequence_number id = Return v.
Proof.
  intros Ha Hclean. destruct (accepted_normal self now id Ha) as (p & c & E & Hlen & Hp & Hc).
  unfold strip in E. rewrite (lstrip_clean id Hclean) in E.
  destruct (rstrip_decomp id) as (r & Hid & _).
  set (core := rstrip id) in *.
  assert (Hall : forallb (fun d => is_digit d || (d =? 0x58)%N) (upper core) = true).
  { rewrite E, forallb_app. apply andb_true_iff. split.
    - rewrite forallb_forall in *. intros d Hd.
      now rewrite (decimal_is_digit d (Hp d Hd)).
    - cbn. now rewrite Hc. }
  assert (Htake : take 17 (upper core) = p).
  { rewrite E. now rewrite take_app_length' by (symmetry; assumption). }
  assert (Hcore : take 17 core = p).
  { rewrite <- Htake. apply upper_decimal_prefix; rewrite ?Htake; assumption. }
  assert (Hlong : (17 <= length core)%nat).
  { rewrite <- Hlen, <- Hcore, length_take. lia. }
  assert (Hslice : slice 14 17 id = drop 14 p).
  { unfold slice. cbn [Nat.sub]. rewrite take_drop_commute. cbn [Nat.add].
    rewrite Hid, take_app_le by exact Hlong. now rewrite Hcore. }
  unfold sequence_number. rewrite Hslice. apply int_decimal_digits.
  - intros Hnil. apply (f_equal (@length N)) in Hnil. rewrite length_drop, Hlen in Hnil.
    discriminate Hnil.
  - apply forallb_decimal. rewrite forallb_forall in *. intros d Hd. apply Hp.
    apply list_elem_of_In. apply list_elem_of_In in Hd. now apply subseteq_drop in Hd.
Qed.

End AcceptedNumbers.

(** ** The report of the sample analysis *)

Section Analysis.
Import Unicode Py IDCardToolkit Spec Scan.

Lemma fold_max_ge rest v : (v <= fold_left Z.max rest v)%Z.
Proof.
  revert v. induction rest as [|x rest IH]; intros v; cbn [fold_left]; [lia|].
  specialize (IH (Z.max v x)). lia.
Qed.

(** On sequence values that are not negative the entry the code computes
    is the stated estimate. *)
Lemma entry_estimate seqs :
  Forall (fun v => (0 <= v)%Z) seqs ->
  let males := List.filter is_odd seqs in
  let females := List.filter (fun v => negb (is_odd v)) seqs in
  entry_of (Bucket males females)
  = {| sample_count := len males + len females;
       estimated_males := males_estimate males;
       estimated_females := females_estimate females;
       estimated_total := males_estimate males + females_estimate females;
       note := py "基于样本中最大顺序码的统计估算，非精确值。" |}.
Proof.
  intros Hpos males females.
  assert (Hm : (if (match males with [] => 0 | v :: rest => fold_left Z.max rest v end >? 0)%Z
                then ((match males with [] => 0 | v :: rest => fold_left Z.max rest v end + 1) / 2)%Z
                else 0%Z) = males_estimate males).
  { unfold males_estimate. destruct males as [|v rest] eqn:E; [reflexivity|].
    assert (Hv : In v males) by (rewrite E; now left).
    apply filter_In in Hv as [Hv Hodd]. rewrite Forall_forall in Hpos.
    apply list_elem_of_In, Hpos in Hv. unfold is_odd in Hodd.
    apply negb_true_iff, Z.eqb_neq in Hodd.
    assert (v <> 0)%Z by (intros ->; now apply Hodd).
    pose proof (fold_max_ge rest v).
    replace (fold_left Z.max rest v >? 0)%Z with true; [reflexivity|].
    symmetry. apply Z.gtb_lt. lia. }
  assert (Hf : (if (match females with [] => 0 | v :: rest => fold_left Z.max rest v end >? 0)%Z
                then (match females with [] => 0 | v :: rest => fold_left Z.max rest v end / 2)%Z
                else 0%Z) = females_estimate females).
  { unfold females_estimate. destruct females as [|v rest] eqn:E; [reflexivity|].
    assert (Hv : In v females) by (rewrite E; now left).
    apply filter_In in Hv as [Hv _]. rewrite Forall_forall in Hpos.
    apply list_elem_of_In, Hpos in Hv.
    pose proof (fold_max_ge rest v).
    destruct (fold_left Z.max rest v >? 0)%Z eqn:Eg; [reflexivity|].
    assert (fold_left Z.max rest v = 0)%Z as ->
      by (rewrite Z.gtb_ltb in Eg; apply Z.ltb_ge in Eg; lia).
    reflexivity. }
  unfold entry_of. cbn [male_seqs female_seqs]. cbv zeta. now rewrite Hm, Hf.
Qed.

Lemma sequences_nonneg self now ids key :
  Forall (fun v => (0 <= v)%Z) (observed self now ids key).
Proof.
  unfold observed, sequences. apply Forall_forall. intros v Hv.
  apply list_elem_of_In, in_flat_map in Hv as (id & Hid & Hv).
  apply filter_In in Hid as [_ Ha].
  destruct (bool_decide (key_of id = key)); [|destruct Hv].
  destruct (sequence_number id) as [x|] eqn:E; [|destruct Hv].
  destruct Hv as [<-|[]]. now apply (accepted_sequence_nonneg self now id).
Qed.

(** What a returned analysis is made of. *)
Lemma analysis_returned self now ids a :
  analyze_population_sample self now ids = Return a ->
  exists stats,
    grouped (List.filter (is_accepted self now) ids) stats
    /\ analysis_report a
       = fold_left (fun report (entry : (str * str) * bucket) =>
                      dict_set (label_of self entry.1) (entry_of entry.2) report)
           stats []
    /\ invalid_details a = refused self now ids.
Proof.
  unfold analyze_population_sample. rewrite loop_validate, bind_return. cbn [app].
  match goal with
  | |- context [for_each (List.filter (is_accepted self now) ids) ?body []] =>
      destruct (for_each (List.filter (is_accepted self now) ids) body [])
        as [stats|e] eqn:E
  end; [|discriminate].
  rewrite bind_return, loop_report, bind_return. intros [= <-].
  exists stats. split; [|split; reflexivity].
  apply (loop_group _ [] [] stats grouped_nil E).
Qed.

Lemma analysis_returns self now ids :
  (forall id, In id ids -> is_accepted self now id = true ->
     exists v, sequence_number id = Return v) ->
  exists a, analyze_population_sample self now ids = Return a.
Proof.
  intros Hall. unfold analyze_population_sample.
  rewrite loop_validate, bind_return. cbn [app].
  destruct (loop_group_returns (List.filter (is_accepted self now) ids) []) as [stats' Hs].
  { intros id Hid. apply filter_In in Hid as [Hin Ha]. now apply Hall. }
  match goal with
  | |- context [for_each (List.filter (is_accepted self now) ids) ?body []] =>
      destruct (for_each (List.filter (is_accepted self now) ids) body [])
        as [stats|e] eqn:E
  end; [|discriminate Hs].
  rewrite bind_return, loop_report, bind_return. eauto.
Qed.

(** Every entry of the report is the estimate of a bucket of accepted
    numbers, filed under the label of that bucket. *)
Lemma report_entry self now ids a label e :
  analyze_population_sample self now ids = Return a ->
  dict_get label (analysis_report a) = Some e ->
  exists id, In id ids /\ is_accepted self now id = true
    /\ label = label_of self (key_of id)
    /\ e = estimate_of self now ids (key_of id).
Proof.
  intros Ha He. destruct (analysis_returned self now ids a Ha) as (stats & Hg & Hr & _).
  destruct Hg as (Hnd & Hkeys & Hget).
  rewrite Hr, report_lookup in He.
  apply last_match_from in He as [He|(key & data & Hin & Hl & ->)]; [discriminate|].
  assert (Hk : In key (map fst stats)) by (apply in_map_iff; now exists (key, data)).
  apply Hkeys, in_map_iff in Hk as (id & <- & Hid).
  apply filter_In in Hid as [Hid Hacc].
  exists id. split; [exact Hid|]. split; [exact Hacc|]. split; [now symmetry|].
  apply (dict_In_get _ _ _ Hnd) in Hin.
  pose proof (Hget (key_of id)) as Hd. unfold stats_get in Hd. rewrite Hin in Hd.
  cbv beta iota delta [default from_option Datatypes.id] in Hd. rewrite Hd.
  apply (entry_estimate _ (sequences_nonneg self now ids (key_of id))).
Qed.

(** The label of every bucket of accepted numbers has an entry. *)
Lemma report_covers self now ids a id :
  analyze_population_sample self now ids = Return a ->
  In id ids -> is_accepted self now id = true ->
  dict_get (label_of self (key_of id)) (analysis_report a) <> None.
Proof.
  intros Ha Hid Hacc.
  destruct (analysis_returned self now ids a Ha) as (stats & Hg & Hr & _).
  destruct Hg as (Hnd & Hkeys & Hget).
  assert (Hk : In (key_of id) (map fst stats)).
  { apply Hkeys, in_map_iff. exists id. split; [reflexivity|]. now apply filter_In. }
  apply dict_key_get in Hk as [data Hin].
  rewrite Hr, report_lookup. now apply (last_match_found self stats _ _ (key_of id) data).
Qed.

(** C6, as the code has it. The analysis returns when no string starts
    with white space. When it returns, the numbers [validate] accepts
    are grouped by their characters 0 to 5 and 6 to 13 as given, with
    the value of characters 14 to 16 counted male when odd and female
    when even; the report has an entry under the label (region name and
    date) of every bucket, and every entry holds, for a bucket with that
    label, (largest odd value + 1) / 2 or 0 and largest even value / 2
    or 0: for the bucket itself when no other bucket bears its label. *)
Theorem analysis_estimates self now ids :
  (Forall starts_clean ids ->
   exists a, analyze_population_sample self now ids = Return a)
  /\ forall a, analyze_population_sample self now ids = Return a ->
     (forall id, In id ids -> is_accepted self now id = true ->
        exists id', In id' ids /\ is_accepted self now id' = true
          /\ label_of self (key_of id') = label_of self (key_of id)
          /\ dict_get (label_of self (key_of id)) (analysis_report a)
             = Some (estimate_of self now ids (key_of id')))
     /\ (forall id, In id ids -> is_accepted self now id = true ->
           (forall id', In id' ids -> is_accepted self now id' = true ->
              label_of self (key_of id') = label_of self (key_of id) ->
              key_of id' = key_of id) ->
           dict_get (label_of self (key_of id)) (analysis_report a)
           = Some (estimate_of self now ids (key_of id)))
     /\ (forall label e, dict_get label (analysis_report a) = Some e ->
           exists id, In id ids /\ is_accepted self now id = true
             /\ label = label_of self (key_of id)
             /\ e = estimate_of self now ids (key_of id)).
Proof.
  split.
  - intros Hclean. apply analysis_returns. intros id Hid Hacc.
    apply (accepted_sequence_read self now id Hacc).
    rewrite Forall_forall in Hclean. now apply Hclean, list_elem_of_In.
  - intros a Ha.
    assert (H1 : forall id, In id ids -> is_accepted self now id = true ->
        exists id', In id' ids /\ is_accepted self now id' = true
          /\ label_of self (key_of id') = label_of self (key_of id)
          /\ dict_get (label_of self (key_of id)) (analysis_report a)
             = Some (estimate_of self now ids (key_of id'))).
    { intros id Hid Hacc. pose proof (report_covers self now ids a id Ha Hid Hacc) as Hne.
      destruct (dict_get (label_of self (key_of id)) (analysis_report a)) as [e|] eqn:E;
        [|congruence].
      destruct (report_entry self now ids a _ e Ha E) as (id' & Hid' & Hacc' & Hl & ->).
      exists id'. now repeat split. }
    split; [exact H1|]. split.
    + intros id Hid Hacc Huniq.
      destruct (H1 id Hid Hacc) as (id' & Hid' & Hacc' & Hl & E).
      rewrite E. now rewrite (Huniq id' Hid' Hacc' Hl).
    + intros label e. apply (report_entry self now ids a label e Ha).
Qed.

(** Two districts of one name met on one date share a label: the entry
    of the first is overwritten by that of the second. *)
Lemma stated_report_fails_on_shared_label :
  ~ stated_report Sample.flat_toolkit Sample.now
      [py "11010519491231002X"; py "220104194912310010"].
Proof.
  intros (a & Ha & H).
  specialize (H (py "11010519491231002X") ltac:(now left) ltac:(vm_compute; reflexivity)).
  vm_compute in Ha. injection Ha as <-. vm_compute in H. discriminate H.
Qed.

Lemma forallb_starts_clean (ids : list str) :
  forallb (fun id => match id with c :: _ => negb (is_space c) | [] => true end) ids = true ->
  Forall starts_clean ids.
Proof.
  intros H. apply Forall_forall. intros id Hid. rewrite forallb_forall in H.
  apply list_elem_of_In, H in Hid. destruct id as [|c id]; [exact I|].
  now apply negb_true_iff in Hid.
Qed.

Lemma analysis_estimates_witness :
  exists a,
    analyze_population_sample Sample.toolkit Sample.now
      [py "11010519491231002X"; py "123"; py "110105194912310011"] = Return a
    /\ dict_get (label_of Sample.toolkit (key_of (py "11010519491231002X")))
         (analysis_report a)
       = Some (estimate_of Sample.toolkit Sample.now
                 [py "11010519491231002X"; py "123"; py "110105194912310011"]
                 (key_of (py "11010519491231002X"))).
Proof.
  destruct (analysis_estimates Sample.toolkit Sample.now
              [py "11010519491231002X"; py "123"; py "110105194912310011"])
    as [Hreturns Hreport].
  destruct Hreturns as [a Ha]; [apply forallb_starts_clean; vm_compute; reflexivity|].
  exists a. split; [exact Ha|].
  destruct (Hreport a Ha) as (_ & Hown & _).
  apply Hown; [now left | vm_compute; reflexivity|].
  intros id' [<-|[<-|[<-|[]]]] Hacc _; try reflexivity.
  vm_compute in Hacc. discriminate Hacc.
Defined.

End Analysis.

(** ** The region table *)

Section RegionTable.
Import Unicode Py IDCardToolkit Spec.

Lemma node_entries_children code name data parent :
  node_entries (Node code name (Some data)) parent
  = (code, parent ++ name) :: entries data (parent ++ name).
Proof. reflexivity. Qed.

(** Flattening writes the entries of the document in document order. *)
Lemma flatten_item_entries :
  forall item parent result,
    _flatten_codes_item item parent result
    = fold_left (fun m (e : str * str) => <[e.1 := e.2]> m) (node_entries item parent) result.
Proof.
  fix IH 1. intros [code name children] parent result.
  destruct children as [data|]; [|reflexivity].
  cbn [_flatten_codes_item node_entries fold_left fst snd].
  generalize (<[code := parent ++ name]> result).
  induction data as [|item rest IHd]; intros m; [reflexivity|].
  rewrite fold_left_app, <- IH. apply IHd.
Qed.

Lemma flatten_entries data parent result :
  _flatten_codes data parent result
  = fold_left (fun m (e : str * str) => <[e.1 := e.2]> m) (entries data parent) result.
Proof.
  unfold _flatten_codes, entries. revert result.
  induction data as [|item rest IH]; intros result; [reflexivity|].
  cbn [fold_left flat_map]. rewrite fold_left_app, <- flatten_item_entries. apply IH.
Qed.

Lemma inserted_lookup (es : list (str * str)) (result : gmap str str) code :
  fold_left (fun m (e : str * str) => <[e.1 := e.2]> m) es result !! code
  = match find (fun e : str * str => bool_decide (e.1 = code)) (rev es) with
    | Some e => Some e.2
    | None => result !! code
    end.
Proof.
  induction es as [|e es IH] using rev_ind; [reflexivity|].
  rewrite fold_left_app, rev_app_distr. cbn [fold_left rev app find].
  destruct (bool_decide (e.1 = code)) eqn:E.
  - apply bool_decide_eq_true in E. subst code. apply lookup_insert_eq.
  - apply bool_decide_eq_false in E. rewrite lookup_insert_ne by exact E. exact IH.
Qed.

Lemma find_rev_some (es : list (str * str)) code name :
  In (code, name) es ->
  exists e, find (fun e : str * str => bool_decide (e.1 = code)) (rev es) = Some e
            /\ In e es /\ e.1 = code.
Proof.
  intros Hin. apply in_rev in Hin.
  destruct (find _ (rev es)) as [e|] eqn:E.
  - apply find_some in E as [He Hc]. apply bool_decide_eq_true in Hc.
    exists e. repeat split; [now apply in_rev | assumption].
  - apply (find_none _ _ E) in Hin. cbn in Hin. apply bool_decide_eq_false in Hin.
    now contradiction Hin.
Qed.

Lemma find_rev_none (es : list (str * str)) code :
  ~ In code (map fst es) ->
  find (fun e : str * str => bool_decide (e.1 = code)) (rev es) = None.
Proof.
  intros Hout. destruct (find _ (rev es)) as [e|] eqn:E; [|reflexivity].
  apply find_some in E as [He Hc]. apply bool_decide_eq_true in Hc.
  contradiction Hout. apply in_map_iff. exists e. split; [assumption | now apply in_rev].
Qed.

Lemma NoDup_fst_functional (es : list (str * str)) code name name' :
  NoDup (map fst es) -> In (code, name) es -> In (code, name') es -> name = name'.
Proof.
  induction es as [|[c n] es IH]; [intros _ []|].
  cbn [map fst]. intros Hnd. apply NoDup_cons in Hnd as [Hout Hnd].
  assert (Hfst : forall x, In (c, x) es -> c ∈ map fst es).
  { intros x Hx. apply list_elem_of_In, in_map_iff. now exists (c, x). }
  intros [E|Hin] [E'|Hin'].
  - congruence.
  - injection E as -> ->. now apply Hfst in Hin'.
  - injection E' as -> ->. now apply Hfst in Hin.
  - now apply IH.
Qed.

Lemma flatten_entry data parent result code name :
  NoDup (map fst (entries data parent)) ->
  In (code, name) (entries data parent) ->
  _flatten_codes data parent result !! code = Some name.
Proof.
  intros Hnd Hin. rewrite flatten_entries, inserted_lookup.
  destruct (find_rev_some _ _ _ Hin) as ([c n] & -> & He & Hc). cbn in Hc. subst c.
  cbn [snd]. f_equal. exact (NoDup_fst_functional _ _ _ _ Hnd He Hin).
Qed.

(** The codes of the document do not depend on the name it starts from. *)
Lemma node_codes_parent :
  forall item parent parent',
    map fst (node_entries item parent) = map fst (node_entries item parent').
Proof.
  fix IH 1. intros [code name children] parent parent'.
  destruct children as [data|]; [|reflexivity].
  cbn [node_entries map fst]. f_equal.
  generalize (parent ++ name), (parent' ++ name). intros p p'.
  induction data as [|item rest IHd]; [reflexivity|].
  rewrite !map_app. f_equal; [apply IH | apply IHd].
Qed.

Lemma codes_parent data parent parent' :
  map fst (entries data parent) = map fst (entries data parent').
Proof.
  unfold entries. induction data as [|item rest IH]; [reflexivity|].
  cbn [flat_map]. rewrite !map_app. f_equal; [apply node_codes_parent | apply IH].
Qed.

(** A node at any depth is listed, under the name of some line of
    ancestors. *)
Lemma within_entries item data :
  within item data ->
  forall parent, exists above,
    forall e, In e (node_entries item above) -> In e (entries data parent).
Proof.
  induction 1 as [data Hin|code name kids data Hin _ IH]; intros parent.
  - exists parent. intros e He. apply in_flat_map. now exists item.
  - destruct (IH (parent ++ name)) as [above Habove]. exists above.
    intros e He. apply in_flat_map. exists (Node code name (Some kids)).
    split; [assumption|]. rewrite node_entries_children. right. now apply Habove.
Qed.

End RegionTable.

Section RegionTableProperties.
Import Unicode Py IDCardToolkit Spec.

(** X1. The table [_flatten_codes] returns maps a code to the full name
    of the last node of the document that bears it, in document order;
    a code no node bears keeps the entry the table had. *)
Theorem flatten_codes_last_wins data parent result code :
  _flatten_codes data parent result !! code
  = match find (fun e : str * str => bool_decide (e.1 = code)) (rev (entries data parent)) with
    | Some e => Some e.2
    | None => result !! code
    end.
Proof. rewrite flatten_entries. apply inserted_lookup. Qed.

(** X2. In a document whose codes are distinct, a node of the top level
    is stored under its own name, and a child of a node at any depth
    under the stored name of that node followed by its own. *)
Theorem flatten_names_compose data :
  distinct_codes data ->
  (forall code name kids,
     In (Node code name kids) data -> _flatten_codes data [] ∅ !! code = Some name)
  /\ (forall code name kids ccode cname ckids,
        within (Node code name (Some kids)) data ->
        In (Node ccode cname ckids) kids ->
        exists full,
          _flatten_codes data [] ∅ !! code = Some full
          /\ _flatten_codes data [] ∅ !! ccode = Some (full ++ cname)).
Proof.
  intros Hnd. split.
  - intros code name kids Hin. apply flatten_entry; [exact Hnd|].
    apply in_flat_map. exists (Node code name kids). split; [assumption|].
    destruct kids; now left.
  - intros code name kids ccode cname ckids Hw Hin.
    destruct (within_entries _ _ Hw []) as [above Habove].
    rewrite node_entries_children in Habove.
    exists (above ++ name). split; apply flatten_entry; try exact Hnd; apply Habove.
    + now left.
    + right. apply in_flat_map. exists (Node ccode cname ckids). split; [assumption|].
      destruct ckids; now left.
Qed.

Lemma flatten_names_compose_witness :
  _flatten_codes Sample.regions [] ∅ !! py "11" = Some (py "北京市")
  /\ exists full,
       _flatten_codes Sample.regions [] ∅ !! py "1101" = Some full
       /\ _flatten_codes Sample.regions [] ∅ !! py "110105" = Some (full ++ py "朝阳区").
Proof.
  assert (Hnd : distinct_codes Sample.regions).
  { unfold distinct_codes.
    apply (bool_decide_unpack (NoDup (map fst (entries Sample.regions [])))).
    vm_compute. exact I. }
  destruct (flatten_names_compose Sample.regions Hnd) as [Htop Hbelow]. split.
  - apply (Htop _ _ (Some [ Node (py "1101") (py "市辖区") (Some
          [ Node (py "110101") (py "东城区") None;
            Node (py "110105") (py "朝阳区") None ]) ])). now left.
  - apply (Hbelow (py "1101") (py "市辖区")
             [ Node (py "110101") (py "东城区") None; Node (py "110105") (py "朝阳区") None ]
             (py "110105") (py "朝阳区") None).
    + eapply within_below; [now left|]. apply within_here. now left.
    + right. now left.
Defined.

(** X3. [main_cli] reaches its menu exactly when the region file holds
    a document with at least one node, and then runs with the table
    flattened from it. *)
Theorem main_cli_reaches_menu json_path toolkit :
  main_cli_toolkit json_path = Some toolkit
  <-> exists data,
        json_path = Document data /\ data <> []
        /\ toolkit = New (_flatten_codes data [] ∅).
Proof.
  assert (Hfull : forall item rest, _flatten_codes (item :: rest) [] ∅ <> ∅).
  { intros [code name kids] rest Hempty.
    assert (Hin : In (code, [] ++ name) (entries (Node code name kids :: rest) [])).
    { apply in_flat_map. exists (Node code name kids). split; [now left|].
      destruct kids; now left. }
    destruct (find_rev_some _ _ _ Hin) as (e & Hfind & _).
    pose proof (inserted_lookup (entries (Node code name kids :: rest) []) ∅ code) as Hl.
    rewrite <- flatten_entries, Hfind, Hempty, lookup_empty in Hl. discriminate Hl. }
  unfold main_cli_toolkit. split.
  - destruct json_path as [| |data]; try discriminate.
    cbn. destruct data as [|item rest]; [discriminate|].
    rewrite bool_decide_eq_false_2 by apply Hfull.
    intros [= <-]. eexists. repeat split. discriminate.
  - intros (data & -> & Hdata & ->). destruct data as [|item rest]; [contradiction|].
    cbn. now rewrite bool_decide_eq_false_2 by apply Hfull.
Qed.

End RegionTableProperties.

(** ** What the check character detects *)

Section ErrorDetection.
Import Unicode Py IDCardToolkit Spec Scan.
Local Open Scope Z_scope.

Lemma weighted_sum_difference value p q :
  weighted_sum value p - weighted_sum value q
  = fold_right Z.add 0
      (map (fun i => (value (nth i p 0%N) - value (nth i q 0%N)) * nth i WEIGHT 0) (seq 0 17)).
Proof.
  unfold weighted_sum. generalize (seq 0 17). intros l.
  induction l as [|i l IH]; [reflexivity|]. cbn [map fold_right]. lia.
Qed.

(** A sum over the seventeen positions of terms that vanish but at [k]
    and [k + 1]. *)
Lemma sum_at_two (h : nat -> Z) k :
  (forall i, i <> k -> i <> S k -> h i = 0) ->
  fold_right Z.add 0 (map h (seq 0 17))
  = (if (k <? 17)%nat then h k else 0) + (if (S k <? 17)%nat then h (S k) else 0).
Proof.
  intros Hz. cbn [seq map fold_right].
  do 17 (destruct k as [|k];
         [cbn [Nat.ltb Nat.leb];
          repeat match goal with |- context [h ?i] => rewrite (Hz i) by lia end; lia|]).
  cbn [Nat.ltb Nat.leb]. rewrite !Hz by lia. reflexivity.
Qed.

Lemma nth_before {A} (a : list A) x i d : (i < length a)%nat -> nth i (a ++ x) d = nth i a d.
Proof. intros. now apply app_nth1. Qed.

Lemma nth_middle_after {A} (a b : list A) x y i d :
  (length a < i)%nat -> nth i (a ++ x :: b) d = nth i (a ++ y :: b) d.
Proof.
  intros Hi. rewrite !app_nth2 by lia.
  destruct (i - length a)%nat as [|j] eqn:E; [lia | reflexivity].
Qed.

Lemma substitution_difference value a c c' b :
  weighted_sum value (a ++ c :: b) - weighted_sum value (a ++ c' :: b)
  = if (length a <? 17)%nat then (value c - value c') * nth (length a) WEIGHT 0 else 0.
Proof.
  rewrite weighted_sum_difference, (sum_at_two _ (length a)).
  - rewrite !nth_middle. replace (nth (S (length a)) (a ++ c :: b) 0%N)
      with (nth (S (length a)) (a ++ c' :: b) 0%N) by (apply nth_middle_after; lia).
    rewrite Z.sub_diag, Z.mul_0_l. destruct (_ <? _)%nat, (_ <? _)%nat; lia.
  - intros i Hi Hi'. destruct (Nat.lt_ge_cases i (length a)) as [Hlt|Hge].
    + rewrite !nth_before by exact Hlt. lia.
    + rewrite (nth_middle_after a b c c') by lia. lia.
Qed.

Lemma transposition_difference value a c d b :
  (length a < 16)%nat ->
  weighted_sum value (a ++ c :: d :: b) - weighted_sum value (a ++ d :: c :: b)
  = (value c - value d) * (nth (length a) WEIGHT 0 - nth (S (length a)) WEIGHT 0).
Proof.
  intros Hk. rewrite weighted_sum_difference, (sum_at_two _ (length a)).
  - rewrite !nth_middle.
    assert (Hnext : forall x y, nth (S (length a)) (a ++ x :: y :: b) 0%N = y).
    { intros x y. rewrite app_nth2 by lia.
      replace (S (length a) - length a)%nat with 1%nat by lia. reflexivity. }
    rewrite !Hnext.
    destruct (Nat.ltb_spec (length a) 17), (Nat.ltb_spec (S (length a)) 17); lia.
  - intros i Hi Hi'. destruct (Nat.lt_ge_cases i (length a)) as [Hlt|Hge].
    + rewrite !nth_before by exact Hlt. lia.
    + rewrite !app_nth2 by lia.
      destruct (i - length a)%nat as [|[|j]] eqn:E; [lia | lia | cbn; lia].
Qed.

(** No weight and no difference of neighbouring weights is a multiple
    of eleven, so neither is its product with the difference of two
    digits. *)
Lemma weights_checked :
  forallb (fun k =>
    forallb (fun x =>
      negb ((x * nth k WEIGHT 0) mod 11 =? 0)
      && (negb (k <? 16)%nat
          || negb ((x * (nth k WEIGHT 0 - nth (S k) WEIGHT 0)) mod 11 =? 0)))
      [-9; -8; -7; -6; -5; -4; -3; -2; -1; 1; 2; 3; 4; 5; 6; 7; 8; 9])
    (seq 0 17) = true.
Proof. vm_compute. reflexivity. Qed.

Lemma weights_detect k x :
  (k < 17)%nat -> -9 <= x <= 9 -> x <> 0 ->
  (x * nth k WEIGHT 0) mod 11 <> 0
  /\ ((k < 16)%nat -> (x * (nth k WEIGHT 0 - nth (S k) WEIGHT 0)) mod 11 <> 0).
Proof.
  intros Hk Hx Hnz. pose proof weights_checked as H.
  rewrite forallb_forall in H. specialize (H k).
  rewrite forallb_forall in H.
  assert (Hin : In x [-9; -8; -7; -6; -5; -4; -3; -2; -1; 1; 2; 3; 4; 5; 6; 7; 8; 9]).
  { cbn. lia. }
  apply H in Hin; [|apply in_seq; lia].
  apply andb_true_iff in Hin as [H1 H2]. split.
  - apply negb_true_iff, Z.eqb_neq in H1. exact H1.
  - intros Hk'. apply orb_true_iff in H2 as [H2|H2].
    + apply negb_true_iff, Nat.ltb_ge in H2. lia.
    + apply negb_true_iff, Z.eqb_neq in H2. exact H2.
Qed.

Lemma same_remainder a b : a mod 11 = b mod 11 -> (a - b) mod 11 = 0.
Proof. intros H. rewrite Zminus_mod, H, Z.sub_diag. reflexivity. Qed.

Lemma digit_value_range c : 0 <= digit_value c <= 9.
Proof.
  unfold digit_value. destruct (decimal_value c) as [d|] eqn:E; [|lia].
  pose proof (decimal_value_small c d E). lia.
Qed.

(** The table of check characters has no entry twice. *)
Lemma check_table_distinct i j :
  (i < 11)%nat -> (j < 11)%nat -> nth i CHECK_TABLE [] = nth j CHECK_TABLE [] -> i = j.
Proof.
  intros Hi Hj.
  do 11 (destruct i as [|i]; [do 11 (destruct j as [|j]; [first [reflexivity | discriminate]|]); lia|]).
  lia.
Qed.

Lemma check_char_differs value p q :
  (weighted_sum value p - weighted_sum value q) mod 11 <> 0 ->
  check_char value p <> check_char value q.
Proof.
  intros Hd E. unfold check_char in E. apply check_table_distinct in E.
  - apply Hd, same_remainder. apply Z2Nat.inj in E; [exact E | |];
      apply Z.mod_pos_bound; lia.
  - pose proof (Z.mod_pos_bound (weighted_sum value p) 11). lia.
  - pose proof (Z.mod_pos_bound (weighted_sum value q) 11). lia.
Qed.

Lemma check_char_substitution a c c' b :
  length (a ++ c :: b) = 17%nat -> digit_value c <> digit_value c' ->
  check_char digit_value (a ++ c :: b) <> check_char digit_value (a ++ c' :: b).
Proof.
  intros Hlen Hv. apply check_char_differs. rewrite substitution_difference.
  rewrite length_app in Hlen. cbn [length] in Hlen.
  destruct (Nat.ltb_spec (length a) 17) as [Hk|Hk]; [|lia].
  pose proof (digit_value_range c). pose proof (digit_value_range c').
  apply weights_detect; lia.
Qed.

Lemma check_char_transposition a c d b :
  length (a ++ c :: d :: b) = 17%nat -> digit_value c <> digit_value d ->
  check_char digit_value (a ++ c :: d :: b) <> check_char digit_value (a ++ d :: c :: b).
Proof.
  intros Hlen Hv. apply check_char_differs.
  rewrite length_app in Hlen. cbn [length] in Hlen.
  rewrite transposition_difference by lia.
  pose proof (digit_value_range c). pose proof (digit_value_range d).
  apply weights_detect; lia.
Qed.

Lemma checksum_of_digits p :
  length p = 17%nat -> decimal_digits p ->
  _calculate_checksum p = Return (check_char digit_value p).
Proof.
  intros Hlen Hp. rewrite calculate_checksum.
  apply Nat.eqb_eq in Hlen. rewrite Hlen. now rewrite decimal_forallb.
Qed.

End ErrorDetection.

Section ChecksumProperties.
Import Unicode Py IDCardToolkit Spec Scan.

(** X4. [_calculate_checksum] returns for seventeen decimal digits, and
    then one of the eleven characters of its table; for any other
    string, also one whose characters [isdigit] accepts, it raises
    [ValueError]. *)
Theorem checksum_returns_for_digits_only p :
  (length p = 17%nat /\ decimal_digits p ->
     exists c, _calculate_checksum p = Return c /\ In c CHECKSUM_MAP)
  /\ (~ (length p = 17%nat /\ decimal_digits p) ->
        _calculate_checksum p = Raise ValueError).
Proof.
  split.
  - intros [Hlen Hp]. exists (check_char digit_value p).
    split; [now apply checksum_of_digits|].
    unfold check_char. change CHECKSUM_MAP with CHECK_TABLE. apply nth_In.
    pose proof (Z.mod_pos_bound (weighted_sum digit_value p) 11).
    change (length CHECK_TABLE) with 11%nat. lia.
  - intros Hnot. rewrite calculate_checksum.
    destruct (length p =? 17)%nat eqn:El; [|reflexivity].
    destruct (forallb is_decimal p) eqn:Ed; [|reflexivity].
    contradiction Hnot. split; [now apply Nat.eqb_eq | now apply forallb_decimal].
Qed.

(** X5. Replacing one of seventeen decimal digits by a digit of another
    value changes the check character. *)
Theorem checksum_detects_substitution a c c' b :
  length (a ++ c :: b) = 17%nat ->
  decimal_digits (a ++ c :: b) -> is_decimal c' = true ->
  digit_value c <> digit_value c' ->
  exists x y,
    _calculate_checksum (a ++ c :: b) = Return x
    /\ _calculate_checksum (a ++ c' :: b) = Return y
    /\ x <> y.
Proof.
  intros Hlen Hp Hc' Hv.
  exists (check_char digit_value (a ++ c :: b)), (check_char digit_value (a ++ c' :: b)).
  split; [now apply checksum_of_digits|]. split.
  - apply checksum_of_digits.
    + rewrite length_app in *. exact Hlen.
    + apply Forall_app in Hp as [Ha Hb]. apply Forall_app. split; [exact Ha|].
      apply Forall_cons in Hb as [_ Hb]. now constructor.
  - now apply check_char_substitution.
Qed.

Lemma checksum_detects_substitution_witness :
  exists x y,
    _calculate_checksum (py "110105" ++ 0x31%N :: py "9491231002") = Return x
    /\ _calculate_checksum (py "110105" ++ 0x32%N :: py "9491231002") = Return y
    /\ x <> y.
Proof.
  apply checksum_detects_substitution.
  - reflexivity.
  - apply forallb_decimal. vm_compute. reflexivity.
  - vm_compute. reflexivity.
  - vm_compute. discriminate.
Defined.

(** X6. Exchanging two neighbouring digits of different value among
    seventeen decimal digits changes the check character. *)
Theorem checksum_detects_transposition a c d b :
  length (a ++ c :: d :: b) = 17%nat ->
  decimal_digits (a ++ c :: d :: b) ->
  digit_value c <> digit_value d ->
  exists x y,
    _calculate_checksum (a ++ c :: d :: b) = Return x
    /\ _calculate_checksum (a ++ d :: c :: b) = Return y
    /\ x <> y.
Proof.
  intros Hlen Hp Hv.
  exists (check_char digit_value (a ++ c :: d :: b)),
         (check_char digit_value (a ++ d :: c :: b)).
  split; [now apply checksum_of_digits|]. split.
  - apply checksum_of_digits.
    + rewrite length_app in *. exact Hlen.
    + apply Forall_app in Hp as [Ha Hb]. apply Forall_app. split; [exact Ha|].
      apply Forall_cons in Hb as [Hc Hb]. apply Forall_cons in Hb as [Hd Hb].
      now repeat constructor.
  - now apply check_char_transposition.
Qed.

Lemma checksum_detects_transposition_witness :
  exists x y,
    _calculate_checksum (py "1101051949" ++ 0x31%N :: 0x32%N :: py "31002") = Return x
    /\ _calculate_checksum (py "1101051949" ++ 0x32%N :: 0x31%N :: py "31002") = Return y
    /\ x <> y.
Proof.
  apply checksum_detects_transposition.
  - reflexivity.
  - apply forallb_decimal. vm_compute. reflexivity.
  - vm_compute. discriminate.
Defined.

End ChecksumProperties.

(** ** What [validate] accepts *)

Section Accepted.
Import Unicode Py IDCardToolkit Spec Scan.

Lemma accepted_verdict self now s :
  is_accepted self now s = true <-> validate self now s = Return (true, py "身份证号码有效").
Proof.
  unfold is_accepted. rewrite validate_first_failure. unfold verdict.
  destruct (first_failure _ _); split; intros H; try reflexivity; discriminate H.
Qed.

(** Every check has passed on the normal form of an accepted number. *)
Lemma accepted_checks self now s :
  is_accepted self now s = true ->
  length (upper (strip s)) = 18%nat
  /\ forallb is_decimal (take 17 (upper (strip s))) = true
  /\ is_Some (area_codes self !! take 6 (upper (strip s)))
  /\ (exists born, strptime_Ymd (slice 6 14 (upper (strip s))) = Return born
                   /\ datetime_gt born now = false)
  /\ drop 17 (upper (strip s)) = check_char digit_value (take 17 (upper (strip s))).
Proof.
  unfold is_accepted. rewrite validate_first_failure.
  generalize (upper (strip s)) as n. intros n.
  unfold verdict, performed_checks. rewrite !first_failure_cons.
  unfold length_check. destruct (length n =? 18)%nat eqn:El; [|discriminate].
  unfold prefix_check. destruct (forallb is_digit (take 17 n)); [|discriminate].
  unfold last_check. destruct (n !! 17%nat) as [c|] eqn:Ec; [|discriminate].
  destruct (is_digit c || (c =? 88)%N) eqn:Ex; [|discriminate].
  unfold region_check. destruct (area_codes self !! take 6 n) as [name|]; [|discriminate].
  unfold date_check. cbv zeta. destruct (strptime_Ymd _) as [born|]; [|discriminate].
  destruct (datetime_gt born now) eqn:Epast; [discriminate|].
  unfold decimal_check. destruct (forallb is_decimal (take 17 n)) eqn:Ed; [|discriminate].
  unfold checksum_check. cbv zeta. destruct (bool_decide _) eqn:Ek; [|discriminate].
  intros _. apply Nat.eqb_eq in El. apply bool_decide_eq_true in Ek.
  repeat split; eauto.
Qed.

Lemma slice_app_long i j (p x : str) :
  (j <= length p)%nat -> slice i j (p ++ x) = slice i j p.
Proof.
  intros Hj. unfold slice. destruct (Nat.le_gt_cases i j) as [Hij|Hij].
  - rewrite drop_app, take_app, length_drop.
    replace (j - i - (length p - i))%nat with 0%nat by lia.
    now rewrite take_0, app_nil_r.
  - replace (j - i)%nat with 0%nat by lia. reflexivity.
Qed.

Lemma slice_take i j k (s : str) : (j <= k)%nat -> slice i j (take k s) = slice i j s.
Proof.
  intros Hj. unfold slice. destruct (Nat.le_gt_cases i j) as [Hij|Hij].
  - rewrite !take_drop_commute, take_take. do 2 f_equal. lia.
  - replace (j - i)%nat with 0%nat by lia. reflexivity.
Qed.

Lemma take_app_long k (p x : str) : (k <= length p)%nat -> take k (p ++ x) = take k p.
Proof. intros. now apply take_app_le. Qed.

Lemma tuple_le_trans a : forall b c,
  length a = length b -> length b = length c ->
  tuple_lt b a = false -> tuple_lt c b = false -> tuple_lt c a = false.
Proof.
  induction a as [|x a IH]; intros [|y b] [|z c]; try discriminate; try reflexivity.
  cbn [length tuple_lt]. intros [= Hab] [= Hbc] H1 H2.
  apply orb_false_iff in H1 as [H1 H1']. apply orb_false_iff in H2 as [H2 H2'].
  apply Z.ltb_ge in H1, H2. apply orb_false_iff. split; [apply Z.ltb_ge; lia|].
  destruct (z =? x)%Z eqn:E; [|reflexivity]. apply Z.eqb_eq in E. subst z.
  assert (y = x) by lia. subst y. rewrite Z.eqb_refl in H1', H2'. cbn in *.
  now apply (IH b c).
Qed.

(** A moment not after [now] is not after a later moment either. *)
Lemma not_after_later born now later :
  datetime_gt born now = false -> datetime_gt now later = false ->
  datetime_gt born later = false.
Proof.
  unfold datetime_gt. intros H1 H2.
  now apply (tuple_le_trans _ (datetime_fields now)).
Qed.

Lemma plain_char_fixed c :
  (is_ascii_digit c || (c =? 0x58)%N) = true ->
  to_upper_full c = [c] /\ is_space c = false.
Proof.
  intros H. apply orb_true_iff in H as [H|H].
  - now apply digit_fixed, decimal_is_digit, ascii_digit_is_decimal.
  - apply N.eqb_eq in H. subst c. split; reflexivity.
Qed.

Lemma forallb_plain s :
  forallb (fun c => is_ascii_digit c || (c =? 0x58)%N) s = true -> plain s.
Proof.
  intros H. apply Forall_forall. intros c Hc.
  rewrite forallb_forall in H. now apply H, list_elem_of_In.
Qed.

Lemma plain_normal s : plain s -> upper (strip s) = s.
Proof.
  intros Hp. apply plain_fixed. eapply Forall_impl; [exact Hp|].
  intros c Hc. now apply plain_char_fixed.
Qed.

Lemma plain_decimal_value c c' :
  (is_ascii_digit c || (c =? 0x58)%N) = true ->
  (is_ascii_digit c' || (c' =? 0x58)%N) = true ->
  is_decimal c = true -> is_decimal c' = true ->
  c <> c' -> digit_value c <> digit_value c'.
Proof.
  intros Hc Hc' Hd Hd' Hne.
  assert (Ha : forall x, (is_ascii_digit x || (x =? 0x58)%N) = true ->
                         is_decimal x = true -> is_ascii_digit x = true).
  { intros x Hx Hdx. apply orb_true_iff in Hx as [Hx|Hx]; [exact Hx|].
    apply N.eqb_eq in Hx. subst x. discriminate Hdx. }
  rewrite !ascii_value_digit by auto. unfold ascii_value. lia.
Qed.

(** The seventeen weighted digits and the value of the check character
    add up to 1 modulo 11. *)
Lemma check_char_total value p ch :
  check_char value p = [ch] ->
  ((weighted_sum value p + check_value ch) mod 11 = 1)%Z.
Proof.
  unfold check_char. pose proof (Z.mod_pos_bound (weighted_sum value p) 11 eq_refl) as Hr.
  remember (weighted_sum value p mod 11)%Z as r eqn:Er.
  assert (Hcases : (r = 0 \/ r = 1 \/ r = 2 \/ r = 3 \/ r = 4 \/ r = 5 \/ r = 6
                    \/ r = 7 \/ r = 8 \/ r = 9 \/ r = 10)%Z) by lia.
  intros H.
  repeat (destruct Hcases as [->|Hcases];
          [vm_compute in H; injection H as <-;
           match goal with
           | |- context [check_value ?x] =>
               let v := eval vm_compute in (check_value x) in
               change (check_value x) with v
           end;
           clear Hr; Z.div_mod_to_equations; lia|]).
  rewrite Hcases in *. vm_compute in H. injection H as <-.
  change (check_value 50) with 2%Z. clear Hr. Z.div_mod_to_equations. lia.
Qed.

End Accepted.

Section AcceptanceProperties.
Import Unicode Py IDCardToolkit Spec Scan.

(** X7. [validate] accepts a string exactly when, stripped and in upper
    case, it is seventeen decimal digits followed by their check
    character, the first six being a key of the region table and
    characters 6 to 13 a date [strptime] reads that is not after the
    current time. *)
Theorem validate_accepts_iff self now s :
  validate self now s = Return (true, py "身份证号码有效")
  <-> exists p born,
        upper (strip s) = p ++ check_char digit_value p
        /\ length p = 17%nat /\ decimal_digits p
        /\ is_Some (area_codes self !! take 6 p)
        /\ strptime_Ymd (slice 6 14 p) = Return born
        /\ datetime_gt born now = false.
Proof.
  split.
  - intros Hv. apply accepted_verdict, accepted_checks in Hv.
    destruct Hv as (Hlen & Hd & Hregion & (born & Hborn & Hpast) & Hcheck).
    set (n := upper (strip s)) in *.
    assert (Hn : n = take 17 n ++ check_char digit_value (take 17 n)).
    { rewrite <- Hcheck. symmetry. apply take_drop. }
    assert (Hp : length (take 17 n) = 17%nat) by (rewrite length_take; lia).
    exists (take 17 n), born.
    split; [exact Hn|]. split; [exact Hp|]. split; [now apply forallb_decimal|].
    split; [|split; [|exact Hpast]].
    + rewrite take_take. exact Hregion.
    + now rewrite slice_take by lia.
  - intros (p & born & Hn & Hlen & Hp & Hregion & Hborn & Hpast).
    rewrite <- validate_normalised, Hn. now apply (validate_with_check self now p born).
Qed.

(** X8. When the clock moves on, the verdict of [validate] stays what
    it was, unless it was the refusal of a date of birth in the future. *)
Theorem validate_later_clock self now later s :
  datetime_gt now later = false ->
  (forall digits,
     validate self now s
     <> Return (false, py "日期错误：出生日期不能是未来日期 " ++ digits)) ->
  validate self later s = validate self now s.
Proof.
  intros Hlater Hnot. rewrite !validate_first_failure in *.
  revert Hnot. generalize (upper (strip s)) as n. intros n.
  unfold verdict, performed_checks. rewrite !first_failure_cons.
  destruct (length_check n); [reflexivity|].
  destruct (prefix_check n); [reflexivity|].
  destruct (last_check n); [reflexivity|].
  destruct (region_check (area_codes self) n); [reflexivity|].
  unfold date_check. cbv zeta. destruct (strptime_Ymd _) as [born|e]; [|reflexivity].
  destruct (datetime_gt born now) eqn:Epast.
  - intros Hnot. now contradiction (Hnot (slice 6 14 n)).
  - intros _. now rewrite (not_after_later born now later).
Qed.

Lemma validate_later_clock_witness :
  validate Sample.toolkit (Datetime (Date 2031 1 1) 0 0 0 0) (py "11010519491231002X")
  = validate Sample.toolkit Sample.now (py "11010519491231002X").
Proof.
  apply (validate_later_clock Sample.toolkit Sample.now (Datetime (Date 2031 1 1) 0 0 0 0)).
  - vm_compute. reflexivity.
  - intros digits. vm_compute. discriminate.
Defined.

(** X9. Of two strings of ASCII digits and [X] that differ in one
    character only, [validate] accepts at most one. *)
Theorem validate_detects_substitution self now a c c' b :
  plain (a ++ c :: b) -> plain [c'] -> c <> c' ->
  is_accepted self now (a ++ c :: b) = true ->
  is_accepted self now (a ++ c' :: b) = false.
Proof.
  intros Hp Hc' Hne Ha.
  destruct (is_accepted self now (a ++ c' :: b)) eqn:Ha'; [exfalso | reflexivity].
  assert (Hp' : plain (a ++ c' :: b)).
  { apply Forall_app in Hp as [Hpa Hpb]. apply Forall_app. split; [exact Hpa|].
    apply Forall_cons in Hpb as [_ Hpb]. apply Forall_cons in Hc' as [Hc' _].
    now constructor. }
  apply accepted_checks in Ha, Ha'. rewrite plain_normal in Ha, Ha' by assumption.
  destruct Ha as (Hlen & Hd & _ & _ & Hk). destruct Ha' as (_ & Hd' & _ & _ & Hk').
  rewrite length_app in Hlen. cbn [length] in Hlen.
  destruct (Nat.eq_dec (length a) 17) as [E17|N17].
  - rewrite take_app_length', drop_app_length' in Hk, Hk' by (symmetry; exact E17).
    rewrite <- Hk' in Hk. now injection Hk.
  - rewrite take_app in Hd, Hd', Hk, Hk'. rewrite drop_app in Hk, Hk'.
    rewrite take_ge in Hd, Hd', Hk, Hk' by lia. rewrite drop_ge in Hk, Hk' by lia.
    replace (17 - length a)%nat with (S (16 - length a)) in * by lia.
    cbn [take drop app] in *.
    apply (check_char_substitution a c c' (take (16 - length a) b)).
    + rewrite length_app. cbn [length]. rewrite length_take. lia.
    + apply Forall_app in Hp as [_ Hpb]. apply Forall_cons in Hpb as [Hc _].
      apply Forall_cons in Hc' as [Hc' _].
      rewrite forallb_app in Hd, Hd'. cbn [forallb] in Hd, Hd'.
      apply andb_true_iff in Hd as [_ Hd]. apply andb_true_iff in Hd as [Hd _].
      apply andb_true_iff in Hd' as [_ Hd']. apply andb_true_iff in Hd' as [Hd' _].
      now apply plain_decimal_value.
    + now rewrite <- Hk, <- Hk'.
Qed.

Lemma validate_detects_substitution_witness :
  is_accepted Sample.toolkit Sample.now (py "1101051949123" ++ 0x32%N :: py "002X") = false.
Proof.
  apply (validate_detects_substitution _ _ (py "1101051949123") 0x31%N 0x32%N (py "002X")).
  - apply forallb_plain. vm_compute. reflexivity.
  - repeat constructor.
  - discriminate.
  - vm_compute. reflexivity.
Defined.

(** X10. Of two strings of ASCII digits and [X] that differ by the
    exchange of two neighbouring characters, [validate] accepts at most
    one; the check character may be one of the two. *)
Theorem validate_detects_transposition self now a c d b :
  plain (a ++ c :: d :: b) -> c <> d ->
  is_accepted self now (a ++ c :: d :: b) = true ->
  is_accepted self now (a ++ d :: c :: b) = false.
Proof.
  intros Hp Hne Ha.
  destruct (is_accepted self now (a ++ d :: c :: b)) eqn:Ha'; [exfalso | reflexivity].
  pose proof Hp as Hp0.
  apply Forall_app in Hp0 as [Hpa Hpb]. apply Forall_cons in Hpb as [Hc Hpb].
  apply Forall_cons in Hpb as [Hdd Hpb].
  cbv beta in Hc, Hdd.
  assert (Hp' : plain (a ++ d :: c :: b)).
  { apply Forall_app. split; [exact Hpa|]. now repeat constructor. }
  apply accepted_checks in Ha, Ha'. rewrite plain_normal in Ha, Ha' by assumption.
  destruct Ha as (Hlen & Hd & _ & _ & Hk). destruct Ha' as (_ & Hd' & _ & _ & Hk').
  rewrite length_app in Hlen. cbn [length] in Hlen.
  destruct (Nat.eq_dec (length a) 16) as [E16|N16].
  - destruct b as [|? b]; [|cbn [length] in Hlen; lia].
    change (a ++ [c; d]) with (a ++ [c] ++ [d]) in Hd, Hk.
    change (a ++ [d; c]) with (a ++ [d] ++ [c]) in Hd', Hk'.
    rewrite app_assoc in Hd, Hd', Hk, Hk'.
    rewrite take_app_length' in Hd, Hd', Hk, Hk'
      by (rewrite length_app; cbn [length]; lia).
    rewrite drop_app_length' in Hk, Hk' by (rewrite length_app; cbn [length]; lia).
    rewrite forallb_app in Hd, Hd'. cbn [forallb] in Hd, Hd'.
    apply andb_true_iff in Hd as [_ Hd]. apply andb_true_iff in Hd as [Hd _].
    apply andb_true_iff in Hd' as [_ Hd']. apply andb_true_iff in Hd' as [Hd' _].
    symmetry in Hk, Hk'. apply check_char_total in Hk, Hk'.
    pose proof (substitution_difference digit_value a c d []) as Hdiff.
    rewrite E16 in Hdiff.
    change (weighted_sum digit_value (a ++ [c]) - weighted_sum digit_value (a ++ [d])
            = (digit_value c - digit_value d) * 2)%Z in Hdiff.
    assert (Hvc : check_value c = digit_value c).
    { unfold check_value. destruct (c =? 88)%N eqn:E.
      - apply N.eqb_eq in E. subst c. discriminate Hd.
      - rewrite ascii_value_digit; [reflexivity|].
        rewrite ?E, orb_false_r in Hc. exact Hc. }
    assert (Hvd : check_value d = digit_value d).
    { unfold check_value. destruct (d =? 88)%N eqn:E.
      - apply N.eqb_eq in E. subst d. discriminate Hd'.
      - rewrite ascii_value_digit; [reflexivity|].
        rewrite ?E, orb_false_r in Hdd. exact Hdd. }
    rewrite Hvc in Hk'. rewrite Hvd in Hk.
    apply (plain_decimal_value c d Hc Hdd Hd Hd' Hne).
    pose proof (digit_value_range c). pose proof (digit_value_range d).
    revert Hk Hk' Hdiff.
    generalize (weighted_sum digit_value (a ++ [c])), (weighted_sum digit_value (a ++ [d])).
    intros S1 S2 Hk Hk' Hdiff. Z.div_mod_to_equations. lia.
  - rewrite take_app in Hd, Hd', Hk, Hk'. rewrite drop_app in Hk, Hk'.
    rewrite take_ge in Hd, Hd', Hk, Hk' by lia. rewrite drop_ge in Hk, Hk' by lia.
    replace (17 - length a)%nat with (S (S (15 - length a))) in * by lia.
    cbn [take drop app] in *.
    apply (check_char_transposition a c d (take (15 - length a) b)).
    + rewrite length_app. cbn [length]. rewrite length_take. lia.
    + rewrite forallb_app in Hd. cbn [forallb] in Hd.
      apply andb_true_iff in Hd as [_ Hd]. apply andb_true_iff in Hd as [Hdc Hd].
      apply andb_true_iff in Hd as [Hdd' _].
      now apply plain_decimal_value.
    + now rewrite <- Hk, <- Hk'.
Qed.

Lemma validate_detects_transposition_witness :
  is_accepted Sample.toolkit Sample.now (py "1101051949" ++ 0x32%N :: 0x31%N :: py "31002X")
  = false.
Proof.
  apply (validate_detects_transposition _ _ (py "1101051949") 0x31%N 0x32%N (py "31002X")).
  - apply forallb_plain. vm_compute. reflexivity.
  - discriminate.
  - vm_compute. reflexivity.
Defined.

End AcceptanceProperties.

(** ** [parse] on accepted numbers *)

Section ParseAccepted.
Import Unicode Py IDCardToolkit Spec Scan.

Lemma to_ascii_value c :
  is_decimal c = true -> Z.of_N (to_ascii_decimal c - 0x30) = digit_value c.
Proof.
  intros Hd. pose proof (to_ascii_decimal_digit c Hd) as Ha.
  unfold to_ascii_decimal in *. destruct (c <=? 127)%N.
  - rewrite (ascii_value_digit c Ha). unfold ascii_value.
    apply ascii_digit_range in Ha. lia.
  - rewrite (decimal_not_space c Hd) in *. unfold digit_value.
    destruct (decimal_value c) as [d|]; [|discriminate Ha]. f_equal. lia.
Qed.

Lemma scan_decimal s : forall acc,
  decimal_digits s ->
  scan_digits acc false (map to_ascii_decimal s)
  = Some (fold_left (fun acc c => (acc * 10 + digit_value c)%Z) s acc, []).
Proof.
  induction s as [|c s IH]; intros acc Hs; [reflexivity|].
  apply Forall_cons in Hs as [Hc Hs]. cbn [map scan_digits fold_left].
  rewrite (to_ascii_decimal_digit c Hc), (to_ascii_value c Hc). now apply IH.
Qed.

(** [int] reads a string of decimal digits as the number they write. *)
Lemma int_decimal_number s :
  s <> [] -> decimal_digits s -> int s = Return (decimal_number s).
Proof.
  intros Hs Hd. rewrite int_unfold.
  destruct s as [|x s]; [congruence|]. pose proof Hd as Hd0.
  apply Forall_cons in Hd0 as [Hx _]. cbn [map].
  pose proof (to_ascii_decimal_digit x Hx) as Hax.
  pose proof (ascii_digit_range _ Hax) as Hr.
  cbn [skip_blanks].
  replace (is_blank (to_ascii_decimal x)) with false.
  2:{ symmetry. unfold is_blank, in_range. cbn [fst snd]. apply orb_false_iff.
      split; [apply andb_false_iff; right; apply N.leb_gt; lia | apply N.eqb_neq; lia]. }
  replace (to_ascii_decimal x =? 0x2B)%N with false by (symmetry; apply N.eqb_neq; lia).
  replace (to_ascii_decimal x =? 0x2D)%N with false by (symmetry; apply N.eqb_neq; lia).
  unfold read_digits. rewrite Hax.
  change (to_ascii_decimal x :: map to_ascii_decimal s) with (map to_ascii_decimal (x :: s)).
  rewrite (scan_decimal (x :: s) 0%Z Hd). cbn [skip_blanks]. f_equal.
  unfold decimal_number. lia.
Qed.

Lemma take_take_le {A} (l : list A) n m : (n <= m)%nat -> take n (take m l) = take n l.
Proof. intros H. rewrite take_take. f_equal. lia. Qed.

Lemma slice_0_take j k (s : str) : (j <= k)%nat -> slice 0 j (take k s) = take j s.
Proof.
  intros H. rewrite slice_take by exact H. unfold slice. now rewrite Nat.sub_0_r.
Qed.

(** The first seventeen characters of an accepted number without white
    space in front are those [validate] checked. *)
Lemma accepted_prefix self now id :
  is_accepted self now id = true -> starts_clean id ->
  take 17 id = take 17 (upper (strip id)) /\ length (take 17 id) = 17%nat.
Proof.
  intros Ha Hclean. destruct (accepted_normal self now id Ha) as (p & c & E & Hlen & Hp & Hc).
  rewrite E. unfold strip in E. rewrite (lstrip_clean id Hclean) in E.
  destruct (rstrip_decomp id) as (r & Hid & _).
  set (core := rstrip id) in *.
  assert (Hall : forallb (fun d => is_digit d || (d =? 0x58)%N) (upper core) = true).
  { rewrite E, forallb_app. apply andb_true_iff. split.
    - rewrite forallb_forall in *. intros d Hd.
      now rewrite (decimal_is_digit d (Hp d Hd)).
    - cbn. now rewrite Hc. }
  assert (Htake : take 17 (upper core) = p).
  { rewrite E. now rewrite take_app_length' by (symmetry; assumption). }
  assert (Hcore : take 17 core = p).
  { rewrite <- Htake. apply upper_decimal_prefix; rewrite ?Htake; assumption. }
  assert (Hlong : (17 <= length core)%nat).
  { rewrite <- Hlen, <- Hcore, length_take. lia. }
  rewrite take_app_length' by (symmetry; assumption).
  rewrite Hid, take_app_le by exact Hlong. rewrite Hcore. now split.
Qed.

Lemma decimal_number_parity a b c :
  (decimal_number [a; b; c] mod 2 = digit_value c mod 2)%Z.
Proof.
  unfold decimal_number. cbn [fold_left].
  replace (((0 * 10 + digit_value a) * 10 + digit_value b) * 10 + digit_value c)%Z
    with (digit_value c + (50 * digit_value a + 5 * digit_value b) * 2)%Z by lia.
  now rewrite Z.mod_add by lia.
Qed.

Lemma tuple_lt_two a b x y :
  tuple_lt [a; b] [x; y] = true <-> (a < x \/ (a = x /\ b < y))%Z.
Proof.
  cbn [tuple_lt]. rewrite andb_false_r, orb_false_r, orb_true_iff, andb_true_iff.
  rewrite !Z.ltb_lt, Z.eqb_eq. reflexivity.
Qed.

Lemma tuple_lt_three a b c x y z :
  tuple_lt [a; b; c] [x; y; z] = true
  <-> (a < x \/ (a = x /\ (b < y \/ (b = y /\ c < z))))%Z.
Proof.
  change (tuple_lt [a; b; c] [x; y; z])
    with ((a <? x)%Z || ((a =? x)%Z && tuple_lt [b; c] [y; z])).
  rewrite orb_true_iff, andb_true_iff, tuple_lt_two, Z.ltb_lt, Z.eqb_eq. reflexivity.
Qed.

Lemma tuple_lt_prefix a : forall b u v,
  length a = length b -> tuple_lt (a ++ u) (b ++ v) = false -> tuple_lt a b = false.
Proof.
  induction a as [|x a IH]; intros [|y b] u v; try discriminate; [reflexivity|].
  cbn [length app tuple_lt]. intros [= Hlen] H.
  apply orb_false_iff in H as [H1 H2]. rewrite H1. cbn [orb].
  destruct (x =? y)%Z; [|reflexivity]. cbn [andb] in *. now apply (IH b u v).
Qed.

(** A moment not after another is on a day not after the other's. *)
Lemma datetime_not_after_day a b :
  datetime_gt a b = false -> tuple_lt (ymd (on b)) (ymd (on a)) = false.
Proof.
  unfold datetime_gt, datetime_fields, ymd. intros H.
  apply (tuple_lt_prefix _ _ [hour b; minute b; second b; microsecond b]
           [hour a; minute a; second a; microsecond a]); [reflexivity | exact H].
Qed.

(** What [parse] returns for an accepted number without white space in
    front, field by field. *)
Lemma parse_of_accepted self now today id :
  is_accepted self now id = true -> starts_clean id ->
  exists born name c16 final,
    take 17 id = take 17 (upper (strip id))
    /\ strptime_Ymd (slice 6 14 id) = Return born
    /\ datetime_gt born now = false
    /\ area_codes self !! take 6 id = Some name
    /\ id !! 16%nat = Some c16
    /\ sequence_number id = Return (decimal_number (slice 14 17 id))
    /\ (decimal_number (slice 14 17 id) mod 2 = digit_value c16 mod 2)%Z
    /\ last id = Some final
    /\ parse self now today id
       = Return (Valid
           {| address_code := take 6 id;
              address :=
                {| province := get (area_codes self) (take 2 id)
                                 (py "未知省份(" ++ take 2 id ++ py ")");
                   city := get (area_codes self) (take 4 id)
                             (py "未知城市(" ++ take 4 id ++ py ")");
                   district := name |};
              birth_date := strftime_Y_m_d (on born);
              age := (year today - year (on born)
                      - (if tuple_lt [month today; day today]
                              [month (on born); day (on born)] then 1 else 0))%Z;
              gender := if Z.odd (decimal_number (slice 14 17 id))
                        then py "男 (Male)" else py "女 (Female)";
              sequence_code := slice 14 17 id;
              checksum := [final] |}).
Proof.
  intros Ha Hclean.
  destruct (accepted_prefix self now id Ha Hclean) as [Hp Hlen].
  destruct (accepted_checks self now id Ha)
    as (Hn & Hd & [name Hregion] & (born & Hborn & Hpast) & _).
  rewrite <- Hp in Hd.
  assert (E6 : take 6 (upper (strip id)) = take 6 id).
  { rewrite <- (take_take_le (upper (strip id)) 6 17), <- Hp by lia.
    apply take_take_le. lia. }
  assert (E14 : slice 6 14 (upper (strip id)) = slice 6 14 id).
  { rewrite <- (slice_take 6 14 17 (upper (strip id))), <- Hp by lia.
    apply slice_take. lia. }
  rewrite E6 in Hregion. rewrite E14 in Hborn.
  pose proof (proj1 (accepted_verdict self now id) Ha) as Hvalid.
  assert (Hseq : exists a b c, slice 14 17 id = [a; b; c]
                   /\ id !! 16%nat = Some c /\ decimal_digits [a; b; c]).
  { rewrite <- (slice_take 14 17 17) by lia.
    assert (Hdec : decimal_digits (take 17 id)) by now apply forallb_decimal.
    assert (H16 : take 17 id !! 16%nat = id !! 16%nat) by (apply lookup_take_lt; lia).
    rewrite <- H16. revert Hlen Hdec. generalize (take 17 id). intros p Hlen Hdec.
    do 18 (destruct p as [|? p]; try discriminate Hlen).
    eexists _, _, _. split; [reflexivity|]. split; [reflexivity|].
    do 14 (apply Forall_cons in Hdec as [_ Hdec]). exact Hdec. }
  destruct Hseq as (a & b & c & Hslice & H16 & Habc).
  assert (Hint : int (slice 14 17 id) = Return (decimal_number (slice 14 17 id))).
  { rewrite Hslice. now apply int_decimal_number. }
  assert (Hc : is_decimal c = true).
  { do 2 (apply Forall_cons in Habc as [_ Habc]). now apply Forall_cons in Habc as [Hc _]. }
  destruct (last id) as [final|] eqn:Hlast.
  2:{ apply last_None in Hlast. subst id. discriminate H16. }
  exists born, name, c, final.
  do 5 (split; [assumption|]). split; [exact Hint|].
  split; [rewrite Hslice; apply decimal_number_parity|].
  split; [reflexivity|].
  unfold parse. rewrite Hvalid, bind_return. cbn [negb]. cbv zeta.
  rewrite Hborn, bind_return, Hint, bind_return.
  unfold item, last_item. rewrite H16, Hlast, bind_return.
  rewrite (int_decimal c Hc), !bind_return.
  unfold get at 3. replace (slice 0 6 id) with (take 6 id) by reflexivity.
  rewrite Hregion. cbn [default from_option Datatypes.id].
  rewrite !slice_0_take by lia. do 3 f_equal.
  rewrite <- Z.negb_even, Zeven_mod, Hslice, decimal_number_parity. reflexivity.
Qed.

Lemma digits_written_checked : forallb digits_written four_digits = true.
Proof. vm_compute. reflexivity. Qed.

(** Writing the number that ASCII digits write gives the digits back:
    without padding when the first is not a zero, and on two digits. *)
Lemma digits_written_all a b c d :
  ascii_digits [a; b; c; d] ->
  (a <> 0x30%N -> format_0d 1 (number [a; b; c; d]) = [a; b; c; d])
  /\ format_0d 2 (number [a; b]) = [a; b]
  /\ format_0d 2 (number [c; d]) = [c; d].
Proof.
  intros H. apply four_digits_all in H. pose proof digits_written_checked as Hall.
  rewrite forallb_forall in Hall. apply Hall in H. unfold digits_written in H.
  apply andb_true_iff in H as [H H3]. apply andb_true_iff in H as [H1 H2].
  apply bool_decide_eq_true in H2, H3.
  unfold number, ascii_value. cbn [fold_left].
  rewrite !Z.mul_0_l, !Z.add_0_l. rewrite H2, H3. split; [|now split].
  intros Ha. apply orb_true_iff in H1 as [H1|H1].
  - apply N.eqb_eq in H1. contradiction.
  - now apply bool_decide_eq_true in H1.
Qed.

End ParseAccepted.

Section ParseProperties.
Import Unicode Py IDCardToolkit Spec Scan.

(** X11. For a number [validate] accepts and that does not start with
    white space, [parse] returns the fields of the number [validate]
    checked: its first six characters and the name the table has for
    them (never the fall-back text), the date [strptime] reads from
    characters 6 to 13, characters 14 to 16, and as sex male exactly when
    the sequence number is odd. *)
Theorem parse_reads_accepted_number self now today id :
  is_accepted self now id = true -> starts_clean id ->
  exists fields name born v,
    parse self now today id = Return (Valid fields)
    /\ take 17 id = take 17 (upper (strip id))
    /\ address_code fields = take 6 id
    /\ area_codes self !! take 6 id = Some name
    /\ district (address fields) = name
    /\ strptime_Ymd (slice 6 14 id) = Return born
    /\ birth_date fields = strftime_Y_m_d (on born)
    /\ sequence_code fields = slice 14 17 id
    /\ sequence_number id = Return v
    /\ gender fields = (if Z.odd v then py "男 (Male)" else py "女 (Female)").
Proof.
  intros Ha Hclean.
  destruct (parse_of_accepted self now today id Ha Hclean)
    as (born & name & c16 & final & Hp & Hborn & _ & Hregion & _ & Hseq & _ & _ & Hparse).
  eexists _, name, born, _. split; [exact Hparse|].
  cbn [address_code address district birth_date sequence_code gender].
  repeat (split; [first [assumption | reflexivity]|]).
  split; [exact Hseq | reflexivity].
Qed.

Lemma parse_reads_accepted_number_witness :
  exists fields name born v,
    parse Sample.toolkit Sample.now Sample.today (py "11010519491231002X")
    = Return (Valid fields)
    /\ take 17 (py "11010519491231002X")
       = take 17 (upper (strip (py "11010519491231002X")))
    /\ address_code fields = take 6 (py "11010519491231002X")
    /\ area_codes Sample.toolkit !! take 6 (py "11010519491231002X") = Some name
    /\ district (address fields) = name
    /\ strptime_Ymd (slice 6 14 (py "11010519491231002X")) = Return born
    /\ birth_date fields = strftime_Y_m_d (on born)
    /\ sequence_code fields = slice 14 17 (py "11010519491231002X")
    /\ sequence_number (py "11010519491231002X") = Return v
    /\ gender fields = (if Z.odd v then py "男 (Male)" else py "女 (Female)").
Proof.
  apply (parse_reads_accepted_number Sample.toolkit Sample.now Sample.today
           (py "11010519491231002X")).
  - vm_compute. reflexivity.
  - vm_compute. reflexivity.
Defined.

(** X12. The age [parse] reports for a number [validate] accepts and
    that does not start with white space is the count of birthdays up to
    today: the birthday of that age is not after today and the next one
    is; it is not negative when today is not before the day [validate]
    took as the current one. *)
Theorem parse_age_counts_birthdays self now today id :
  is_accepted self now id = true -> starts_clean id ->
  exists fields born,
    parse self now today id = Return (Valid fields)
    /\ strptime_Ymd (slice 6 14 id) = Return born
    /\ tuple_lt (ymd today)
         [(year (on born) + age fields)%Z; month (on born); day (on born)] = false
    /\ tuple_lt (ymd today)
         [(year (on born) + age fields + 1)%Z; month (on born); day (on born)] = true
    /\ (tuple_lt (ymd today) (ymd (on now)) = false -> (0 <= age fields)%Z).
Proof.
  intros Ha Hclean.
  destruct (parse_of_accepted self now today id Ha Hclean)
    as (born & name & c16 & final & _ & Hborn & Hpast & _ & _ & _ & _ & _ & Hparse).
  eexists _, born. split; [exact Hparse|]. split; [exact Hborn|].
  cbn [age]. apply datetime_not_after_day in Hpast. unfold ymd in *.
  destruct today as [ty tm td], now as [[ny nm nd] nh nmi ns nus], born as [[y m d] ? ? ? ?].
  cbn [year month day on] in *.
  apply not_true_iff_false in Hpast. rewrite tuple_lt_three in Hpast.
  destruct (tuple_lt [tm; td] [m; d]) eqn:Ebirthday;
    [apply tuple_lt_two in Ebirthday
    |apply not_true_iff_false in Ebirthday; rewrite tuple_lt_two in Ebirthday].
  - split; [apply not_true_iff_false; rewrite tuple_lt_three; lia|].
    split; [apply tuple_lt_three; lia|].
    intros Htoday. apply not_true_iff_false in Htoday. rewrite tuple_lt_three in Htoday. lia.
  - split; [apply not_true_iff_false; rewrite tuple_lt_three; lia|].
    split; [apply tuple_lt_three; lia|].
    intros Htoday. apply not_true_iff_false in Htoday. rewrite tuple_lt_three in Htoday. lia.
Qed.

Lemma parse_age_counts_birthdays_witness :
  exists fields born,
    parse Sample.toolkit Sample.now Sample.today (py "11010519491231002X")
    = Return (Valid fields)
    /\ strptime_Ymd (slice 6 14 (py "11010519491231002X")) = Return born
    /\ tuple_lt (ymd Sample.today)
         [(year (on born) + age fields)%Z; month (on born); day (on born)] = false
    /\ tuple_lt (ymd Sample.today)
         [(year (on born) + age fields + 1)%Z; month (on born); day (on born)] = true
    /\ (tuple_lt (ymd Sample.today) (ymd (on Sample.now)) = false -> (0 <= age fields)%Z).
Proof.
  apply (parse_age_counts_birthdays Sample.toolkit Sample.now Sample.today
           (py "11010519491231002X")).
  - vm_compute. reflexivity.
  - vm_compute. reflexivity.
Defined.

(** X13. When characters 6 to 13 of a number [validate] accepts and
    that does not start with white space are ASCII digits, and the year
    has no zero in front, the date of birth [parse] reports is these
    digits again, with a hyphen after the year and after the month. *)
Theorem parse_writes_birth_date self now today id :
  is_accepted self now id = true -> starts_clean id ->
  ascii_digits (slice 6 14 id) -> id !! 6%nat <> Some 0x30%N ->
  exists fields,
    parse self now today id = Return (Valid fields)
    /\ birth_date fields
       = slice 6 10 id ++ py "-" ++ slice 10 12 id ++ py "-" ++ slice 12 14 id.
Proof.
  intros Ha Hclean Hascii Hyear.
  destruct (parse_of_accepted self now today id Ha Hclean)
    as (born & name & c16 & final & _ & Hborn & _ & _ & _ & _ & _ & _ & Hparse).
  destruct (accepted_prefix self now id Ha Hclean) as [_ Hlen].
  eexists. split; [exact Hparse|]. cbn [birth_date].
  revert Hborn Hascii Hyear. rewrite <- (take_drop 17 id).
  revert Hlen. generalize (take 17 id), (drop 17 id). intros p rest Hlen.
  do 18 (destruct p as [|? p]; try discriminate Hlen).
  cbn [app slice take drop Nat.sub]. intros Hborn Hascii Hyear.
  assert (Hfirst : n5 <> 0x30%N) by (intros ->; now apply Hyear).
  rewrite strptime_reads_calendar in Hborn by (reflexivity || exact Hascii).
  unfold calendar_date in Hborn. cbn [slice take drop Nat.sub] in Hborn.
  destruct (_ && _) in Hborn; [|discriminate Hborn]. injection Hborn as <-.
  unfold strftime_Y_m_d. cbn [on year month day].
  apply Forall_cons in Hascii as [H1 Hascii]. apply Forall_cons in Hascii as [H2 Hascii].
  apply Forall_cons in Hascii as [H3 Hascii]. apply Forall_cons in Hascii as [H4 Hascii].
  destruct (digits_written_all n5 n6 n7 n8) as (Hwritten & _ & _); [now repeat constructor|].
  rewrite (Hwritten Hfirst).
  destruct (digits_written_all n9 n10 n11 n12) as (_ & -> & ->); [exact Hascii|].
  reflexivity.
Qed.

Lemma parse_writes_birth_date_witness :
  exists fields,
    parse Sample.toolkit Sample.now Sample.today (py "11010519491231002X")
    = Return (Valid fields)
    /\ birth_date fields
       = slice 6 10 (py "11010519491231002X") ++ py "-"
         ++ slice 10 12 (py "11010519491231002X") ++ py "-"
         ++ slice 12 14 (py "11010519491231002X").
Proof.
  apply (parse_writes_birth_date Sample.toolkit Sample.now Sample.today
           (py "11010519491231002X")).
  - vm_compute. reflexivity.
  - vm_compute. reflexivity.
  - apply forallb_ascii_digits. vm_compute. reflexivity.
  - vm_compute. discriminate.
Defined.

End ParseProperties.

(** ** The three outcomes of [guess] *)

Section GuessOutcomes.
Import Unicode Py IDCardToolkit Spec Scan.

Lemma numbered_loop prefix_14 codes acc :
  length prefix_14 = 14%nat -> decimal_digits prefix_14 ->
  (forall i, In i codes -> (0 <= i < 1000)%Z) ->
  for_each codes
    (fun i possible_ids =>
       check ← _calculate_checksum (prefix_14 ++ format_0d 3 i);
       Return (possible_ids ++ [(prefix_14 ++ format_0d 3 i) ++ check]))
    acc
  = Return (acc ++ map (numbered prefix_14) codes).
Proof.
  intros Hlen Hdec. revert acc.
  induction codes as [|i codes IH]; intros acc Hcodes.
  - cbn. now rewrite app_nil_r.
  - cbn [for_each map].
    destruct (format_code i) as (a & b & c & E & Habc & _); [apply Hcodes; now left|].
    rewrite checksum_of_digits.
    + rewrite bind_return, bind_return.
      rewrite IH by (intros j Hj; apply Hcodes; now right).
      now rewrite <- app_assoc.
    + rewrite length_app, Hlen, E. reflexivity.
    + rewrite E. apply decimal_digits_app; [exact Hdec | now apply ascii_decimal_digits].
Qed.

Lemma loop_raises prefix_14 i codes acc :
  (0 <= i < 1000)%Z ->
  ~ (length prefix_14 = 14%nat /\ decimal_digits prefix_14) ->
  for_each (i :: codes)
    (fun i possible_ids =>
       check ← _calculate_checksum (prefix_14 ++ format_0d 3 i);
       Return (possible_ids ++ [(prefix_14 ++ format_0d 3 i) ++ check]))
    acc
  = Raise ValueError.
Proof.
  intros Hi Hnot. cbn [for_each].
  destruct (format_code i Hi) as (a & b & c & E & Habc & _).
  rewrite calculate_checksum, E.
  destruct (length (prefix_14 ++ [a; b; c]) =? 17)%nat eqn:El; [|reflexivity].
  destruct (forallb is_decimal (prefix_14 ++ [a; b; c])) eqn:Ed; [|reflexivity].
  contradiction Hnot. split.
  - apply Nat.eqb_eq in El. rewrite length_app in El. cbn [length] in El. lia.
  - apply forallb_decimal in Ed. now apply decimal_digits_app_inv in Ed as [Ed _].
Qed.

(** Every path through [guess]. *)
Lemma guess_cases self region date gender :
  guess self region date gender
  = match area_codes self !! region with
    | None => Return [py "错误: 无效或不存在的行政区划代码 " ++ region]
    | Some _ =>
        match strptime_Ymd date with
        | Raise _ => Return [py "错误: 无效的出生日期格式 " ++ date ++ py " (应为 YYYYMMDD)"]
        | Return _ =>
            if negb (bool_decide (upper gender ∈ [py "M"; py "F"]))
            then Return [py "错误: 性别必须是 'M' 或 'F'"]
            else if (length (region ++ date) =? 14)%nat && forallb is_decimal (region ++ date)
            then Return (map (numbered (region ++ date))
                           (if bool_decide (upper gender = py "M")
                            then odd_codes else even_codes))
            else Raise ValueError
        end
    end.
Proof.
  unfold guess. destruct (area_codes self !! region) as [name|]; [|reflexivity].
  destruct (strptime_Ymd date) as [born|e] eqn:Eborn.
  2:{ rewrite (strptime_raises date e Eborn). reflexivity. }
  rewrite bind_return, try_except_return, bind_return. cbv zeta.
  destruct (negb (bool_decide (upper gender ∈ [py "M"; py "F"]))); [reflexivity|].
  assert (Hcodes : range (if bool_decide (upper gender = py "M") then 1%Z else 2%Z) 1000 2
                   = if bool_decide (upper gender = py "M") then odd_codes else even_codes).
  { destruct (bool_decide _); [apply range_odd | apply range_even]. }
  rewrite Hcodes.
  assert (Hrange : forall i,
            In i (if bool_decide (upper gender = py "M") then odd_codes else even_codes) ->
            (0 <= i < 1000)%Z).
  { intros i Hi. destruct (bool_decide _);
      [now apply odd_codes_range in Hi | now apply even_codes_range in Hi]. }
  destruct ((length (region ++ date) =? 14)%nat && forallb is_decimal (region ++ date))
    eqn:Eshape.
  - apply andb_true_iff in Eshape as [El Ed]. apply Nat.eqb_eq in El.
    apply forallb_decimal in Ed. now rewrite numbered_loop.
  - assert (Hnot : ~ (length (region ++ date) = 14%nat /\ decimal_digits (region ++ date))).
    { intros [El Ed]. apply Nat.eqb_eq in El. apply decimal_forallb in Ed.
      now rewrite El, Ed in Eshape. }
    revert Hrange. destruct (bool_decide _).
    + destruct odd_codes_head as [rest ->]. intros Hrange.
      apply loop_raises; [apply Hrange; now left | exact Hnot].
    + destruct even_codes_head as [rest ->]. intros Hrange.
      apply loop_raises; [apply Hrange; now left | exact Hnot].
Qed.

Lemma contains_prefix needle rest : contains needle (needle ++ rest) = true.
Proof.
  destruct (needle ++ rest) eqn:E; cbn [contains]; apply orb_true_iff; left;
    apply bool_decide_eq_true; rewrite <- E; now apply prefix_app_r.
Qed.

Lemma contains_absent c needle hay : ~ In c hay -> contains (c :: needle) hay = false.
Proof.
  induction hay as [|h hay IH]; intros Hout; cbn [contains].
  - rewrite orb_false_r. apply bool_decide_eq_false. intros [k Hk]. discriminate Hk.
  - apply orb_false_iff. split.
    + apply bool_decide_eq_false. intros [k Hk]. injection Hk as -> _.
      apply Hout. now left.
    + apply IH. intros Hin. apply Hout. now right.
Qed.

(** A number made of decimal digits and a check character does not hold
    the word the refusals open with. *)
Lemma numbered_not_refusal prefix_14 i :
  decimal_digits prefix_14 -> (0 <= i < 1000)%Z ->
  contains (py "错误") (numbered prefix_14 i) = false.
Proof.
  intros Hdec Hi. change (py "错误") with [0x9519%N; 0x8BEF%N].
  apply contains_absent. unfold numbered. cbv zeta.
  destruct (format_code i Hi) as (a & b & c & -> & Habc & _).
  destruct (check_char_shape digit_value (prefix_14 ++ [a; b; c])) as (ch & -> & Hch & _).
  rewrite !in_app_iff. intros [[Hin|Hin]|[E|[]]]; [| |subst ch].
  - unfold decimal_digits in Hdec. rewrite Forall_forall in Hdec.
    apply list_elem_of_In, Hdec in Hin. discriminate Hin.
  - apply ascii_decimal_digits in Habc. unfold decimal_digits in Habc.
    rewrite Forall_forall in Habc. apply list_elem_of_In, Habc in Hin. discriminate Hin.
  - discriminate Hch.
Qed.

End GuessOutcomes.

Section GuessProperties.
Import Unicode Py IDCardToolkit Spec Scan.

(** X14. When [guess] returns, either it returns one line of refusal,
    for a region code that is no key of the table, else a date
    [strptime] does not read, else a sex that is neither M nor F in
    upper case, and the test of [main_cli] recognises it; or it returns
    the numbers with the odd or the even sequence codes, and the test
    does not take them for a refusal. *)
Theorem guess_refusal_recognised self region date gender results :
  guess self region date gender = Return results ->
  (main_cli_guess_refused results = true /\ length results = 1%nat
   /\ (area_codes self !! region = None
       \/ strptime_Ymd date = Raise ValueError
       \/ upper gender ∉ [py "M"; py "F"]))
  \/ (main_cli_guess_refused results = false
      /\ is_Some (area_codes self !! region)
      /\ (exists born, strptime_Ymd date = Return born)
      /\ upper gender ∈ [py "M"; py "F"]
      /\ results = map (numbered (region ++ date))
                     (if bool_decide (upper gender = py "M")
                      then odd_codes else even_codes)).
Proof.
  rewrite guess_cases.
  destruct (area_codes self !! region) as [name|] eqn:Eregion.
  2:{ intros [= <-]. left. split; [|split; [reflexivity | now left]].
      exact (contains_prefix (py "错误") (py ": 无效或不存在的行政区划代码 " ++ region)). }
  destruct (strptime_Ymd date) as [born|e] eqn:Eborn.
  2:{ intros [= <-]. left. split; [|split; [reflexivity|]].
      - exact (contains_prefix (py "错误")
                 (py ": 无效的出生日期格式 " ++ date ++ py " (应为 YYYYMMDD)")).
      - right. left. now rewrite (strptime_raises date e Eborn). }
  destruct (bool_decide (upper gender ∈ [py "M"; py "F"])) eqn:Esex; cbn [negb].
  2:{ intros [= <-]. left. split; [|split; [reflexivity|]].
      - vm_compute. reflexivity.
      - right. right. now apply bool_decide_eq_false in Esex. }
  apply bool_decide_eq_true in Esex.
  destruct ((length (region ++ date) =? 14)%nat && forallb is_decimal (region ++ date))
    eqn:Eshape; [|discriminate].
  apply andb_true_iff in Eshape as [_ Ed]. apply forallb_decimal in Ed.
  intros [= <-]. right. split; [|eauto 10].
  destruct (bool_decide (upper gender = py "M")).
  - destruct odd_codes_head as [rest ->]. cbn [map main_cli_guess_refused].
    apply numbered_not_refusal; [exact Ed | lia].
  - destruct even_codes_head as [rest ->]. cbn [map main_cli_guess_refused].
    apply numbered_not_refusal; [exact Ed | lia].
Qed.

Lemma guess_refusal_recognised_witness :
  (main_cli_guess_refused [py "错误: 性别必须是 'M' 或 'F'"] = true
   /\ length [py "错误: 性别必须是 'M' 或 'F'"] = 1%nat
   /\ (area_codes Sample.toolkit !! py "110105" = None
       \/ strptime_Ymd (py "19900307") = Raise ValueError
       \/ upper (py "x") ∉ [py "M"; py "F"]))
  \/ (main_cli_guess_refused [py "错误: 性别必须是 'M' 或 'F'"] = false
      /\ is_Some (area_codes Sample.toolkit !! py "110105")
      /\ (exists born, strptime_Ymd (py "19900307") = Return born)
      /\ upper (py "x") ∈ [py "M"; py "F"]
      /\ [py "错误: 性别必须是 'M' 或 'F'"]
         = map (numbered (py "110105" ++ py "19900307"))
             (if bool_decide (upper (py "x") = py "M") then odd_codes else even_codes)).
Proof.
  apply (guess_refusal_recognised Sample.toolkit (py "110105") (py "19900307") (py "x")).
  vm_compute. reflexivity.
Defined.

(** X15. [guess] raises only [ValueError], and exactly when the region
    code is a key of the table, [strptime] reads the date and the sex is
    M or F in upper case, but region code and date together are not
    fourteen decimal digits. *)
Theorem guess_raises_iff self region date gender :
  (forall e, guess self region date gender = Raise e -> e = ValueError)
  /\ (guess self region date gender = Raise ValueError
      <-> is_Some (area_codes self !! region)
          /\ (exists born, strptime_Ymd date = Return born)
          /\ upper gender ∈ [py "M"; py "F"]
          /\ ~ (length (region ++ date) = 14%nat /\ decimal_digits (region ++ date))).
Proof.
  rewrite guess_cases.
  destruct (area_codes self !! region) as [name|] eqn:Eregion.
  2:{ split; [discriminate|]. split; [discriminate|]. intros ([? H] & _). discriminate H. }
  destruct (strptime_Ymd date) as [born|e0] eqn:Eborn.
  2:{ split; [discriminate|]. split; [discriminate|]. intros (_ & [? H] & _). discriminate H. }
  destruct (bool_decide (upper gender ∈ [py "M"; py "F"])) eqn:Esex; cbn [negb].
  2:{ apply bool_decide_eq_false in Esex.
      split; [discriminate|]. split; [discriminate|]. intros (_ & _ & H & _). contradiction. }
  apply bool_decide_eq_true in Esex.
  destruct ((length (region ++ date) =? 14)%nat && forallb is_decimal (region ++ date))
    eqn:Eshape.
  - apply andb_true_iff in Eshape as [El Ed]. apply Nat.eqb_eq in El.
    apply forallb_decimal in Ed.
    split; [discriminate|]. split; [discriminate|]. intros (_ & _ & _ & H). now contradiction H.
  - split; [now intros e [= <-]|]. split; [|reflexivity]. intros _.
    split; [eauto|]. split; [eauto|]. split; [exact Esex|].
    intros [El Ed]. apply Nat.eqb_eq in El. apply decimal_forallb in Ed.
    now rewrite El, Ed in Eshape.
Qed.

Lemma number_three_digits a b c :
  ascii_digits [a; b; c] ->
  (0 <= number [a; b; c] < 1000)%Z /\ format_0d 3 (number [a; b; c]) = [a; b; c].
Proof.
  intros H. pose proof H as H0.
  apply Forall_cons in H0 as [Ha H0]. apply Forall_cons in H0 as [Hb H0].
  apply Forall_cons in H0 as [Hc _].
  apply ascii_digit_range in Ha, Hb, Hc.
  assert (Hv : (number [a; b; c]
                = (Z.of_N a - 48) * 100 + (Z.of_N b - 48) * 10 + (Z.of_N c - 48))%Z).
  { unfold number, ascii_value. cbn [fold_left]. lia. }
  assert (Hr : (0 <= number [a; b; c] < 1000)%Z) by lia.
  split; [exact Hr|].
  destruct (format_code _ Hr) as (a' & b' & c' & -> & H' & Hint & _).
  rewrite int_ascii_digits in Hint by (discriminate || exact H').
  injection Hint as Hint.
  apply Forall_cons in H' as [Ha' H']. apply Forall_cons in H' as [Hb' H'].
  apply Forall_cons in H' as [Hc' _].
  apply ascii_digit_range in Ha', Hb', Hc'.
  assert (Hv' : (number [a'; b'; c']
                 = (Z.of_N a' - 48) * 100 + (Z.of_N b' - 48) * 10 + (Z.of_N c' - 48))%Z).
  { unfold number, ascii_value. cbn [fold_left]. lia. }
  assert (a' = a /\ b' = b /\ c' = c) as (-> & -> & ->) by lia. reflexivity.
Qed.

Lemma In_odd_codes i : (0 <= i < 1000)%Z -> Z.odd i = true -> In i odd_codes.
Proof.
  intros Hi Ho. apply in_map_iff. exists (Z.to_nat ((i - 1) / 2)).
  apply Z.odd_spec in Ho as [m ->].
  split; [|apply in_seq]; Z.div_mod_to_equations; lia.
Qed.

Lemma In_even_codes i : (0 < i < 1000)%Z -> Z.odd i = false -> In i even_codes.
Proof.
  intros Hi Ho. apply in_map_iff. exists (Z.to_nat ((i - 2) / 2)).
  rewrite <- Z.negb_even in Ho. apply negb_false_iff in Ho.
  apply Z.even_spec in Ho as [m ->].
  split; [|apply in_seq]; Z.div_mod_to_equations; lia.
Qed.

(** X16. A number of ASCII digits and [X] that [validate] accepts and
    whose sequence code is not 000 is among the numbers [guess] returns
    for its first six characters, its characters 6 to 13 and the sex
    that goes with its sequence code. *)
Theorem guess_finds_accepted self now id :
  plain id -> is_accepted self now id = true ->
  number (slice 14 17 id) <> 0%Z ->
  exists ids,
    guess self (slice 0 6 id) (slice 6 14 id)
      (if Z.odd (number (slice 14 17 id)) then py "M" else py "F") = Return ids
    /\ id ∈ ids.
Proof.
  intros Hplain Ha Hseq. pose proof (accepted_checks self now id Ha) as Hchecks.
  rewrite (plain_normal id Hplain) in Hchecks.
  destruct Hchecks as (Hlen & Hd & [name Hregion] & (born & Hborn & _) & Hk).
  assert (Hid : id = take 17 id ++ check_char digit_value (take 17 id)).
  { rewrite <- Hk. symmetry. apply take_drop. }
  assert (Hascii : ascii_digits (take 17 id)).
  { apply Forall_forall. intros c Hc. apply subseteq_take in Hc as Hc'.
    unfold plain in Hplain. rewrite Forall_forall in Hplain. apply Hplain in Hc'.
    rewrite forallb_forall in Hd. apply list_elem_of_In, Hd in Hc.
    apply orb_true_iff in Hc' as [Hc'|Hc']; [exact Hc'|].
    apply N.eqb_eq in Hc'. subst c. discriminate Hc. }
  assert (Hp : length (take 17 id) = 17%nat) by (rewrite length_take; lia).
  pose proof (eq_sym (take_drop 17 id)) as E.
  clear Hk Hd Ha Hplain Hlen.
  revert Hid Hregion Hborn Hseq Hascii Hp E. generalize (take 17 id), (drop 17 id).
  intros p rest Hid Hregion Hborn Hseq Hascii Hp E. subst id.
  do 18 (destruct p as [|? p]; try discriminate Hp).
  cbn [app slice take drop Nat.sub] in *. rewrite ?take_0 in *.
  assert (H3 : ascii_digits [n13; n14; n15]).
  { do 14 (apply Forall_cons in Hascii as [_ Hascii]). exact Hascii. }
  destruct (number_three_digits _ _ _ H3) as [Hr Hfmt].
  rewrite guess_cases, Hregion, Hborn.
  assert (Hsex : upper (if Z.odd (number [n13; n14; n15]) then py "M" else py "F")
                 = (if Z.odd (number [n13; n14; n15]) then py "M" else py "F")).
  { destruct (Z.odd _); reflexivity. }
  rewrite Hsex.
  replace (bool_decide ((if Z.odd (number [n13; n14; n15]) then py "M" else py "F")
                        ∈ [py "M"; py "F"])) with true
    by (destruct (Z.odd _); reflexivity).
  cbn [negb]. change (length _ =? 14)%nat with true. cbn [andb].
  rewrite decimal_forallb.
  2:{ apply ascii_decimal_digits. apply Forall_forall. intros c Hc.
      unfold ascii_digits in Hascii. rewrite Forall_forall in Hascii. apply Hascii.
      change ([n; n0; n1; n2; n3; n4; n5; n6; n7; n8; n9; n10; n11; n12; n13; n14; n15])
        with ([n; n0; n1; n2; n3; n4] ++ [n5; n6; n7; n8; n9; n10; n11; n12] ++ [n13; n14; n15]).
      rewrite app_assoc. apply elem_of_app. now left. }
  eexists. split; [reflexivity|].
  apply list_elem_of_In, in_map_iff. exists (number [n13; n14; n15]). split.
  - unfold numbered. cbv zeta. rewrite Hfmt. reflexivity.
  - destruct (Z.odd (number [n13; n14; n15])) eqn:Eodd.
    + change (bool_decide (py "M" = py "M")) with true. cbv iota.
      now apply In_odd_codes.
    + change (bool_decide (py "F" = py "M")) with false. cbv iota.
      apply In_even_codes; [lia | exact Eodd].
Qed.

Lemma guess_finds_accepted_witness :
  exists ids,
    guess Sample.toolkit (slice 0 6 (py "11010519491231002X"))
      (slice 6 14 (py "11010519491231002X"))
      (if Z.odd (number (slice 14 17 (py "11010519491231002X"))) then py "M" else py "F")
    = Return ids
    /\ py "11010519491231002X" ∈ ids.
Proof.
  apply (guess_finds_accepted Sample.toolkit Sample.now (py "11010519491231002X")).
  - apply forallb_plain. vm_compute. reflexivity.
  - vm_compute. reflexivity.
  - vm_compute. discriminate.
Defined.

End GuessProperties.

(** ** The summary of the sample analysis *)

Section AnalysisShape.
Import Unicode Py IDCardToolkit Spec Scan.

(** A returned analysis, part by part. *)
Lemma analysis_shape self now ids a :
  analyze_population_sample self now ids = Return a ->
  summary a = {| total_records := len ids;
                 valid_records := len (List.filter (is_accepted self now) ids);
                 invalid_records := len (refused self now ids) |}
  /\ invalid_details a = refused self now ids
  /\ exists stats,
       for_each (List.filter (is_accepted self now) ids)
         (fun id_number (stats : dict (str * str) bucket) =>
            let key := (slice 0 6 id_number, slice 6 14 id_number) in
            seq ← int (slice 14 17 id_number);
            let data := stats_get key stats in
            if negb (seq mod 2 =? 0)%Z then
              Return (dict_set key (Bucket (male_seqs data ++ [seq]) (female_seqs data)) stats)
            else
              Return (dict_set key (Bucket (male_seqs data) (female_seqs data ++ [seq])) stats))
         [] = Return stats
       /\ analysis_report a
          = fold_left (fun report (entry : (str * str) * bucket) =>
                         dict_set (label_of self entry.1) (entry_of entry.2) report)
              stats [].
Proof.
  unfold analyze_population_sample. rewrite loop_validate, bind_return. cbn [app].
  match goal with
  | |- context [for_each (List.filter (is_accepted self now) ids) ?body []] =>
      destruct (for_each (List.filter (is_accepted self now) ids) body [])
        as [stats|e] eqn:E
  end; [|discriminate].
  rewrite bind_return, loop_report, bind_return. intros [= <-].
  split; [reflexivity|]. split; [reflexivity|]. exists stats. split; reflexivity.
Qed.

Lemma accepted_or_refused self now id :
  (is_accepted self now id = true
   /\ validate self now id = Return (true, py "身份证号码有效"))
  \/ (is_accepted self now id = false
      /\ exists reason, validate self now id = Return (false, reason)).
Proof.
  unfold is_accepted. rewrite validate_first_failure. unfold verdict.
  destruct (first_failure _ _) as [reason|]; [right | left]; eauto.
Qed.

Lemma refused_numbers self now ids :
  map fst (refused self now ids)
  = List.filter (fun id => negb (is_accepted self now id)) ids.
Proof.
  induction ids as [|id ids IH]; [reflexivity|].
  unfold refused in *. cbn [flat_map List.filter]. rewrite map_app, IH.
  destruct (accepted_or_refused self now id) as [[-> ->]|[-> [reason ->]]]; reflexivity.
Qed.

Lemma refused_reasons self now ids id reason :
  In (id, reason) (refused self now ids) ->
  In id ids /\ validate self now id = Return (false, reason).
Proof.
  unfold refused. rewrite in_flat_map. intros (x & Hx & Hin).
  destruct (validate self now x) as [[[] r]|] eqn:E; [destruct Hin| |destruct Hin].
  destruct Hin as [[= <- <-]|[]]. now split.
Qed.

Lemma accepted_not_refused self now ids :
  refused self now (List.filter (is_accepted self now) ids) = [].
Proof.
  induction ids as [|id ids IH]; [reflexivity|]. cbn [List.filter].
  destruct (accepted_or_refused self now id) as [[Ha Hv]|[Ha _]]; rewrite Ha; [|exact IH].
  unfold refused in *. cbn [flat_map]. now rewrite Hv, IH.
Qed.

Lemma filter_twice {A} (f : A -> bool) l : List.filter f (List.filter f l) = List.filter f l.
Proof.
  induction l as [|x l IH]; [reflexivity|]. cbn [List.filter].
  destruct (f x) eqn:E; [|exact IH]. cbn [List.filter]. now rewrite E, IH.
Qed.

Lemma accepted_and_refused_count self now ids :
  (len ids = len (List.filter (is_accepted self now) ids) + len (refused self now ids))%Z.
Proof.
  unfold len. induction ids as [|id ids IH]; [reflexivity|].
  unfold refused in *. cbn [flat_map List.filter]. rewrite length_app.
  destruct (accepted_or_refused self now id) as [[-> ->]|[-> [reason ->]]];
    cbn [length app] in *; lia.
Qed.

End AnalysisShape.

Section AnalysisProperties.
Import Unicode Py IDCardToolkit Spec Scan.

(** X17. In a returned analysis the records counted valid are the
    numbers [validate] accepts and the total is the length of the list
    and the sum of valid and invalid; the invalid details are the
    numbers [validate] refuses, in the order of the list, each with the
    reason [validate] gives. *)
Theorem analysis_counts self now ids a :
  analyze_population_sample self now ids = Return a ->
  total_records (summary a) = len ids
  /\ valid_records (summary a) = len (List.filter (is_accepted self now) ids)
  /\ invalid_records (summary a) = len (invalid_details a)
  /\ (total_records (summary a)
      = valid_records (summary a) + invalid_records (summary a))%Z
  /\ map fst (invalid_details a)
     = List.filter (fun id => negb (is_accepted self now id)) ids
  /\ (forall id reason, In (id, reason) (invalid_details a) ->
        validate self now id = Return (false, reason)).
Proof.
  intros Ha. destruct (analysis_shape self now ids a Ha) as (-> & -> & _).
  cbn [total_records valid_records invalid_records].
  split; [reflexivity|]. split; [reflexivity|]. split; [reflexivity|].
  split; [apply accepted_and_refused_count|]. split; [apply refused_numbers|].
  intros id reason Hin. now apply refused_reasons in Hin.
Qed.

Lemma analysis_counts_witness :
  exists a,
    analyze_population_sample Sample.toolkit Sample.now [py "11010519491231002X"; py "123"]
    = Return a
    /\ total_records (summary a) = 2%Z
    /\ valid_records (summary a) = 1%Z
    /\ invalid_records (summary a) = 1%Z.
Proof.
  eexists. split; [vm_compute; reflexivity|].
  match goal with
  | |- total_records (summary ?a) = _ /\ _ =>
      destruct (analysis_counts Sample.toolkit Sample.now
                  [py "11010519491231002X"; py "123"] a)
        as (Htotal & Hvalid & Hinvalid & _)
  end.
  - vm_compute. reflexivity.
  - rewrite Htotal, Hvalid, Hinvalid. repeat split.
Defined.

(** X18. The report of a returned analysis is that of the accepted
    numbers alone: analysing only them returns the same report, and no
    invalid detail. *)
Theorem analysis_of_accepted_alone self now ids a :
  analyze_population_sample self now ids = Return a ->
  exists a',
    analyze_population_sample self now (List.filter (is_accepted self now) ids) = Return a'
    /\ analysis_report a' = analysis_report a
    /\ invalid_details a' = []
    /\ valid_records (summary a') = valid_records (summary a)
    /\ total_records (summary a') = valid_records (summary a).
Proof.
  intros Ha. destruct (analysis_shape self now ids a Ha) as (Hs & _ & stats & Hloop & Hr).
  unfold analyze_population_sample.
  rewrite loop_validate, bind_return. cbn [app]. rewrite filter_twice.
  match goal with
  | |- context [for_each (List.filter (is_accepted self now) ids) ?body []] =>
      change (for_each (List.filter (is_accepted self now) ids) body [])
        with (for_each (List.filter (is_accepted self now) ids)
                (fun id_number (stats : dict (str * str) bucket) =>
                   let key := (slice 0 6 id_number, slice 6 14 id_number) in
                   seq ← int (slice 14 17 id_number);
                   let data := stats_get key stats in
                   if negb (seq mod 2 =? 0)%Z then
                     Return (dict_set key (Bucket (male_seqs data ++ [seq]) (female_seqs data)) stats)
                   else
                     Return (dict_set key (Bucket (male_seqs data) (female_seqs data ++ [seq])) stats))
                [])
  end.
  rewrite Hloop, bind_return, loop_report, bind_return.
  eexists. split; [reflexivity|]. cbn [analysis_report invalid_details summary
                                        valid_records total_records].
  rewrite Hs, Hr, accepted_not_refused. cbn [valid_records]. now repeat split.
Qed.

Lemma analysis_of_accepted_alone_witness :
  exists a a',
    analyze_population_sample Sample.toolkit Sample.now [py "11010519491231002X"; py "123"]
    = Return a
    /\ analyze_population_sample Sample.toolkit Sample.now
         (List.filter (is_accepted Sample.toolkit Sample.now)
            [py "11010519491231002X"; py "123"]) = Return a'
    /\ analysis_report a' = analysis_report a
    /\ invalid_details a' = [].
Proof.
  eexists. 
  match goal with
  | |- exists a', analyze_population_sample _ _ _ = Return ?a /\ _ =>
      assert (Ha : analyze_population_sample Sample.toolkit Sample.now
                     [py "11010519491231002X"; py "123"] = Return a)
        by (vm_compute; reflexivity);
      destruct (analysis_of_accepted_alone Sample.toolkit Sample.now
                  [py "11010519491231002X"; py "123"] a Ha)
        as (a' & Ha' & Hreport & Hinvalid & _)
  end.
  exists a'. repeat split; assumption.
Defined.

(** X19. The list [main_cli] reads from the lines of a file holds the
    lines that are not blank, stripped: none of them starts or ends with
    white space, so that [analyze_population_sample] returns on it.
    Nothing is analysed exactly when every line is blank. *)
Theorem main_cli_analysis_returns self now lines :
  Forall trimmed (main_cli_id_list lines)
  /\ (main_cli_analysis self now lines = None
      <-> Forall (fun line => strip line = []) lines)
  /\ (forall result, main_cli_analysis self now lines = Some result ->
        exists a, result = Return a
                  /\ total_records (summary a) = len (main_cli_id_list lines)).
Proof.
  assert (Htrim : Forall trimmed (main_cli_id_list lines)).
  { unfold main_cli_id_list. apply Forall_forall. intros id Hid.
    apply list_elem_of_In, in_map_iff in Hid as (line & <- & _). apply strip_trimmed. }
  split; [exact Htrim|]. split.
  - unfold main_cli_analysis, main_cli_id_list. split.
    + intros H. apply Forall_forall. intros line Hline.
      destruct (strip line) as [|c rest] eqn:E; [reflexivity|]. exfalso.
      assert (Hin : In (strip line)
                (map strip (List.filter (fun line => negb (bool_decide (strip line = [])))
                              lines))).
      { apply in_map. apply filter_In. split; [now apply list_elem_of_In|].
        rewrite E. reflexivity. }
      destruct (map strip _); [destruct Hin | discriminate H].
    + intros H. replace (List.filter _ lines) with (@nil str); [reflexivity|].
      symmetry. clear Htrim. induction H as [|line lines Hline _ IH]; [reflexivity|].
      cbn [List.filter]. rewrite Hline, bool_decide_eq_true_2 by reflexivity. exact IH.
  - intros result. unfold main_cli_analysis.
    destruct (main_cli_id_list lines) as [|id ids] eqn:E; [discriminate|].
    intros [= <-]. rewrite <- E in *.
    destruct (analysis_returns self now (main_cli_id_list lines)) as [a Ha].
    { intros x Hx Hacc. apply (accepted_sequence_read self now x Hacc).
      rewrite Forall_forall in Htrim. now apply list_elem_of_In, Htrim in Hx as [Hx _]. }
    exists a. split; [exact Ha|].
    now destruct (analysis_shape self now _ a Ha) as (-> & _).
Qed.

End AnalysisProperties.

(** ** When [parse] and the analysis raise *)

Section Raising.
Import Unicode Py IDCardToolkit Spec Scan.

(** A string whose upper-case form is digits and [X] is as long as that
    form. *)
Lemma upper_same_length core :
  forallb (fun d => is_digit d || (d =? 0x58)%N) (upper core) = true ->
  length (upper core) = length core.
Proof.
  induction core as [|c core IH]; [reflexivity|].
  change (upper (c :: core)) with (to_upper_full c ++ upper core).
  rewrite forallb_app, length_app. intros H. apply andb_true_iff in H as [Hc Hcore].
  rewrite (IH Hcore). cbn [length]. f_equal.
  pose proof (image_of_digits c Hc) as H.
  apply orb_true_iff in H as [H|H]; [apply orb_true_iff in H as [H|H]|].
  - now destruct (digit_fixed c H) as [-> _].
  - apply N.eqb_eq in H. now subst c.
  - apply N.eqb_eq in H. now subst c.
Qed.

(** An accepted number has eighteen characters at least. *)
Lemma accepted_length self now id :
  is_accepted self now id = true -> (18 <= length id)%nat.
Proof.
  intros Ha. destruct (accepted_normal self now id Ha) as (p & c & E & Hlen & Hp & Hc).
  assert (Hall : forallb (fun d => is_digit d || (d =? 0x58)%N) (upper (strip id)) = true).
  { rewrite E, forallb_app. apply andb_true_iff. split.
    - rewrite forallb_forall in *. intros d Hd.
      now rewrite (decimal_is_digit d (Hp d Hd)).
    - cbn. now rewrite Hc. }
  apply upper_same_length in Hall. rewrite E, length_app, Hlen in Hall. cbn [length] in Hall.
  unfold strip in Hall.
  destruct (lstrip_decomp id) as (l & Hid & _).
  destruct (rstrip_decomp (lstrip id)) as (r & Hcore & _).
  rewrite Hid, Hcore, !length_app. lia.
Qed.

Lemma loop_group_raises valid : forall stats e,
  for_each valid
    (fun id_number (stats : dict (str * str) bucket) =>
       let key := (slice 0 6 id_number, slice 6 14 id_number) in
       seq ← int (slice 14 17 id_number);
       let data := stats_get key stats in
       if negb (seq mod 2 =? 0)%Z then
         Return (dict_set key (Bucket (male_seqs data ++ [seq]) (female_seqs data)) stats)
       else
         Return (dict_set key (Bucket (male_seqs data) (female_seqs data ++ [seq])) stats))
    stats = Raise e ->
  exists id, In id valid /\ sequence_number id = Raise e.
Proof.
  induction valid as [|id valid IH]; intros stats e; [discriminate|].
  cbn [for_each]. cbv zeta. unfold sequence_number.
  destruct (int (slice 14 17 id)) as [v|e'] eqn:E.
  - rewrite bind_return. destruct (negb (v mod 2 =? 0)%Z); rewrite bind_return;
      intros H; apply IH in H as (x & Hx & Hr); exists x; (split; [now right | exact Hr]).
  - rewrite bind_raise. intros [= <-]. exists id. split; [now left | exact E].
Qed.

End Raising.

Section RaisingProperties.
Import Unicode Py IDCardToolkit Spec Scan.

(** X20. [parse] reports a number [validate] refuses as invalid, with
    the reason [validate] gives. It raises nothing but [ValueError], and
    only for a number [validate] accepts that starts with white space. *)
Theorem parse_outcomes self now today id :
  (forall reason, validate self now id = Return (false, reason) ->
     parse self now today id = Return (Invalid reason))
  /\ (forall e, parse self now today id = Raise e ->
        e = ValueError /\ is_accepted self now id = true /\ ~ starts_clean id).
Proof.
  split.
  - intros reason Hv. unfold parse. now rewrite Hv.
  - intros e Hraise.
    destruct (accepted_or_refused self now id) as [[Ha Hv]|[Ha [reason Hv]]].
    2:{ unfold parse in Hraise. rewrite Hv in Hraise. discriminate Hraise. }
    split; [|split; [exact Ha|]].
    + pose proof (accepted_length self now id Ha) as Hlen.
      unfold parse in Hraise. rewrite Hv, bind_return in Hraise. cbn [negb] in Hraise.
      cbv zeta in Hraise.
      destruct (strptime_Ymd (slice 6 14 id)) as [born|e1] eqn:E1.
      2:{ rewrite bind_raise in Hraise. injection Hraise as <-.
          now apply strptime_raises in E1. }
      rewrite bind_return in Hraise.
      destruct (int (slice 14 17 id)) as [v|e2] eqn:E2.
      2:{ rewrite bind_raise in Hraise. injection Hraise as <-.
          now apply int_raises in E2. }
      rewrite bind_return in Hraise. unfold item, last_item in Hraise.
      destruct (id !! 16%nat) as [c|] eqn:E3.
      2:{ apply lookup_ge_None in E3. lia. }
      rewrite bind_return in Hraise.
      destruct (int [c]) as [w|e4] eqn:E4.
      2:{ rewrite bind_raise in Hraise. injection Hraise as <-.
          now apply int_raises in E4. }
      rewrite bind_return in Hraise.
      destruct (last id) as [final|] eqn:E5.
      2:{ apply last_None in E5. subst id. cbn in Hlen. lia. }
      rewrite bind_return in Hraise. discriminate Hraise.
    + intros Hclean.
      destruct (parse_of_accepted self now today id Ha Hclean)
        as (? & ? & ? & ? & _ & _ & _ & _ & _ & _ & _ & _ & Hparse).
      rewrite Hparse in Hraise. discriminate Hraise.
Qed.

(** X21. [analyze_population_sample] raises nothing but [ValueError],
    and only when the list holds a number [validate] accepts that starts
    with white space. *)
Theorem analysis_raises_only_on_padded self now ids e :
  analyze_population_sample self now ids = Raise e ->
  e = ValueError
  /\ exists id, In id ids /\ is_accepted self now id = true /\ ~ starts_clean id.
Proof.
  unfold analyze_population_sample. rewrite loop_validate, bind_return. cbn [app].
  match goal with
  | |- context [for_each (List.filter (is_accepted self now) ids) ?body []] =>
      destruct (for_each (List.filter (is_accepted self now) ids) body [])
        as [stats|e'] eqn:E
  end.
  - rewrite bind_return, loop_report, bind_return. discriminate.
  - rewrite bind_raise. intros [= <-].
    apply loop_group_raises in E as (id & Hid & Hraise).
    apply filter_In in Hid as [Hid Ha].
    split; [now apply int_raises in Hraise|].
    exists id. split; [exact Hid|]. split; [exact Ha|].
    intros Hclean. destruct (accepted_sequence_read self now id Ha Hclean) as [v Hv].
    rewrite Hv in Hraise. discriminate Hraise.
Qed.

Lemma analysis_raises_only_on_padded_witness :
  ValueError = ValueError
  /\ exists id,
       In id [py "11010519491231002X"; py "                 11010519491231002X"]
       /\ is_accepted Sample.toolkit Sample.now id = true /\ ~ starts_clean id.
Proof.
  apply (analysis_raises_only_on_padded Sample.toolkit Sample.now
           [py "11010519491231002X"; py "                 11010519491231002X"]).
  vm_compute. reflexivity.
Defined.

End RaisingProperties.

(** ** The order of the sample *)

Section SampleOrder.
Import Unicode Py IDCardToolkit Spec Scan.

Lemma filter_permutation {A} (f : A -> bool) l l' :
  Permutation l l' -> Permutation (List.filter f l) (List.filter f l').
Proof.
  induction 1 as [|x l l' _ IH|x y l|l l' l'' _ IH1 _ IH2]; cbn [List.filter].
  - constructor.
  - destruct (f x); [now constructor | exact IH].
  - destruct (f x), (f y); try reflexivity. apply perm_swap.
  - now transitivity (List.filter f l').
Qed.

Lemma flat_map_permutation {A B} (g : A -> list B) l l' :
  Permutation l l' -> Permutation (flat_map g l) (flat_map g l').
Proof.
  induction 1 as [|x l l' _ IH|x y l|l l' l'' _ IH1 _ IH2]; cbn [flat_map].
  - constructor.
  - now apply Permutation_app_head.
  - rewrite !app_assoc. apply Permutation_app_tail, Permutation_app_comm.
  - now transitivity (flat_map g l').
Qed.

(** The largest value of a list, as the code folds it. *)
Lemma fold_max_spec rest : forall v,
  (fold_left Z.max rest v = v \/ In (fold_left Z.max rest v) rest)
  /\ (v <= fold_left Z.max rest v)%Z
  /\ (forall x, In x rest -> (x <= fold_left Z.max rest v)%Z).
Proof.
  induction rest as [|y rest IH]; intros v; cbn [fold_left].
  - split; [now left|]. split; [lia | intros x []].
  - destruct (IH (Z.max v y)) as (Hin & Hge & Hall). split; [|split].
    + destruct Hin as [Hin|Hin]; [|right; now right].
      rewrite Hin. destruct (Z.max_spec v y) as [[_ ->]|[_ ->]]; [right; now left | now left].
    + lia.
    + intros x [<-|Hx]; [lia | now apply Hall].
Qed.

Lemma largest_permutation (l l' : list Z) :
  Permutation l l' ->
  match l with [] => 0%Z | v :: rest => fold_left Z.max rest v end
  = match l' with [] => 0%Z | v :: rest => fold_left Z.max rest v end.
Proof.
  intros Hp. destruct l as [|v rest], l' as [|v' rest'].
  - reflexivity.
  - now apply Permutation_nil in Hp.
  - symmetry in Hp. now apply Permutation_nil in Hp.
  - destruct (fold_max_spec rest v) as (Hin & Hge & Hall).
    destruct (fold_max_spec rest' v') as (Hin' & Hge' & Hall').
    assert (Hm : In (fold_left Z.max rest v) (v' :: rest')).
    { apply (Permutation_in _ Hp). destruct Hin as [->|Hin]; [now left | now right]. }
    assert (Hm' : In (fold_left Z.max rest' v') (v :: rest)).
    { apply (Permutation_in _ (Permutation_sym Hp)).
      destruct Hin' as [->|Hin']; [now left | now right]. }
    assert (fold_left Z.max rest v <= fold_left Z.max rest' v')%Z
      by (destruct Hm as [<-|Hm]; [exact Hge' | now apply Hall']).
    assert (fold_left Z.max rest' v' <= fold_left Z.max rest v)%Z
      by (destruct Hm' as [<-|Hm']; [exact Hge | now apply Hall]).
    lia.
Qed.

Lemma estimate_permutation self now ids ids' key :
  Permutation ids ids' ->
  estimate_of self now ids key = estimate_of self now ids' key.
Proof.
  intros Hp.
  assert (Hobs : Permutation (observed self now ids key) (observed self now ids' key)).
  { unfold observed, sequences. now apply flat_map_permutation, filter_permutation. }
  unfold estimate_of. cbv zeta.
  pose proof (filter_permutation is_odd _ _ Hobs) as Hm.
  pose proof (filter_permutation (fun v => negb (is_odd v)) _ _ Hobs) as Hf.
  unfold len. rewrite (Permutation_length Hm), (Permutation_length Hf).
  assert (Em : males_estimate (List.filter is_odd (observed self now ids key))
               = males_estimate (List.filter is_odd (observed self now ids' key))).
  { pose proof (largest_permutation _ _ Hm) as E. unfold males_estimate.
    destruct (List.filter is_odd (observed self now ids key)),
             (List.filter is_odd (observed self now ids' key));
      try reflexivity; try discriminate E;
      try (now apply Permutation_nil in Hm);
      try (symmetry in Hm; now apply Permutation_nil in Hm).
    now rewrite E. }
  assert (Ef : females_estimate (List.filter (fun v => negb (is_odd v))
                                   (observed self now ids key))
               = females_estimate (List.filter (fun v => negb (is_odd v))
                                     (observed self now ids' key))).
  { pose proof (largest_permutation _ _ Hf) as E. unfold females_estimate.
    destruct (List.filter (fun v => negb (is_odd v)) (observed self now ids key)),
             (List.filter (fun v => negb (is_odd v)) (observed self now ids' key));
      try reflexivity;
      try (now apply Permutation_nil in Hf);
      try (symmetry in Hf; now apply Permutation_nil in Hf).
    now rewrite E. }
  now rewrite Em, Ef.
Qed.

(** The entry under the label of a bucket that alone bears it. *)
Lemma report_own_entry self now ids a id :
  analyze_population_sample self now ids = Return a ->
  In id ids -> is_accepted self now id = true ->
  (forall id', In id' ids -> is_accepted self now id' = true ->
     label_of self (key_of id') = label_of self (key_of id) -> key_of id' = key_of id) ->
  dict_get (label_of self (key_of id)) (analysis_report a)
  = Some (estimate_of self now ids (key_of id)).
Proof.
  intros Ha Hid Hacc Huniq.
  pose proof (report_covers self now ids a id Ha Hid Hacc) as Hne.
  destruct (dict_get (label_of self (key_of id)) (analysis_report a)) as [e|] eqn:E;
    [|congruence].
  destruct (report_entry self now ids a _ e Ha E) as (id' & Hid' & Hacc' & Hl & ->).
  now rewrite (Huniq id' Hid' Hacc' (eq_sym Hl)).
Qed.

Lemma loop_group_reads valid : forall stats stats',
  for_each valid
    (fun id_number (stats : dict (str * str) bucket) =>
       let key := (slice 0 6 id_number, slice 6 14 id_number) in
       seq ← int (slice 14 17 id_number);
       let data := stats_get key stats in
       if negb (seq mod 2 =? 0)%Z then
         Return (dict_set key (Bucket (male_seqs data ++ [seq]) (female_seqs data)) stats)
       else
         Return (dict_set key (Bucket (male_seqs data) (female_seqs data ++ [seq])) stats))
    stats = Return stats' ->
  forall id, In id valid -> exists v, sequence_number id = Return v.
Proof.
  induction valid as [|x valid IH]; intros stats stats' H id; [intros []|].
  cbn [for_each] in H. cbv zeta in H. unfold sequence_number.
  destruct (int (slice 14 17 x)) as [v|e] eqn:E; [|discriminate H].
  rewrite bind_return in H. intros [<-|Hid]; [eauto|].
  destruct (negb (v mod 2 =? 0)%Z); rewrite bind_return in H;
    exact (IH _ _ H id Hid).
Qed.

End SampleOrder.

Section SampleOrderProperties.
Import Unicode Py IDCardToolkit Spec Scan.

(** X22. The analysis of the same numbers in another order returns when
    that of the list does, with the same summary, and with the same
    entry under the label of every bucket that alone bears its label. *)
Theorem analysis_order_independent self now ids ids' a :
  Permutation ids ids' ->
  analyze_population_sample self now ids = Return a ->
  exists a',
    analyze_population_sample self now ids' = Return a'
    /\ summary a' = summary a
    /\ forall id, In id ids -> is_accepted self now id = true ->
         (forall id', In id' ids -> is_accepted self now id' = true ->
            label_of self (key_of id') = label_of self (key_of id) ->
            key_of id' = key_of id) ->
         dict_get (label_of self (key_of id)) (analysis_report a')
         = dict_get (label_of self (key_of id)) (analysis_report a).
Proof.
  intros Hp Ha.
  destruct (analysis_shape self now ids a Ha) as (Hs & _ & stats & Hloop & _).
  destruct (analysis_returns self now ids') as [a' Ha'].
  { intros id Hid Hacc. apply (loop_group_reads _ _ _ Hloop).
    apply filter_In. split; [|exact Hacc]. now apply (Permutation_in _ (Permutation_sym Hp)). }
  exists a'. split; [exact Ha'|]. split.
  - destruct (analysis_shape self now ids' a' Ha') as (-> & _). rewrite Hs.
    unfold len.
    rewrite (Permutation_length Hp).
    rewrite (Permutation_length (filter_permutation (is_accepted self now) _ _ Hp)).
    unfold refused.
    now rewrite (Permutation_length (flat_map_permutation _ _ _ Hp)).
  - intros id Hid Hacc Huniq.
    rewrite (report_own_entry self now ids a id Ha Hid Hacc Huniq).
    rewrite (report_own_entry self now ids' a' id Ha').
    + f_equal. symmetry. now apply estimate_permutation.
    + now apply (Permutation_in _ Hp).
    + exact Hacc.
    + intros id' Hid'. apply Huniq. now apply (Permutation_in _ (Permutation_sym Hp)).
Qed.

Lemma analysis_order_independent_witness :
  exists a a',
    analyze_population_sample Sample.toolkit Sample.now
      [py "11010519491231002X"; py "123"; py "110105194912310011"] = Return a
    /\ analyze_population_sample Sample.toolkit Sample.now
         [py "123"; py "110105194912310011"; py "11010519491231002X"] = Return a'
    /\ summary a' = summary a.
Proof.
  eexists.
  match goal with
  | |- exists a', analyze_population_sample _ _ _ = Return ?a /\ _ =>
      assert (Ha : analyze_population_sample Sample.toolkit Sample.now
                     [py "11010519491231002X"; py "123"; py "110105194912310011"]
                   = Return a)
        by (vm_compute; reflexivity);
      destruct (analysis_order_independent Sample.toolkit Sample.now
                  [py "11010519491231002X"; py "123"; py "110105194912310011"]
                  [py "123"; py "110105194912310011"; py "11010519491231002X"] a)
        as (a' & Ha' & Hsummary & _)
  end.
  - apply Permutation_cons_append.
  - exact Ha.
  - exists a'. now repeat split.
Defined.

End SampleOrderProperties.

(** ** The check character [parse] reports; bounds on the estimates *)

Section ReportedValues.
Import Unicode Py IDCardToolkit Spec Scan.

(** An accepted number without white space at either end has eighteen
    characters: seventeen decimal digits and a character whose upper
    case is their check character. *)
Lemma accepted_trimmed_shape self now id :
  is_accepted self now id = true -> trimmed id ->
  length id = 18%nat
  /\ decimal_digits (take 17 id)
  /\ upper (drop 17 id) = check_char digit_value (take 17 id).
Proof.
  intros Ha Htrim. pose proof (accepted_checks self now id Ha) as Hchecks.
  destruct (accepted_prefix self now id Ha (proj1 Htrim)) as [Hp Hlen].
  destruct (accepted_normal self now id Ha) as (p & c & E & Hplen & Hpdec & Hc).
  rewrite (trimmed_strip id Htrim) in *.
  destruct Hchecks as (Hn & Hd & _ & _ & Hk). rewrite <- Hp in Hd, Hk.
  assert (Hall : forallb (fun d => is_digit d || (d =? 0x58)%N) (upper id) = true).
  { rewrite E, forallb_app. apply andb_true_iff. split.
    - rewrite forallb_forall in *. intros d Hin.
      now rewrite (decimal_is_digit d (Hpdec d Hin)).
    - cbn. now rewrite Hc. }
  apply upper_same_length in Hall. rewrite Hn in Hall.
  assert (Hdec : decimal_digits (take 17 id)) by now apply forallb_decimal.
  split; [now symmetry|]. split; [exact Hdec|].
  rewrite <- Hk. rewrite <- (take_drop 17 id) at 2. rewrite upper_app.
  rewrite (upper_fixed (take 17 id)).
  2:{ eapply Forall_impl; [exact Hdec|]. intros x Hx. cbv beta in Hx.
      now apply digit_fixed, decimal_is_digit. }
  now rewrite drop_app_length' by (symmetry; exact Hlen).
Qed.

Lemma skip_blanks_length s : (length (skip_blanks s) <= length s)%nat.
Proof.
  induction s as [|c s IH]; [reflexivity|]. cbn [skip_blanks].
  destruct (is_blank c); cbn [length]; lia.
Qed.

Lemma scan_digits_below s : forall acc after v rest,
  (0 <= acc)%Z -> scan_digits acc after s = Some (v, rest) ->
  (v < (acc + 1) * 10 ^ Z.of_nat (length s))%Z.
Proof.
  induction s as [|c s IH]; intros acc after v rest Hacc H.
  - cbn in H. destruct after; [discriminate|]. injection H as <- _. cbn. lia.
  - assert (Hpow : (10 ^ Z.of_nat (length (c :: s)) = 10 * 10 ^ Z.of_nat (length s))%Z).
    { cbn [length]. rewrite Nat2Z.inj_succ, Z.pow_succ_r by lia. reflexivity. }
    assert (Hpos : (0 < 10 ^ Z.of_nat (length s))%Z) by (apply Z.pow_pos_nonneg; lia).
    rewrite Hpow. cbn [scan_digits] in H. destruct (is_ascii_digit c) eqn:Ec.
    + apply ascii_digit_range in Ec. apply IH in H; [|lia]. nia.
    + destruct (c =? 0x5F)%N.
      * destruct after; [discriminate|]. apply IH in H; [|exact Hacc]. nia.
      * destruct after; [discriminate|]. injection H as <- _. nia.
Qed.

Lemma read_digits_below sign t v :
  (sign = 1 \/ sign = -1)%Z -> read_digits sign t = Return v ->
  (v < 10 ^ Z.of_nat (length t))%Z.
Proof.
  intros Hsign. unfold read_digits. destruct t as [|c t]; [discriminate|].
  destruct (is_ascii_digit c); [|discriminate].
  destruct (scan_digits 0 false (c :: t)) as [[x rest]|] eqn:E; [|discriminate].
  destruct (skip_blanks rest); [|discriminate]. intros [= <-].
  pose proof (scan_digits_nonneg _ _ _ _ _ (Z.le_refl 0) E).
  apply scan_digits_below in E; [|lia]. destruct Hsign as [-> | ->]; lia.
Qed.

(** [int] reads from a string a number with no more digits than the
    string has characters. *)
Lemma int_below s v : int s = Return v -> (v < 10 ^ Z.of_nat (length s))%Z.
Proof.
  rewrite int_unfold. pose proof (skip_blanks_length (map to_ascii_decimal s)) as Hlen.
  rewrite length_map in Hlen.
  destruct (skip_blanks (map to_ascii_decimal s)) as [|c t]; [discriminate|].
  cbn [length] in Hlen.
  assert (Hmono : forall k, (k <= length s)%nat ->
                    (10 ^ Z.of_nat k <= 10 ^ Z.of_nat (length s))%Z).
  { intros k Hk. apply Z.pow_le_mono_r; lia. }
  destruct (c =? 0x2B)%N.
  { intros H. apply read_digits_below in H; [|now left]. specialize (Hmono (length t)). lia. }
  destruct (c =? 0x2D)%N.
  { intros H. apply read_digits_below in H; [|now right]. specialize (Hmono (length t)). lia. }
  intros H. apply read_digits_below in H; [|now left].
  specialize (Hmono (length (c :: t))). cbn [length] in *. lia.
Qed.

Lemma sequence_number_below id v : sequence_number id = Return v -> (v <= 999)%Z.
Proof.
  unfold sequence_number. intros H. apply int_below in H.
  assert (Hlen : (length (slice 14 17 id) <= 3)%nat).
  { unfold slice. rewrite length_take. cbn [Nat.sub]. lia. }
  assert ((10 ^ Z.of_nat (length (slice 14 17 id)) <= 10 ^ 3)%Z)
    by (apply Z.pow_le_mono_r; lia).
  lia.
Qed.

Lemma observed_range self now ids key v :
  In v (observed self now ids key) -> (0 <= v <= 999)%Z.
Proof.
  intros Hv. split.
  - pose proof (sequences_nonneg self now ids key) as H. rewrite Forall_forall in H.
    now apply H, list_elem_of_In.
  - unfold observed, sequences in Hv. apply in_flat_map in Hv as (id & _ & Hv).
    destruct (bool_decide (key_of id = key)); [|destruct Hv].
    destruct (sequence_number id) as [x|] eqn:E; [|destruct Hv].
    destruct Hv as [<-|[]]. now apply sequence_number_below in E.
Qed.

Lemma filter_both_length {A} (f : A -> bool) l :
  (length (List.filter f l) + length (List.filter (fun x => negb (f x)) l) = length l)%nat.
Proof.
  induction l as [|x l IH]; [reflexivity|]. cbn [List.filter].
  destruct (f x); cbn [negb length]; lia.
Qed.

Lemma sequences_length ids key : (length (sequences ids key) <= length ids)%nat.
Proof.
  unfold sequences. induction ids as [|id ids IH]; [reflexivity|].
  cbn [flat_map]. rewrite length_app. cbn [length].
  destruct (bool_decide _); [destruct (sequence_number id)|]; cbn [length]; lia.
Qed.

Lemma largest_in_range (l : list Z) v rest :
  l = v :: rest -> (forall x, In x l -> (0 <= x <= 999)%Z) ->
  (0 <= fold_left Z.max rest v <= 999)%Z.
Proof.
  intros -> Hall. destruct (fold_max_spec rest v) as ([->|Hin] & _ & _);
    apply Hall; [now left | now right].
Qed.

End ReportedValues.

Section ReportedValueProperties.
Import Unicode Py IDCardToolkit Spec Scan.

(** X23. For an accepted number without white space at either end, the
    checksum [parse] reports is, in upper case, the check character
    [_calculate_checksum] computes from the first seventeen
    characters. *)
Theorem parse_reports_check_character self now today id :
  is_accepted self now id = true -> trimmed id ->
  exists fields,
    parse self now today id = Return (Valid fields)
    /\ _calculate_checksum (take 17 id) = Return (upper (checksum fields)).
Proof.
  intros Ha Htrim.
  destruct (accepted_trimmed_shape self now id Ha Htrim) as (Hlen & Hdec & Hup).
  destruct (parse_of_accepted self now today id Ha (proj1 Htrim))
    as (born & name & c16 & final & _ & _ & _ & _ & _ & _ & _ & Hlast & Hparse).
  eexists. split; [exact Hparse|]. cbn [checksum].
  rewrite checksum_of_digits by (rewrite ?length_take; (lia || exact Hdec)).
  f_equal. rewrite <- Hup. f_equal.
  revert Hlen Hlast. clear. intros Hlen Hlast.
  do 19 (destruct id as [|? id]; try discriminate Hlen).
  cbn in Hlast. injection Hlast as <-. reflexivity.
Qed.

Lemma parse_reports_check_character_witness :
  exists fields,
    parse Sample.toolkit Sample.now Sample.today (py "11010519491231002x")
    = Return (Valid fields)
    /\ _calculate_checksum (take 17 (py "11010519491231002x"))
       = Return (upper (checksum fields)).
Proof.
  apply (parse_reports_check_character Sample.toolkit Sample.now Sample.today
           (py "11010519491231002x")).
  - vm_compute. reflexivity.
  - split; vm_compute; reflexivity.
Defined.

(** X24. Every entry of a returned report counts at least one record
    and no more than the valid records; its estimate of males is between
    0 and 500, that of females between 0 and 499, and its total is their
    sum. *)
Theorem analysis_entry_bounds self now ids a label e :
  analyze_population_sample self now ids = Return a ->
  dict_get label (analysis_report a) = Some e ->
  (1 <= sample_count e <= valid_records (summary a))%Z
  /\ (0 <= estimated_males e <= 500)%Z
  /\ (0 <= estimated_females e <= 499)%Z
  /\ estimated_total e = (estimated_males e + estimated_females e)%Z.
Proof.
  intros Ha He.
  destruct (report_entry self now ids a label e Ha He) as (id & Hid & Hacc & _ & ->).
  destruct (analysis_shape self now ids a Ha) as (-> & _ & stats & Hloop & _).
  cbn [valid_records]. unfold estimate_of. cbv zeta.
  cbn [sample_count estimated_males estimated_females estimated_total].
  set (obs := observed self now ids (key_of id)).
  assert (Hrange : forall x, In x obs -> (0 <= x <= 999)%Z)
    by (intros x; apply observed_range).
  assert (Hany : exists v, In v obs).
  { destruct (loop_group_reads _ _ _ Hloop id) as [v Hv]; [now apply filter_In|].
    exists v. unfold obs, observed, sequences. apply in_flat_map. exists id.
    split; [now apply filter_In|].
    rewrite bool_decide_eq_true_2 by reflexivity. rewrite Hv. now left. }
  pose proof (filter_both_length is_odd obs) as Hcount.
  pose proof (sequences_length (List.filter (is_accepted self now) ids) (key_of id)) as Hmost.
  fold (observed self now ids (key_of id)) in Hmost. fold obs in Hmost.
  assert (Hsome : (1 <= length obs)%nat).
  { destruct Hany as [v Hv]. destruct obs; [destruct Hv | cbn [length]; lia]. }
  split; [unfold len; lia|].
  assert (Hm : forall x, In x (List.filter is_odd obs) -> (0 <= x <= 999)%Z).
  { intros x Hx. apply filter_In in Hx as [Hx _]. now apply Hrange. }
  assert (Hf : forall x, In x (List.filter (fun v => negb (is_odd v)) obs) -> (0 <= x <= 999)%Z).
  { intros x Hx. apply filter_In in Hx as [Hx _]. now apply Hrange. }
  split; [|split; [|reflexivity]].
  - unfold males_estimate. destruct (List.filter is_odd obs) as [|v rest] eqn:E; [lia|].
    pose proof (largest_in_range _ v rest eq_refl Hm).
    split; [apply Z.div_pos; lia | apply Z.div_le_upper_bound; lia].
  - unfold females_estimate.
    destruct (List.filter (fun v => negb (is_odd v)) obs) as [|v rest] eqn:E; [lia|].
    pose proof (largest_in_range _ v rest eq_refl Hf).
    split; [apply Z.div_pos; lia|]. Z.div_mod_to_equations. lia.
Qed.

Lemma analysis_entry_bounds_witness :
  exists a e,
    analyze_population_sample Sample.toolkit Sample.now
      [py "11010519491231002X"; py "123"; py "110105194912310011"] = Return a
    /\ dict_get (py "北京市市辖区朝阳区 (19491231)") (analysis_report a) = Some e
    /\ (1 <= sample_count e <= valid_records (summary a))%Z
    /\ (0 <= estimated_males e <= 500)%Z
    /\ (0 <= estimated_females e <= 499)%Z.
Proof.
  eexists. eexists. split; [vm_compute; reflexivity|]. split; [vm_compute; reflexivity|].
  match goal with
  | |- (1 <= sample_count ?e <= valid_records (summary ?a))%Z /\ _ =>
      destruct (analysis_entry_bounds Sample.toolkit Sample.now
                  [py "11010519491231002X"; py "123"; py "110105194912310011"]
                  a (py "北京市市辖区朝阳区 (19491231)") e)
        as (Hcount & Hmales & Hfemales & _)
  end.
  - vm_compute. reflexivity.
  - vm_compute. reflexivity.
  - repeat split; (apply Hcount || apply Hmales || apply Hfemales).
Defined.

End ReportedValueProperties.
